(** * Surveillance system: occupancy state machine, smoothing and alerts

    A shallow embedding of [detection_system.py] (class
    [AdvancedPersonDetectionSystem]) and of [update_settings] from [app.py].

    Conventions of the embedding:
    - the object [self] is the record [System]; a method is a function that
      takes the record and returns the updated record together with its
      return value and the external calls it made;
    - the external collaborators (YOLO, ByteTrack, OpenCV, Twilio, the
      clocks) are not executed: what they return, or whether they raise, is
      an argument of the method that calls them;
    - [time.time()] readings, [patience] and [alert_cooldown] are integers in
      one common unit; the arithmetic on them is exact;
    - a number is an exact rational; where the code applies [int()] to a
      value that comes from outside, the value is a [PyNumber], which may
      also be a NaN or an infinity. *)

From Stdlib Require Import Ascii String ZArith List Bool Lia QArith.
From Stdlib Require Import Sorting.Permutation Sorting.Sorted.
From Stdlib Require Floats.SpecFloat.
Import ListNotations.
Local Open Scope Z_scope.

Set Implicit Arguments.

(** ** Python values used by the code *)

(** The outcome of a call that may raise. *)
Inductive PyResult (A : Type) : Type :=
| Returned (a : A)
| Raised (exn : string).
Arguments Returned {A} a.
Arguments Raised {A} exn.

(** [l[-n:]] for [n > 0]: the last [n] items, the whole list when shorter. *)
Definition lastn {A : Type} (n : nat) (l : list A) : list A :=
  skipn (length l - n) l.

(** [sum] of a container of booleans ([True] counts 1). *)
Fixpoint sum_bools (l : list bool) : Z :=
  match l with
  | [] => 0
  | b :: r => (if b then 1 else 0) + sum_bools r
  end.

(** [collections.deque] with a [maxlen]. *)
Module Deque.

Record t (A : Type) : Type := mk { items : list A; maxlen : nat }.
Arguments mk {A} items maxlen.

(** [deque(xs, maxlen=n)]: only the last [n] items are kept. *)
Definition make {A : Type} (xs : list A) (n : nat) : t A := mk (lastn n xs) n.

(** [d.append(x)]: a full deque discards from the left end. *)
Definition append {A : Type} (x : A) (d : t A) : t A :=
  mk (lastn (maxlen d) (items d ++ [x])) (maxlen d).

(** [d.appendleft(x)]: a full deque discards from the right end. *)
Definition appendleft {A : Type} (x : A) (d : t A) : t A :=
  mk (firstn (maxlen d) (x :: items d)) (maxlen d).

Definition len {A : Type} (d : t A) : nat := length (items d).

End Deque.

(** [[False] * n]: empty for [n <= 0]. *)
Definition falses (n : Z) : list bool := repeat false (Z.to_nat n).

(** The first integer that is no index: [sys.maxsize + 1] on a 64-bit
    build of the interpreter. *)
Definition index_limit : Z := 2 ^ 63.

(** [deque([False] * n, maxlen=n)].  The list is built first:
    [[False] * n] raises [OverflowError] when [n] is no index, is empty for
    a negative [n], and raises [MemoryError] when its [n] items cannot be
    allocated; whether they can is not decided by the program and is the
    argument [allocated].  [deque] then raises [ValueError] for a negative
    [maxlen]. *)
Definition fresh_window (n : Z) (allocated : bool) : PyResult (Deque.t bool) :=
  if index_limit <=? n then
    Raised "OverflowError: cannot fit 'int' into an index-sized integer"
  else if n <? 0 then Raised "ValueError: maxlen must be non-negative"
  else if allocated then Returned (Deque.make (falses n) (Z.to_nat n))
  else Raised "MemoryError".

(** ** [numpy.median] *)

(** Sorting of the sample, smallest first. *)
Fixpoint insert_sorted (x : Z) (l : list Z) : list Z :=
  match l with
  | [] => [x]
  | y :: r => if x <=? y then x :: l else y :: insert_sorted x r
  end.

Fixpoint sort_counts (l : list Z) : list Z :=
  match l with
  | [] => []
  | x :: r => insert_sorted x (sort_counts r)
  end.

(** [np.median(l)]: the middle of the sorted values, the mean of the two
    middle ones for an even length. *)
Definition np_median (l : list Z) : Q :=
  let s := sort_counts l in
  let n := length l in
  if Nat.odd n then inject_Z (nth (n / 2) s 0)
  else Qmake (nth (n / 2 - 1) s 0 + nth (n / 2) s 0) 2.

(** [q > 0] for the value of [np.median]. *)
Definition Qpositive (q : Q) : bool := 0 <? Qnum q.

(** [int(x)] of a number: truncation toward zero. *)
Definition py_int (q : Q) : Z := Z.quot (Qnum q) (Zpos (Qden q)).

(** A number as a caller may pass it: an [int] or a finite [float], or one
    of the [float] values that are no numbers. *)
Inductive PyNumber : Type :=
| Finite (q : Q)
| NaN
| Infinity (negative : bool).

(** [int(x)] of such a value: [ValueError] for a NaN, [OverflowError] for an
    infinity. *)
Definition py_int_of (x : PyNumber) : PyResult Z :=
  match x with
  | Finite q => Returned (py_int q)
  | NaN => Raised "ValueError: cannot convert float NaN to integer"
  | Infinity _ =>
      Raised "OverflowError: cannot convert float infinity to integer"
  end.

(** [n * c >= s] and [s > n * c] for the constants [c = 0.6] and [c = 0.3]
    of the state machine, written [tenths / 10].  The source multiplies the
    integer [n] by a binary64 constant and compares the product with an
    integer; [float_ge_frac_agrees] and [float_gt_frac_agrees] check, on the
    binary64 operations of [SpecFloat], that this gives the same answer as
    the exact comparison used here. *)
Definition ge_frac (s n tenths : Z) : bool := tenths * n <=? 10 * s.
Definition gt_frac (s n tenths : Z) : bool := tenths * n <? 10 * s.

(** ** The object [AdvancedPersonDetectionSystem] *)

(** A captured image, identified by the index of its capture. *)
Definition Frame : Type := nat.

(** A [cv2.VideoWriter]: the file it writes and whether it is still open. *)
Record Writer : Type := { w_path : string; w_opened : bool }.

(** One item of the list returned by [detect_persons_yolo]. *)
Record Detection : Type := {
  bbox : Z * Z * Z * Z;
  confidence : Q;
  area : Z;
  center : Z * Z
}.

Record System : Type := {
  cap_opened : bool;        (* [self.cap] is set and [self.cap.isOpened()] *)
  out : option Writer;      (* [self.out], [None] before the first recording *)
  running : bool;
  confidence_threshold : Q;
  detection_thresh : Z;
  patience : Z;
  area_threshold : Z;
  status : bool;            (* the room is occupied *)
  initial_time : option Z;  (* the start of the exit timer *)
  de : Deque.t bool;        (* the presence window, newest first *)
  person_count_history : Deque.t Z;
  detection_count : Z;
  entry_time : option string;
  tracker : bool;           (* [self.tracker] is not [None] *)
  twilio_enabled : bool;
  last_alert_time : Z;
  alert_cooldown : Z;
  latest_frame : option Frame;  (* the cell guarded by [self.frame_lock] *)
  frame_thread : bool;      (* the grabber thread is in its loop *)
  stop_thread : bool
}.

(** Assignments [self.f = v]. *)
Definition set_cap_opened (v : bool) (self : System) : System :=
  {| cap_opened := v; out := out self; running := running self;
     confidence_threshold := confidence_threshold self; detection_thresh :=
     detection_thresh self; patience := patience self; area_threshold :=
     area_threshold self; status := status self; initial_time :=
     initial_time self; de := de self; person_count_history :=
     person_count_history self; detection_count := detection_count self;
     entry_time := entry_time self; tracker := tracker self; twilio_enabled
     := twilio_enabled self; last_alert_time := last_alert_time self;
     alert_cooldown := alert_cooldown self; latest_frame := latest_frame
     self; frame_thread := frame_thread self; stop_thread := stop_thread
     self |}.

Definition set_out (v : option Writer) (self : System) : System :=
  {| cap_opened := cap_opened self; out := v; running := running self;
     confidence_threshold := confidence_threshold self; detection_thresh :=
     detection_thresh self; patience := patience self; area_threshold :=
     area_threshold self; status := status self; initial_time :=
     initial_time self; de := de self; person_count_history :=
     person_count_history self; detection_count := detection_count self;
     entry_time := entry_time self; tracker := tracker self; twilio_enabled
     := twilio_enabled self; last_alert_time := last_alert_time self;
     alert_cooldown := alert_cooldown self; latest_frame := latest_frame
     self; frame_thread := frame_thread self; stop_thread := stop_thread
     self |}.

Definition set_running (v : bool) (self : System) : System :=
  {| cap_opened := cap_opened self; out := out self; running := v;
     confidence_threshold := confidence_threshold self; detection_thresh :=
     detection_thresh self; patience := patience self; area_threshold :=
     area_threshold self; status := status self; initial_time :=
     initial_time self; de := de self; person_count_history :=
     person_count_history self; detection_count := detection_count self;
     entry_time := entry_time self; tracker := tracker self; twilio_enabled
     := twilio_enabled self; last_alert_time := last_alert_time self;
     alert_cooldown := alert_cooldown self; latest_frame := latest_frame
     self; frame_thread := frame_thread self; stop_thread := stop_thread
     self |}.

Definition set_confidence_threshold (v : Q) (self : System) : System :=
  {| cap_opened := cap_opened self; out := out self; running := running
     self; confidence_threshold := v; detection_thresh := detection_thresh
     self; patience := patience self; area_threshold := area_threshold self;
     status := status self; initial_time := initial_time self; de := de
     self; person_count_history := person_count_history self;
     detection_count := detection_count self; entry_time := entry_time self;
     tracker := tracker self; twilio_enabled := twilio_enabled self;
     last_alert_time := last_alert_time self; alert_cooldown :=
     alert_cooldown self; latest_frame := latest_frame self; frame_thread :=
     frame_thread self; stop_thread := stop_thread self |}.

Definition set_detection_thresh (v : Z) (self : System) : System :=
  {| cap_opened := cap_opened self; out := out self; running := running
     self; confidence_threshold := confidence_threshold self;
     detection_thresh := v; patience := patience self; area_threshold :=
     area_threshold self; status := status self; initial_time :=
     initial_time self; de := de self; person_count_history :=
     person_count_history self; detection_count := detection_count self;
     entry_time := entry_time self; tracker := tracker self; twilio_enabled
     := twilio_enabled self; last_alert_time := last_alert_time self;
     alert_cooldown := alert_cooldown self; latest_frame := latest_frame
     self; frame_thread := frame_thread self; stop_thread := stop_thread
     self |}.

Definition set_patience (v : Z) (self : System) : System :=
  {| cap_opened := cap_opened self; out := out self; running := running
     self; confidence_threshold := confidence_threshold self;
     detection_thresh := detection_thresh self; patience := v;
     area_threshold := area_threshold self; status := status self;
     initial_time := initial_time self; de := de self; person_count_history
     := person_count_history self; detection_count := detection_count self;
     entry_time := entry_time self; tracker := tracker self; twilio_enabled
     := twilio_enabled self; last_alert_time := last_alert_time self;
     alert_cooldown := alert_cooldown self; latest_frame := latest_frame
     self; frame_thread := frame_thread self; stop_thread := stop_thread
     self |}.

Definition set_area_threshold (v : Z) (self : System) : System :=
  {| cap_opened := cap_opened self; out := out self; running := running
     self; confidence_threshold := confidence_threshold self;
     detection_thresh := detection_thresh self; patience := patience self;
     area_threshold := v; status := status self; initial_time :=
     initial_time self; de := de self; person_count_history :=
     person_count_history self; detection_count := detection_count self;
     entry_time := entry_time self; tracker := tracker self; twilio_enabled
     := twilio_enabled self; last_alert_time := last_alert_time self;
     alert_cooldown := alert_cooldown self; latest_frame := latest_frame
     self; frame_thread := frame_thread self; stop_thread := stop_thread
     self |}.

Definition set_status (v : bool) (self : System) : System :=
  {| cap_opened := cap_opened self; out := out self; running := running
     self; confidence_threshold := confidence_threshold self;
     detection_thresh := detection_thresh self; patience := patience self;
     area_threshold := area_threshold self; status := v; initial_time :=
     initial_time self; de := de self; person_count_history :=
     person_count_history self; detection_count := detection_count self;
     entry_time := entry_time self; tracker := tracker self; twilio_enabled
     := twilio_enabled self; last_alert_time := last_alert_time self;
     alert_cooldown := alert_cooldown self; latest_frame := latest_frame
     self; frame_thread := frame_thread self; stop_thread := stop_thread
     self |}.

Definition set_initial_time (v : option Z) (self : System) : System :=
  {| cap_opened := cap_opened self; out := out self; running := running
     self; confidence_threshold := confidence_threshold self;
     detection_thresh := detection_thresh self; patience := patience self;
     area_threshold := area_threshold self; status := status self;
     initial_time := v; de := de self; person_count_history :=
     person_count_history self; detection_count := detection_count self;
     entry_time := entry_time self; tracker := tracker self; twilio_enabled
     := twilio_enabled self; last_alert_time := last_alert_time self;
     alert_cooldown := alert_cooldown self; latest_frame := latest_frame
     self; frame_thread := frame_thread self; stop_thread := stop_thread
     self |}.

Definition set_de (v : Deque.t bool) (self : System) : System :=
  {| cap_opened := cap_opened self; out := out self; running := running
     self; confidence_threshold := confidence_threshold self;
     detection_thresh := detection_thresh self; patience := patience self;
     area_threshold := area_threshold self; status := status self;
     initial_time := initial_time self; de := v; person_count_history :=
     person_count_history self; detection_count := detection_count self;
     entry_time := entry_time self; tracker := tracker self; twilio_enabled
     := twilio_enabled self; last_alert_time := last_alert_time self;
     alert_cooldown := alert_cooldown self; latest_frame := latest_frame
     self; frame_thread := frame_thread self; stop_thread := stop_thread
     self |}.

Definition set_person_count_history (v : Deque.t Z) (self : System) : System :=
  {| cap_opened := cap_opened self; out := out self; running := running
     self; confidence_threshold := confidence_threshold self;
     detection_thresh := detection_thresh self; patience := patience self;
     area_threshold := area_threshold self; status := status self;
     initial_time := initial_time self; de := de self; person_count_history
     := v; detection_count := detection_count self; entry_time := entry_time
     self; tracker := tracker self; twilio_enabled := twilio_enabled self;
     last_alert_time := last_alert_time self; alert_cooldown :=
     alert_cooldown self; latest_frame := latest_frame self; frame_thread :=
     frame_thread self; stop_thread := stop_thread self |}.

Definition set_detection_count (v : Z) (self : System) : System :=
  {| cap_opened := cap_opened self; out := out self; running := running
     self; confidence_threshold := confidence_threshold self;
     detection_thresh := detection_thresh self; patience := patience self;
     area_threshold := area_threshold self; status := status self;
     initial_time := initial_time self; de := de self; person_count_history
     := person_count_history self; detection_count := v; entry_time :=
     entry_time self; tracker := tracker self; twilio_enabled :=
     twilio_enabled self; last_alert_time := last_alert_time self;
     alert_cooldown := alert_cooldown self; latest_frame := latest_frame
     self; frame_thread := frame_thread self; stop_thread := stop_thread
     self |}.

Definition set_entry_time (v : option string) (self : System) : System :=
  {| cap_opened := cap_opened self; out := out self; running := running
     self; confidence_threshold := confidence_threshold self;
     detection_thresh := detection_thresh self; patience := patience self;
     area_threshold := area_threshold self; status := status self;
     initial_time := initial_time self; de := de self; person_count_history
     := person_count_history self; detection_count := detection_count self;
     entry_time := v; tracker := tracker self; twilio_enabled :=
     twilio_enabled self; last_alert_time := last_alert_time self;
     alert_cooldown := alert_cooldown self; latest_frame := latest_frame
     self; frame_thread := frame_thread self; stop_thread := stop_thread
     self |}.

Definition set_twilio_enabled (v : bool) (self : System) : System :=
  {| cap_opened := cap_opened self; out := out self; running := running
     self; confidence_threshold := confidence_threshold self;
     detection_thresh := detection_thresh self; patience := patience self;
     area_threshold := area_threshold self; status := status self;
     initial_time := initial_time self; de := de self; person_count_history
     := person_count_history self; detection_count := detection_count self;
     entry_time := entry_time self; tracker := tracker self; twilio_enabled
     := v; last_alert_time := last_alert_time self; alert_cooldown :=
     alert_cooldown self; latest_frame := latest_frame self; frame_thread :=
     frame_thread self; stop_thread := stop_thread self |}.

Definition set_last_alert_time (v : Z) (self : System) : System :=
  {| cap_opened := cap_opened self; out := out self; running := running
     self; confidence_threshold := confidence_threshold self;
     detection_thresh := detection_thresh self; patience := patience self;
     area_threshold := area_threshold self; status := status self;
     initial_time := initial_time self; de := de self; person_count_history
     := person_count_history self; detection_count := detection_count self;
     entry_time := entry_time self; tracker := tracker self; twilio_enabled
     := twilio_enabled self; last_alert_time := v; alert_cooldown :=
     alert_cooldown self; latest_frame := latest_frame self; frame_thread :=
     frame_thread self; stop_thread := stop_thread self |}.

Definition set_latest_frame (v : option Frame) (self : System) : System :=
  {| cap_opened := cap_opened self; out := out self; running := running
     self; confidence_threshold := confidence_threshold self;
     detection_thresh := detection_thresh self; patience := patience self;
     area_threshold := area_threshold self; status := status self;
     initial_time := initial_time self; de := de self; person_count_history
     := person_count_history self; detection_count := detection_count self;
     entry_time := entry_time self; tracker := tracker self; twilio_enabled
     := twilio_enabled self; last_alert_time := last_alert_time self;
     alert_cooldown := alert_cooldown self; latest_frame := v; frame_thread
     := frame_thread self; stop_thread := stop_thread self |}.

Definition set_frame_thread (v : bool) (self : System) : System :=
  {| cap_opened := cap_opened self; out := out self; running := running
     self; confidence_threshold := confidence_threshold self;
     detection_thresh := detection_thresh self; patience := patience self;
     area_threshold := area_threshold self; status := status self;
     initial_time := initial_time self; de := de self; person_count_history
     := person_count_history self; detection_count := detection_count self;
     entry_time := entry_time self; tracker := tracker self; twilio_enabled
     := twilio_enabled self; last_alert_time := last_alert_time self;
     alert_cooldown := alert_cooldown self; latest_frame := latest_frame
     self; frame_thread := v; stop_thread := stop_thread self |}.

Definition set_stop_thread (v : bool) (self : System) : System :=
  {| cap_opened := cap_opened self; out := out self; running := running
     self; confidence_threshold := confidence_threshold self;
     detection_thresh := detection_thresh self; patience := patience self;
     area_threshold := area_threshold self; status := status self;
     initial_time := initial_time self; de := de self; person_count_history
     := person_count_history self; detection_count := detection_count self;
     entry_time := entry_time self; tracker := tracker self; twilio_enabled
     := twilio_enabled self; last_alert_time := last_alert_time self;
     alert_cooldown := alert_cooldown self; latest_frame := latest_frame
     self; frame_thread := frame_thread self; stop_thread := v |}.

(** [__init__], with the tracker as [initialize_models] left it. *)
Definition init_system (tracker_ready : bool) : System :=
  {| cap_opened := false; out := None; running := false;
     confidence_threshold := 1 # 2; detection_thresh := 8; patience := 5;
     area_threshold := 2000; status := false; initial_time := None;
     de := Deque.make (falses 8) 8;
     person_count_history := Deque.make [] 30;
     detection_count := 0; entry_time := None; tracker := tracker_ready;
     twilio_enabled := false; last_alert_time := 0; alert_cooldown := 300;
     latest_frame := None; frame_thread := false; stop_thread := false |}.

Definition output_dir : string := "surveillance_outputs".

(** ** External calls made by the methods, in the order they are made *)

Inductive Call : Type :=
| VideoWriter_new (path : string)   (* cv2.VideoWriter(path, ...) *)
| Writer_release                    (* self.out.release() *)
| Writer_write                      (* self.out.write(frame) *)
| Messages_create (body : string).  (* client.messages.create(...) *)

(** ** [setup_twilio] *)

Definition nonempty (s : string) : bool :=
  match s with EmptyString => false | _ => true end.

Definition setup_twilio (self : System)
  (account_sid auth_token your_num twilio_num : string) : System :=
  set_twilio_enabled
    (nonempty account_sid && nonempty auth_token && nonempty your_num
     && nonempty twilio_num) self.

(** ** [send_message] *)

(** The four replies of [send_message]. *)
Inductive SendReply : Type :=
| NotConfigured                  (* "Twilio not configured" *)
| CooldownActive                 (* "Alert cooldown active" *)
| MessageSent (sid : string)     (* "Message sent successfully: ..." *)
| SendFailed (exn : string).     (* "Failed to send message: ..." *)

(** [current_time] is the reading of [time.time()]; [create] is what
    [client.messages.create] does when it is called: it returns the sid of
    the message or raises. *)
Definition send_message (self : System) (body : string)
  (current_time : Z) (create : PyResult string) : System * SendReply :=
  if negb (twilio_enabled self) then (self, NotConfigured)
  else if current_time - last_alert_time self <? alert_cooldown self
  then (self, CooldownActive)
  else match create with
       | Returned sid =>
           (set_last_alert_time current_time self, MessageSent sid)
       | Raised e => (self, SendFailed e)
       end.

(** The calls to the notification channel behind a reply. *)
Definition send_calls (body : string) (r : SendReply) : list Call :=
  match r with
  | MessageSent _ | SendFailed _ => [Messages_create body]
  | NotConfigured | CooldownActive => []
  end.

(** ** [track_persons] *)

(** [update] is the outcome of the [try] body (building the array,
    [self.tracker.update], drawing the boxes): it completes or raises.  The
    frame is drawn on and returned as it is; the count is the second
    component of the pair the method returns. *)
Definition track_persons (self : System) (detections : list Detection)
  (update : PyResult unit) : PyResult Z :=
  if negb (tracker self) then Returned 0
  else match detections with
       | [] => Returned 0
       | _ :: _ =>
           match update with
           | Returned _ => Returned (Z.of_nat (length detections))
           | Raised _ => Returned (Z.of_nat (length detections))
           end
       end.

(** ** [apply_smart_filtering] *)

Definition apply_smart_filtering (self : System) (person_count : Z)
  : System * bool :=
  let history := Deque.append person_count (person_count_history self) in
  let self := set_person_count_history history self in
  if (Deque.len history <? 5)%nat then (self, 0 <? person_count)
  else
    let recent_counts := lastn 5 (Deque.items history) in
    let median_count := np_median recent_counts in
    (self, Qpositive median_count).

(** ** [threaded_frame_grabber] *)

(** One turn of the loop of the grabber thread; [read] is what
    [self.cap.read()] gives: a frame, or [None] for a failed read (or an
    exception), after which the thread leaves the loop. *)
Definition grabber_iteration (self : System) (read : option Frame) : System :=
  if frame_thread self && negb (stop_thread self) && cap_opened self then
    match read with
    | None => set_frame_thread false self
    | Some frame => set_latest_frame (Some frame) self
    end
  else set_frame_thread false self.

(** ** [start_camera] and [stop_camera] *)

(** [opened]: the device opens and the test read gives a frame. *)
Definition start_camera (self : System) (opened : bool) : System * bool :=
  if opened then
    (set_frame_thread true (set_stop_thread false (set_cap_opened true self)),
     true)
  else (set_cap_opened false self, false).

Definition release_writer (w : Writer) : Writer :=
  {| w_path := w_path w; w_opened := false |}.

(** [if self.out: self.out.release()] *)
Definition release_out (self : System) : System * list Call :=
  match out self with
  | Some w => (set_out (Some (release_writer w)) self, [Writer_release])
  | None => (self, [])
  end.

Definition stop_camera (self : System) : System * list Call :=
  let self := set_running false self in
  let self := set_stop_thread true self in
  let self := set_cap_opened false self in
  let (self, calls) := release_out self in
  let self := set_status false self in
  (self, calls).

(** ** [process_frame] *)

(** What the collaborators give during one call of [process_frame]. *)
Record FrameEnv : Type := {
  detections : list Detection;      (* the list from [detect_persons_yolo] *)
  tracker_update : PyResult unit;   (* the [try] body of [track_persons] *)
  entry_stamp : string;             (* [datetime.now().strftime] at entry *)
  writer_new : PyResult bool;       (* the [try] block that builds the writer:
                                       raises, or gives a writer with this
                                       [isOpened()] *)
  now : Z;                          (* [time.time()] in the exit logic *)
  exit_stamp : string;              (* [datetime.now().strftime] at exit *)
  alert_time : Z;                   (* [time.time()] inside [send_message] *)
  messages_create : PyResult string (* [client.messages.create] *)
}.

Definition window_sum (self : System) : Z := sum_bools (Deque.items (de self)).

Definition recording_path (stamp : string) : string :=
  (output_dir ++ "/" ++ stamp ++ ".mp4")%string.

Definition newline : string := String (Ascii.ascii_of_nat 10) EmptyString.

Definition show_entry_time (t : option string) : string :=
  match t with Some s => s | None => "None" end.

(** The text of the alert (the pictographs of the source are left out). *)
Definition alert_body (self : System) (exit_time : string) : string :=
  ("Security Alert:" ++ newline
   ++ "Person Entered: " ++ show_entry_time (entry_time self) ++ newline
   ++ "Person Left: " ++ exit_time ++ newline
   ++ "Video saved to " ++ output_dir)%string.

(** Lines 310-326: the entry transition. *)
Definition entry_transition (self : System) (env : FrameEnv)
  : System * list Call :=
  if ge_frac (window_sum self) (detection_thresh self) 6 && negb (status self)
  then
    let self := set_status true self in
    let self := set_entry_time (Some (entry_stamp env)) self in
    let path := recording_path (entry_stamp env) in
    match writer_new env with
    | Returned opened =>
        (set_out (Some {| w_path := path; w_opened := opened |}) self,
         [VideoWriter_new path])
    | Raised _ => (self, [VideoWriter_new path])
    end
  else (self, []).

(** Lines 333-340: the exit transition. *)
Definition exit_transition (self : System) (env : FrameEnv)
  : System * list Call :=
  let self := set_status false self in
  let exit_time := exit_stamp env in
  let (self, released) := release_out self in
  let self := set_initial_time None self in
  let body := alert_body self exit_time in
  let (self, reply) :=
    send_message self body (alert_time env) (messages_create env) in
  (self, released ++ send_calls body reply).

(** Lines 327-342: the exit timer. *)
Definition exit_logic (self : System) (person_detected : bool) (env : FrameEnv)
  : System * list Call :=
  if status self && negb person_detected then
    if gt_frac (window_sum self) (detection_thresh self) 3 then
      match initial_time self with
      | None => (set_initial_time (Some (now env)) self, [])
      | Some _ => (self, [])
      end
    else
      match initial_time self with
      | Some started =>
          if patience self <=? now env - started
          then exit_transition self env
          else (self, [])
      | None => (self, [])
      end
  else if status self && gt_frac (window_sum self) (detection_thresh self) 3
  then (set_initial_time None self, [])
  else (self, []).

(** Lines 373-377: [if self.status and self.out: self.out.write(frame)]. *)
Definition write_frame (self : System) : list Call :=
  match out self with
  | Some _ => if status self then [Writer_write] else []
  | None => []
  end.

(** Lines 379-380: [if person_detected: self.detection_count += 1]. *)
Definition count_detection (person_detected : bool) (self : System) : System :=
  if person_detected
  then set_detection_count (detection_count self + 1) self
  else self.

(** Lines 308-309: the smoothed presence of the frame goes to the front of
    the presence window. *)
Definition push_presence (self : System) (person_count : Z) : System * bool :=
  let (self, person_detected) := apply_smart_filtering self person_count in
  (set_de (Deque.appendleft person_detected (de self)) self, person_detected).

(** Lines 308-342 and 373-380: smoothing, the presence window and the state
    machine, for the count returned by [track_persons]. *)
Definition occupancy_update (self : System) (person_count : Z) (env : FrameEnv)
  : System * list Call :=
  let (self, person_detected) := push_presence self person_count in
  let (self, opened) := entry_transition self env in
  let (self, exited) := exit_logic self person_detected env in
  let written := write_frame self in
  let self := count_detection person_detected self in
  (self, opened ++ exited ++ written).

(** [with self.frame_lock: frame = self.latest_frame.copy() if ... else None] *)
Definition fetch_latest (self : System) : option Frame := latest_frame self.

(** The OpenCV calls that resize and draw are taken to return; an exception
    of [track_persons] would be caught by the handler of the method. *)
Definition process_frame (self : System) (env : FrameEnv)
  : System * list Call :=
  if negb (cap_opened self) then (self, [])
  else
    match fetch_latest self with
    | None => (self, [])
    | Some frame =>
        match track_persons self (detections env) (tracker_update env) with
        | Returned person_count => occupancy_update self person_count env
        | Raised _ => (self, [])
        end
    end.

(** ** [app.py] *)

(** [update_settings]: four assignments in the order of the source, two of
    them through [int()], then the new window.  An exception of [int()] or
    of the construction of the window ends the call and leaves the
    assignments made before it. *)
Definition update_settings (self : System)
  (confidence : Q) (area_threshold : PyNumber) (patience : Z)
  (detection_thresh : PyNumber) (allocated : bool)
  : System * PyResult string :=
  let self := set_confidence_threshold confidence self in
  match py_int_of area_threshold with
  | Raised e => (self, Raised e)
  | Returned area =>
      let self := set_area_threshold area self in
      let self := set_patience patience self in
      match py_int_of detection_thresh with
      | Raised e => (self, Raised e)
      | Returned window_size =>
          let self := set_detection_thresh window_size self in
          match fresh_window window_size allocated with
          | Returned window =>
              (set_de window self,
               Returned "Settings updated successfully!"%string)
          | Raised e => (self, Raised e)
          end
      end
  end.

Definition start_detection (self : System) (opened : bool) : System :=
  let (self, success) := start_camera self opened in
  if success then set_running true self else self.

Definition get_frame (self : System) (env : FrameEnv) : System * list Call :=
  if running self && cap_opened self then process_frame self env
  else (self, []).

Definition test_sms (self : System) (body : string) (current_time : Z)
  (create : PyResult string) : System * option SendReply :=
  if twilio_enabled self then
    let (self, reply) := send_message self body current_time create in
    (self, Some reply)
  else (self, None).

(** ** States the public operations lead to *)

Inductive reachable : System -> Prop :=
| reach_init : forall tracker_ready, reachable (init_system tracker_ready)
| reach_setup_twilio : forall self a b c d,
    reachable self -> reachable (setup_twilio self a b c d)
| reach_start_camera : forall self opened,
    reachable self -> reachable (fst (start_camera self opened))
| reach_start_detection : forall self opened,
    reachable self -> reachable (start_detection self opened)
| reach_stop_camera : forall self,
    reachable self -> reachable (fst (stop_camera self))
| reach_grabber : forall self read,
    reachable self -> reachable (grabber_iteration self read)
| reach_process_frame : forall self env,
    reachable self -> reachable (fst (process_frame self env))
| reach_send_message : forall self body t create,
    reachable self -> reachable (fst (send_message self body t create))
| reach_update_settings : forall self c a p d allocated,
    reachable self -> reachable (fst (update_settings self c a p d allocated)).

(** A recording is active: there is a writer and it is open. *)
Definition recording_active (self : System) : bool :=
  match out self with
  | Some w => w_opened w
  | None => false
  end.

(** Feeding a list of calls of [process_frame]. *)
Fixpoint process_frames (self : System) (envs : list FrameEnv)
  : System * list Call :=
  match envs with
  | [] => (self, [])
  | env :: rest =>
      let (self, calls) := process_frame self env in
      let (self, more) := process_frames self rest in
      (self, calls ++ more)
  end.

(** ** The smoother fed with a sequence of raw counts *)

Fixpoint smooth_counts (self : System) (counts : list Z) : System * list bool :=
  match counts with
  | [] => (self, [])
  | c :: rest =>
      let (self, present) := apply_smart_filtering self c in
      let (self, more) := smooth_counts self rest in
      (self, present :: more)
  end.

(** The answer of the smoother in closed form, on the samples collected so
    far (the current one last); it is written with the operations of the
    code and serves the proofs. *)
Definition smoother_expected (collected : list Z) : bool :=
  if (length collected <? 5)%nat then 0 <? last collected 0
  else Qpositive (np_median (lastn 5 collected)).

Definition count_le (m : Z) (l : list Z) : nat :=
  length (filter (fun x => x <=? m) l).

Definition count_ge (m : Z) (l : list Z) : nat :=
  length (filter (fun x => m <=? x) l).

(** [m] is the median of a sample of odd size: it is one of the values, and
    more than half of the values are at most [m], more than half at least
    [m]. *)
Definition is_median (m : Z) (l : list Z) : Prop :=
  In m l /\ (length l < 2 * count_le m l)%nat
         /\ (length l < 2 * count_ge m l)%nat.

(** Section 4.3 of the specification, in its own words, on the raw counts
    collected so far (the current one last): while fewer than five counts
    are collected the answer is whether the current count is positive;
    otherwise it is whether the median of the five most recent counts is
    positive.  The five most recent counts are the five that end the
    sequence, and the median is the one of [is_median]. *)
Definition smoothed_presence (collected : list Z) (present : bool) : Prop :=
  ((length collected < 5)%nat
   /\ exists earlier current,
        collected = earlier ++ [current] /\ present = (0 <? current))
  \/ (exists older a b c d e m,
        collected = older ++ [a; b; c; d; e]
        /\ is_median m [a; b; c; d; e]
        /\ present = (0 <? m)).

(** ** The frame cell shared by the grabber thread and [process_frame] *)

(** The lock makes the write of the grabber and the read of [process_frame]
    atomic, so a run of the two threads is an interleaving of these steps. *)
Inductive PipelineStep : Type :=
| Grab (read : option Frame)    (* one turn of [threaded_frame_grabber] *)
| Process (env : FrameEnv).     (* one call of [process_frame] *)

(** What a run shows: the frames the camera delivered to a live grabber,
    and what [process_frame] found in the cell. *)
Inductive Observation : Type :=
| Captured (frame : Frame)
| Fetched (frame : option Frame).

Definition grabber_live (self : System) : bool :=
  frame_thread self && negb (stop_thread self) && cap_opened self.

Definition observe (self : System) (step : PipelineStep) : list Observation :=
  match step with
  | Grab (Some frame) => if grabber_live self then [Captured frame] else []
  | Grab None => []
  | Process _ => if cap_opened self then [Fetched (fetch_latest self)] else []
  end.

Definition pipeline_step (self : System) (step : PipelineStep) : System :=
  match step with
  | Grab read => grabber_iteration self read
  | Process env => fst (process_frame self env)
  end.

Fixpoint run_pipeline (self : System) (steps : list PipelineStep)
  : System * list Observation :=
  match steps with
  | [] => (self, [])
  | step :: rest =>
      let seen := observe self step in
      let (self, more) := run_pipeline (pipeline_step self step) rest in
      (self, seen ++ more)
  end.

(** The number of frames waiting between the two threads. *)
Definition buffered_frames (self : System) : nat :=
  match latest_frame self with
  | Some _ => 1
  | None => 0
  end.



(** ** Sequences of alert dispatches *)

(** One call of [send_message]: the clock reading and what the channel does. *)
Record Dispatch : Type := {
  at_time : Z;
  text : string;
  channel : PyResult string
}.

(** The calls are made one after the other; each gives its reply. *)
Fixpoint dispatch_all (self : System) (calls : list Dispatch)
  : System * list (Z * SendReply) :=
  match calls with
  | [] => (self, [])
  | d :: rest =>
      let (self, reply) := send_message self (text d) (at_time d) (channel d) in
      let (self, more) := dispatch_all self rest in
      (self, (at_time d, reply) :: more)
  end.

Definition is_sent (r : SendReply) : bool :=
  match r with MessageSent _ => true | _ => false end.

Definition is_attempt (r : SendReply) : bool :=
  match r with MessageSent _ | SendFailed _ => true | _ => false end.

(** The times of the alerts that were sent, in the order of the calls. *)
Definition sent_times (log : list (Z * SendReply)) : list Z :=
  map fst (filter (fun e => is_sent (snd e)) log).

(** The number of calls that reached the notification channel. *)
Definition attempts (log : list (Z * SendReply)) : nat :=
  length (filter (fun e => is_attempt (snd e)) log).

Definition is_create (c : Call) : bool :=
  match c with Messages_create _ => true | _ => false end.

Definition is_writer_new (c : Call) : bool :=
  match c with VideoWriter_new _ => true | _ => false end.


(** ** The binary64 comparisons of the source *)

(** [float(n)] for a Python integer. *)
Definition b64_of_int (n : Z) : SpecFloat.spec_float :=
  SpecFloat.binary_normalize 53 1024 n 0 false.

(** The doubles written [0.6] and [0.3]. *)
Definition b64_0_6 : SpecFloat.spec_float :=
  SpecFloat.S754_finite false 5404319552844595 (-53).
Definition b64_0_3 : SpecFloat.spec_float :=
  SpecFloat.S754_finite false 5404319552844595 (-54).

(** [s >= n * c] and [s > n * c] as Python evaluates them. *)
Definition float_ge (s n : Z) (c : SpecFloat.spec_float) : bool :=
  SpecFloat.SFleb (SpecFloat.SFmul 53 1024 (b64_of_int n) c) (b64_of_int s).
Definition float_gt (s n : Z) (c : SpecFloat.spec_float) : bool :=
  SpecFloat.SFltb (SpecFloat.SFmul 53 1024 (b64_of_int n) c) (b64_of_int s).

Definition Zrange (lo : Z) (n : nat) : list Z :=
  map (fun k => lo + Z.of_nat k) (seq 0 n).

(** ** Concrete runs *)

Definition a_detection : Detection :=
  {| bbox := (0, 0, 100, 100); confidence := 9 # 10; area := 10000;
     center := (50, 50) |}.

(** A frame with [persons] detections, processed at time [t]. *)
Definition frame_env (persons : nat) (t : Z) (create : PyResult string)
  : FrameEnv :=
  {| detections := repeat a_detection persons;
     tracker_update := Returned tt;
     entry_stamp := "Monday, 10-00-00 AM 01 January 2024";
     writer_new := Returned true;
     now := t;
     exit_stamp := "Monday, 10:00:30 AM 01 January 2024";
     alert_time := t;
     messages_create := create |}.

(** The same frame when the video writer cannot be built. *)
Definition frame_env_no_writer (persons : nat) (t : Z) : FrameEnv :=
  {| detections := repeat a_detection persons;
     tracker_update := Returned tt;
     entry_stamp := "Monday, 10-00-00 AM 01 January 2024";
     writer_new := Raised "cv2.error"%string;
     now := t;
     exit_stamp := "Monday, 10:00:30 AM 01 January 2024";
     alert_time := t;
     messages_create := Returned "SM1"%string |}.

(** The system after [start_detection] and a first captured frame. *)
Definition live_system : System :=
  grabber_iteration (start_detection (init_system true) true) (Some 0%nat).

(** The same with the alerts configured. *)
Definition armed_system : System :=
  setup_twilio live_system "sid" "token" "+100" "+200".

(** Five frames with a person, one per time unit from [t]: the room becomes
    occupied on the fifth. *)
Definition frames_entering (t : Z) : list FrameEnv :=
  map (fun u => frame_env 1 u (Returned "SM1"%string)) (Zrange t 5).

(** Frames without anybody, one per time unit from [t]. *)
Definition frames_empty (t : Z) (n : nat) (create : PyResult string)
  : list FrameEnv :=
  map (fun u => frame_env 0 u create) (Zrange t n).

(** ** Invariants and runs used in the proofs *)

(** The history deque holds the last 30 of the counts collected so far. *)
Definition history_tracks (self : System) (collected : list Z) : Prop :=
  Deque.items (person_count_history self) = lastn 30 collected
  /\ Deque.maxlen (person_count_history self) = 30%nat.

(** The room is occupied, the exit timer was started at 1008 and the window
    still holds seven [True]. *)
Definition pending_exit_state : System :=
  fst (process_frames live_system
         (frames_entering 1001 ++ frames_empty 1006 3 (Returned "SM2"%string))).


(** The condition of the entry transition, on the window of the frame:
    the room is empty and the sum reaches [0.6 * detection_thresh]. *)
Definition entry_required (self : System) (person_count : Z) : bool :=
  negb (status self)
  && ge_frac (window_sum (fst (push_presence self person_count)))
             (detection_thresh self) 6.

(** Four frames with a person: the window holds four [True], the room is
    still empty. *)
Definition almost_entered_state : System :=
  fst (process_frames live_system
         (map (fun u => frame_env 1 u (Returned "SM1"%string))
              (Zrange 1001 4))).


(** Where there is a writer an entry time was recorded, and an empty room
    has no open writer. *)
Definition writer_invariant (self : System) : Prop :=
  (out self <> None -> entry_time self <> None)
  /\ (status self = false -> recording_active self = false).

(** The room is left after an entry: the scenario of one full session. *)
Definition session_over_state : System :=
  fst (process_frames live_system
         (frames_entering 1001 ++ frames_empty 1006 8 (Returned "SM2"%string))).

(** The room was entered: five frames with a person. *)
Definition occupied_state : System :=
  fst (process_frames live_system (frames_entering 1001)).

(** Two sessions: entry at 1005 and exit at 1013, entry at 1020 and exit at
    1026; [first] is what the channel does at the first exit, at the second
    it delivers. *)
Definition two_sessions (first : PyResult string) : list FrameEnv :=
  frames_entering 1001 ++ frames_empty 1006 8 first
  ++ frames_entering 1014 ++ frames_empty 1019 11 (Returned "SM9"%string).

(** The number of frames of a run in which the room is left. *)
Fixpoint exit_events (self : System) (envs : list FrameEnv) : nat :=
  match envs with
  | [] => 0%nat
  | env :: rest =>
      let after := fst (process_frame self env) in
      ((if status self && negb (status after) then 1 else 0)
       + exit_events after rest)%nat
  end.

(** The first session of [two_sessions] up to the frame before its exit,
    with the alerts configured, and the frames that follow that exit. *)
Definition armed_before_exit : System :=
  fst (process_frames armed_system
         (frames_entering 1001
          ++ frames_empty 1006 7 (Returned "SM2"%string))).

Definition second_session : list FrameEnv :=
  frames_entering 1014 ++ frames_empty 1019 11 (Returned "SM9"%string).

Definition is_release (c : Call) : bool :=
  match c with Writer_release => true | _ => false end.

(** The clocks of a frame are read between [lo] and [hi]. *)
Definition clocks_within (lo hi : Z) (env : FrameEnv) : bool :=
  (lo <=? now env) && (now env <=? hi)
  && (lo <=? alert_time env) && (alert_time env <=? hi).

(** The alerts sent are at least [cooldown] apart, each from all the
    earlier ones. *)
Definition spaced (cooldown : Z) (times : list Z) : Prop :=
  StronglySorted (fun earlier later => cooldown <= later - earlier) times.

(** A dispatch the channel delivers, and one it refuses. *)
Definition delivered_at (t : Z) : Dispatch :=
  {| at_time := t; text := "alert"; channel := Returned "SM1"%string |}.

Definition refused_at (t : Z) : Dispatch :=
  {| at_time := t; text := "alert"; channel := Raised "unreachable"%string |}.


(** The system after [start_detection], before the grabber thread has read
    its first frame. *)
Definition started_system : System := start_detection (init_system true) true.

(** ** Further invariants *)

(** The presence window is full. *)
Definition window_full (self : System) : Prop :=
  length (Deque.items (de self)) = Deque.maxlen (de self).

(** The capacity of the presence window is [detection_thresh]. *)
Definition window_matches (self : System) : Prop :=
  Z.of_nat (Deque.maxlen (de self)) = detection_thresh self.

(** The states the public operations lead to when no call of
    [update_settings] has raised. *)
Inductive settled : System -> Prop :=
| settled_init : forall tracker_ready, settled (init_system tracker_ready)
| settled_setup_twilio : forall self a b c d,
    settled self -> settled (setup_twilio self a b c d)
| settled_start_camera : forall self opened,
    settled self -> settled (fst (start_camera self opened))
| settled_start_detection : forall self opened,
    settled self -> settled (start_detection self opened)
| settled_stop_camera : forall self,
    settled self -> settled (fst (stop_camera self))
| settled_grabber : forall self read,
    settled self -> settled (grabber_iteration self read)
| settled_process_frame : forall self env,
    settled self -> settled (fst (process_frame self env))
| settled_send_message : forall self body t create,
    settled self -> settled (fst (send_message self body t create))
| settled_update_settings : forall self c a p d allocated message,
    settled self ->
    snd (update_settings self c a p d allocated) = Returned message ->
    settled (fst (update_settings self c a p d allocated)).

(** The exit timer runs only while the room is occupied. *)
Definition timer_only_when_occupied (self : System) : Prop :=
  initial_time self <> None -> status self = true.

(** The number of positive counts of a sample. *)
Definition count_positive (l : list Z) : nat :=
  length (filter (fun x => 0 <? x) l).

(** A system without tracker that has seen nobody: the room is empty, the
    window holds no [True], no count of the history is positive. *)
Definition blind (self : System) : Prop :=
  tracker self = false
  /\ status self = false
  /\ window_sum self = 0
  /\ Forall (fun c => c <= 0) (Deque.items (person_count_history self))
  /\ 0 < detection_thresh self.

(** The system without tracker after [start_detection] and a first frame. *)
Definition blind_system : System :=
  grabber_iteration (start_detection (init_system false) true) (Some 0%nat).

(** The room is occupied and the exit timer, started at 1008, has run for
    four time units. *)
Definition about_to_exit_state : System :=
  fst (process_frames live_system
         (frames_entering 1001 ++ frames_empty 1006 7 (Returned "SM2"%string))).

(** The system after [start_detection] with incomplete Twilio settings. *)
Definition unarmed_system : System :=
  setup_twilio live_system "sid" "" "+100" "+200".

(** ** [detect_persons_yolo] *)

(** One entry of [results[0].boxes]: the corners [xyxy], the confidence and
    the class, as the numbers the model gives (a corner or a class that is
    no number makes [int()] raise; the confidence is a finite number), and
    [drawn]: whether the three [cv2] drawing calls made for the box when it
    is kept return. *)
Record YoloBox : Type := {
  xyxy : PyNumber * PyNumber * PyNumber * PyNumber;
  conf : Q;
  cls : PyNumber;
  drawn : bool
}.

(** [self.person_class_id] *)
Definition person_class_id : Z := 0.

(** [a < b] on numbers. *)
Definition Qltb (a b : Q) : bool := negb (Qle_bool b a).

(** [x1, y1, x2, y2 = map(int, box)] *)
Definition int_corners (box : PyNumber * PyNumber * PyNumber * PyNumber)
  : PyResult (Z * Z * Z * Z) :=
  let '(bx1, by1, bx2, by2) := box in
  match py_int_of bx1 with
  | Raised e => Raised e
  | Returned x1 =>
      match py_int_of by1 with
      | Raised e => Raised e
      | Returned y1 =>
          match py_int_of bx2 with
          | Raised e => Raised e
          | Returned x2 =>
              match py_int_of by2 with
              | Raised e => Raised e
              | Returned y2 => Returned (x1, y1, x2, y2)
              end
          end
      end
  end.

(** Lines 143-158, one turn of the loop: the detection kept for a box, if
    any.  [int(cls)] is evaluated for every box, the corners are converted
    only for a person above the confidence threshold, and the drawing is
    done only for a box that is kept; each of the three may raise.  The
    confidences are compared as exact numbers. *)
Definition box_detection (self : System) (box : YoloBox)
  : PyResult (option Detection) :=
  match py_int_of (cls box) with
  | Raised e => Raised e
  | Returned class_id =>
      if (class_id =? person_class_id)
         && Qltb (confidence_threshold self) (conf box)
      then
        match int_corners (xyxy box) with
        | Raised e => Raised e
        | Returned (x1, y1, x2, y2) =>
            let box_area := (x2 - x1) * (y2 - y1) in
            if area_threshold self <? box_area
            then
              if drawn box
              then Returned
                     (Some {| bbox := (x1, y1, x2, y2);
                              confidence := conf box;
                              area := box_area;
                              center := ((x1 + x2) / 2, (y1 + y2) / 2) |})
              else Raised "cv2.error"
            else Returned None
        end
      else Returned None
  end.

(** The loop over the boxes: an exception in one turn ends it. *)
Fixpoint collect_detections (self : System) (boxes : list YoloBox)
  : PyResult (list Detection) :=
  match boxes with
  | [] => Returned []
  | box :: rest =>
      match box_detection self box with
      | Raised e => Raised e
      | Returned kept =>
          match collect_detections self rest with
          | Raised e => Raised e
          | Returned more =>
              Returned (match kept with
                        | Some d => d :: more
                        | None => more
                        end)
          end
      end
  end.

(** [yolo] is [None] when [self.yolo_model] is [None]; otherwise it is what
    the call of the model and the reading of its result meet: an exception,
    or the list [results], each result with its [boxes] or [None].  The
    loop runs inside the same [try]: an exception of the model or of a turn
    of the loop gives the empty list.  The list of detections is the first
    component of the pair the method returns. *)
Definition detect_persons_yolo (self : System)
  (yolo : option (PyResult (list (option (list YoloBox)))))
  : list Detection :=
  match yolo with
  | None => []
  | Some (Raised _) => []
  | Some (Returned results) =>
      match results with
      | Some boxes :: _ =>
          match collect_detections self boxes with
          | Returned detections => detections
          | Raised _ => []
          end
      | _ => []
      end
  end.

(** The [except] branch is taken. *)
Definition detection_raises (self : System)
  (yolo : option (PyResult (list (option (list YoloBox))))) : bool :=
  match yolo with
  | Some (Raised _) => true
  | Some (Returned (Some boxes :: _)) =>
      match collect_detections self boxes with
      | Returned _ => false
      | Raised _ => true
      end
  | _ => false
  end.

(** [kept] is [all] with some items removed, the order unchanged. *)
Inductive subsequence {A : Type} : list A -> list A -> Prop :=
| subsequence_nil : subsequence [] []
| subsequence_skip : forall x kept all,
    subsequence kept all -> subsequence kept (x :: all)
| subsequence_keep : forall x kept all,
    subsequence kept all -> subsequence (x :: kept) (x :: all).

(** The test a detection of the list passes. *)
Definition passes_thresholds (self : System) (d : Detection) : bool :=
  Qltb (confidence_threshold self) (confidence d)
  && (area_threshold self <? area d).

(** The area and the center are those of the box. *)
Definition consistent_detection (d : Detection) : Prop :=
  let '(x1, y1, x2, y2) := bbox d in
  area d = (x2 - x1) * (y2 - y1)
  /\ center d = ((x1 + x2) / 2, (y1 + y2) / 2).

(** Two boxes of a frame: a person seen with confidence 0.9 in a box of
    100 x 200, and one seen with confidence 0.55 in a box of 50 x 60. *)
Definition sample_boxes : list YoloBox :=
  [ {| xyxy := (Finite (10 # 1), Finite (20 # 1), Finite (110 # 1),
                Finite (220 # 1));
       conf := 9 # 10; cls := Finite (0 # 1); drawn := true |};
    {| xyxy := (Finite (300 # 1), Finite (40 # 1), Finite (350 # 1),
                Finite (100 # 1));
       conf := 55 # 100; cls := Finite (0 # 1); drawn := true |} ].

(** The same frame when the second box cannot be drawn. *)
Definition boxes_one_undrawn : list YoloBox :=
  [ {| xyxy := (Finite (10 # 1), Finite (20 # 1), Finite (110 # 1),
                Finite (220 # 1));
       conf := 9 # 10; cls := Finite (0 # 1); drawn := true |};
    {| xyxy := (Finite (300 # 1), Finite (40 # 1), Finite (350 # 1),
                Finite (100 # 1));
       conf := 55 # 100; cls := Finite (0 # 1); drawn := false |} ].

(** ** [database.py]: paths *)

(** [p[:n]] and [p[n:]] for [0 <= n]. *)
Fixpoint str_take (n : nat) (p : string) : string :=
  match n, p with
  | O, _ => EmptyString
  | S _, EmptyString => EmptyString
  | S k, String c r => String c (str_take k r)
  end.

Fixpoint str_drop (n : nat) (p : string) : string :=
  match n, p with
  | O, _ => p
  | S _, EmptyString => EmptyString
  | S k, String _ r => str_drop k r
  end.

(** [p.rfind(c)]: the highest index of the character, -1 when absent;
    [i] is the index of the head of [p], [found] the last index met. *)
Fixpoint rfind_from (c : Ascii.ascii) (p : string) (i found : Z) : Z :=
  match p with
  | EmptyString => found
  | String a r => rfind_from c r (i + 1) (if Ascii.eqb a c then i else found)
  end.

Definition rfind (c : Ascii.ascii) (p : string) : Z := rfind_from c p 0 (-1).

(** The loop of [genericpath._splitext]: is one of the [count] characters
    from index [from] on not a dot? *)
Fixpoint has_non_dot (p : string) (from count : nat) : bool :=
  match count with
  | O => false
  | S k =>
      match String.get from p with
      | Some c => if Ascii.eqb c "."%char then has_non_dot p (S from) k
                  else true
      | None => true
      end
  end.

(** [os.path.splitext] on POSIX ([sep = '/'], no [altsep]). *)
Definition splitext (p : string) : string * string :=
  let sepIndex := rfind "/"%char p in
  let dotIndex := rfind "."%char p in
  if sepIndex <? dotIndex then
    if has_non_dot p (Z.to_nat (sepIndex + 1))
                   (Z.to_nat (dotIndex - (sepIndex + 1)))
    then (str_take (Z.to_nat dotIndex) p, str_drop (Z.to_nat dotIndex) p)
    else (p, EmptyString)
  else (p, EmptyString).

(** [os.path.basename] on POSIX: what follows the last [/]. *)
Definition basename (p : string) : string :=
  str_drop (Z.to_nat (rfind "/"%char p + 1)) p.

(** ** [smart_compress_video] *)

(** The files: the size of the file at a path, when there is one. *)
Definition FS : Type := string -> option Z.

Definition fs_write (fs : FS) (path : string) (content : option Z) : FS :=
  fun q => if String.eqb q path then content else fs q.

(** [os.remove(path)] *)
Definition fs_remove (fs : FS) (path : string) : FS := fs_write fs path None.

(** [shutil.move(src, dst)] for a file [src]; a file at [dst] is replaced. *)
Definition fs_move (fs : FS) (src dst : string) : FS :=
  if String.eqb src dst then fs
  else fs_write (fs_write fs dst (fs src)) src None.

(** One run of a compression function ([ffprobe] and [ffmpeg]): whether it
    returns [True], and what it does to the files. *)
Record CompressRun : Type := {
  run_ok : bool;
  run_effect : FS -> FS
}.

(** A call [compression_func(input_path, output_path, quality)] with the
    codec of the function. *)
Record CompressCall : Type := {
  cc_codec : string;
  cc_input : string;
  cc_output : string;
  cc_quality : string
}.

Definition MiB : Z := 1024 * 1024.

(** Lines 276-282: the codec for [codec == 'auto']. *)
Definition auto_codec (original_size : Z) : string :=
  if 500 * MiB <? original_size then "h265"
  else if 100 * MiB <? original_size then "vp9"
  else "x264".

(** Lines 276-282: the codec the compression runs with. *)
Definition resolve_codec (codec : string) (original_size : Z) : string :=
  if String.eqb codec "auto" then auto_codec original_size else codec.

(** The keys of [compression_functions]. *)
Definition supported_codec (codec : string) : bool :=
  String.eqb codec "h265" || String.eqb codec "av1"
  || String.eqb codec "vp9" || String.eqb codec "x264".

(** Line 315: the quality of the second attempt. *)
Definition next_quality (quality : string) : string :=
  if String.eqb quality "fast" then "medium"
  else if String.eqb quality "medium" then "slow"
  else if String.eqb quality "slow" then "veryslow"
  else "veryslow".

(** [((original_size - compressed_size) / original_size) * 100
    < target_reduction] in binary64, for sizes below 2^53 and
    [original_size] not 0. *)
Definition reduction_below (original_size compressed_size target : Z) : bool :=
  SpecFloat.SFltb
    (SpecFloat.SFmul 53 1024
       (SpecFloat.SFdiv 53 1024
          (b64_of_int (original_size - compressed_size))
          (b64_of_int original_size))
       (b64_of_int 100))
    (b64_of_int target).

(** Lines 267-269: the output path when none is given. *)
Definition default_output_path (input_path : string) : string :=
  let (name, ext) := splitext input_path in
  (name ++ "_compressed" ++ ext)%string.

Definition backup_of (output_path : string) : string :=
  (output_path ++ ".backup")%string.

(** [first] and [second] are the runs of the compression function, in the
    order they are requested.  The result is what the function returns or
    raises, the files afterwards, and the calls made. *)
Definition smart_compress_video (fs : FS) (input_path : string)
  (output_path : option string) (codec quality : string)
  (target_reduction : Z) (first second : CompressRun)
  : PyResult bool * FS * list CompressCall :=
  let output_path :=
    match output_path with
    | None => default_output_path input_path
    | Some p => p
    end in
  match fs input_path with
  | None => (Raised "FileNotFoundError"%string, fs, [])
  | Some original_size =>
      let codec :=
        if String.eqb codec "auto" then auto_codec original_size else codec in
      if negb (supported_codec codec) then (Returned false, fs, [])
      else
        let call1 := {| cc_codec := codec; cc_input := input_path;
                        cc_output := output_path; cc_quality := quality |} in
        let fs1 := run_effect first fs in
        match (if run_ok first then fs1 output_path else None) with
        | None => (Returned false, fs1, [call1])
        | Some compressed_size =>
            if original_size =? 0
            then (Raised "ZeroDivisionError"%string, fs1, [call1])
            else if reduction_below original_size compressed_size
                      target_reduction
                    && negb (String.eqb quality "veryslow")
            then
              let backup_path := backup_of output_path in
              let fs2 := fs_move fs1 output_path backup_path in
              let call2 := {| cc_codec := codec; cc_input := input_path;
                              cc_output := output_path;
                              cc_quality := next_quality quality |} in
              let fs3 := run_effect second fs2 in
              if run_ok second then
                match fs3 output_path, fs3 backup_path with
                | Some _, Some _ =>
                    (Returned true, fs_remove fs3 backup_path, [call1; call2])
                | _, _ =>
                    (Raised "FileNotFoundError"%string, fs3, [call1; call2])
                end
              else
                match fs3 backup_path with
                | Some _ =>
                    (Returned true, fs_move fs3 backup_path output_path,
                     [call1; call2])
                | None =>
                    (Raised "FileNotFoundError"%string, fs3, [call1; call2])
                end
            else (Returned true, fs1, [call1])
        end
  end.

(** A run of [ffmpeg] that writes a file of [size] at [path] and succeeds,
    and one that fails leaving the files as they are. *)
Definition run_writing (path : string) (size : Z) : CompressRun :=
  {| run_ok := true; run_effect := fun fs => fs_write fs path (Some size) |}.

Definition run_failing : CompressRun :=
  {| run_ok := false; run_effect := fun fs => fs |}.

(** A recording of 10 MiB. *)
Definition one_recording : FS :=
  fs_write (fun _ => None) "surveillance_outputs/a.mp4" (Some (10 * MiB)).

(** The output path of a call, the result, the files and the calls of
    [smart_compress_video]. *)
Definition resolve_output (input_path : string) (output_path : option string)
  : string :=
  match output_path with
  | None => default_output_path input_path
  | Some p => p
  end.

Definition result_of {A B C : Type} (r : A * B * C) : A := fst (fst r).
Definition files_of {A B C : Type} (r : A * B * C) : B := snd (fst r).
Definition calls_of {A B C : Type} (r : A * B * C) : C := snd r.

(** ** [upload_video_to_s3] and [upload_video_with_progress] *)

(** The value of an environment variable in an f-string. *)
Definition show_env (v : option string) : string :=
  match v with Some s => s | None => "None" end.

(** The upload requested from boto3. *)
Inductive UploadCall : Type :=
| Transfer_upload_file (local_path key : string) (* S3Transfer.upload_file *)
| Client_upload_file (local_path key : string).  (* client.upload_file *)

Definition regional_url (bucket region : option string) (key : string)
  : string :=
  ("https://" ++ show_env bucket ++ ".s3." ++ show_env region
   ++ ".amazonaws.com/" ++ key)%string.

Definition global_url (bucket : option string) (key : string) : string :=
  ("https://" ++ show_env bucket ++ ".s3.amazonaws.com/" ++ key)%string.

Definition is_us_east_1 (region : option string) : bool :=
  match region with
  | Some r => String.eqb r "us-east-1"
  | None => false
  end.

(** [bucket] and [region] are [AWS_S3_BUCKET] and [AWS_S3_REGION];
    [client_ready] is false when [get_s3_client] raises; [upload] is what
    the upload call does.  The result is the URL or [None], with the upload
    requested. *)
Definition upload_video_to_s3 (bucket region : option string) (fs : FS)
  (local_path : string) (s3_filename : option string) (use_multipart : bool)
  (client_ready : bool) (upload : PyResult unit)
  : option string * list UploadCall :=
  let s3_filename :=
    match s3_filename with
    | None => basename local_path
    | Some name => name
    end in
  if negb client_ready then (None, [])
  else
    match fs local_path with
    | None => (None, [])
    | Some file_size =>
        let call :=
          if use_multipart && (100 * MiB <? file_size)
          then Transfer_upload_file local_path s3_filename
          else Client_upload_file local_path s3_filename in
        match upload with
        | Raised _ => (None, [call])
        | Returned _ =>
            (Some (if is_us_east_1 region
                   then global_url bucket s3_filename
                   else regional_url bucket region s3_filename),
             [call])
        end
    end.

Definition upload_video_with_progress (bucket region : option string)
  (fs : FS) (local_path : string) (s3_filename : option string)
  (client_ready : bool) (upload : PyResult unit)
  : option string * list UploadCall :=
  let s3_filename :=
    match s3_filename with
    | None => basename local_path
    | Some name => name
    end in
  if negb client_ready then (None, [])
  else
    match fs local_path with
    | None => (None, [])
    | Some file_size =>
        match upload with
        | Raised _ => (None, [Transfer_upload_file local_path s3_filename])
        | Returned _ =>
            (Some (regional_url bucket region s3_filename),
             [Transfer_upload_file local_path s3_filename])
        end
    end.

(** * Properties *)

Unset Implicit Arguments.

(** ** Lists and deques *)

Lemma lastn_length (A : Type) (n : nat) (l : list A) :
  length (lastn n l) = Nat.min n (length l).
Proof. unfold lastn. rewrite length_skipn. lia. Qed.

Lemma lastn_all (A : Type) (n : nat) (l : list A) :
  (length l <= n)%nat -> lastn n l = l.
Proof.
  intros H. unfold lastn.
  replace (length l - n)%nat with 0%nat by lia. reflexivity.
Qed.

Lemma lastn_app_r (A : Type) (n : nat) (a b : list A) :
  (n <= length b)%nat -> lastn n (a ++ b) = lastn n b.
Proof.
  intros H. unfold lastn. rewrite length_app, skipn_app.
  rewrite skipn_all2 by lia. simpl. f_equal. lia.
Qed.

Lemma lastn_split (A : Type) (n : nat) (l : list A) :
  l = firstn (length l - n) l ++ lastn n l.
Proof. unfold lastn. symmetry. apply firstn_skipn. Qed.

Lemma lastn_lastn_app (A : Type) (n m : nat) (l r : list A) :
  (n <= m + length r)%nat -> lastn n (lastn m l ++ r) = lastn n (l ++ r).
Proof.
  intros H. destruct (Nat.le_gt_cases (length l) m) as [Hl | Hl].
  - rewrite (lastn_all A m l Hl). reflexivity.
  - rewrite (lastn_split A m l) at 2. rewrite <- app_assoc.
    apply eq_sym, lastn_app_r.
    rewrite length_app, lastn_length. lia.
Qed.

Lemma lastn_lastn (A : Type) (n m : nat) (l : list A) :
  (n <= m)%nat -> lastn n (lastn m l) = lastn n l.
Proof.
  intros H. generalize (lastn_lastn_app A n m l []).
  rewrite !app_nil_r. intros E. apply E. simpl. lia.
Qed.

Lemma sum_bools_falses (n : Z) : sum_bools (falses n) = 0.
Proof.
  unfold falses. induction (Z.to_nat n) as [| k IH]; cbn; [| rewrite IH];
    reflexivity.
Qed.

Lemma sum_bools_bounds (l : list bool) :
  0 <= sum_bools l <= Z.of_nat (length l).
Proof.
  induction l as [| b l IH]; [simpl; lia |].
  cbn [sum_bools length]. destruct b; lia.
Qed.


(** ** The median *)

Lemma insert_sorted_perm (x : Z) (l : list Z) :
  Permutation (x :: l) (insert_sorted x l).
Proof.
  induction l as [| y l IH]; simpl; [apply Permutation_refl |].
  destruct (x <=? y); [apply Permutation_refl |].
  eapply perm_trans; [apply perm_swap | apply perm_skip, IH].
Qed.

Lemma sort_counts_perm (l : list Z) : Permutation l (sort_counts l).
Proof.
  induction l as [| x l IH]; simpl; [constructor |].
  eapply perm_trans; [apply perm_skip, IH | apply insert_sorted_perm].
Qed.

Lemma insert_sorted_sorted (x : Z) (l : list Z) :
  Sorted Z.le l -> Sorted Z.le (insert_sorted x l).
Proof.
  induction l as [| y l IH]; intros Hs; simpl.
  - repeat constructor.
  - destruct (x <=? y) eqn:E.
    + apply Z.leb_le in E. constructor; [assumption | constructor; assumption].
    + apply Z.leb_gt in E. inversion Hs as [| ? ? Hl Hhd]; subst.
      constructor; [apply IH; assumption |].
      destruct l as [| z l]; simpl.
      * constructor. lia.
      * inversion Hhd; subst. destruct (x <=? z); constructor; lia.
Qed.

Lemma sort_counts_sorted (l : list Z) : Sorted Z.le (sort_counts l).
Proof.
  induction l as [| x l IH]; simpl; [constructor |].
  apply insert_sorted_sorted, IH.
Qed.

Lemma count_le_perm (m : Z) (l l' : list Z) :
  Permutation l l' -> count_le m l = count_le m l'.
Proof.
  unfold count_le. induction 1 as [| x l l' _ IH | x y l | l l1 l2 _ IH1 _ IH2];
    simpl; try reflexivity.
  - destruct (x <=? m); simpl; congruence.
  - destruct (x <=? m), (y <=? m); reflexivity.
  - congruence.
Qed.

Lemma count_ge_perm (m : Z) (l l' : list Z) :
  Permutation l l' -> count_ge m l = count_ge m l'.
Proof.
  unfold count_ge. induction 1 as [| x l l' _ IH | x y l | l l1 l2 _ IH1 _ IH2];
    simpl; try reflexivity.
  - destruct (m <=? x); simpl; congruence.
  - destruct (m <=? x), (m <=? y); reflexivity.
  - congruence.
Qed.

(** The middle of five sorted values is their median. *)
Lemma middle_of_sorted_five (a b c d e : Z) :
  Sorted Z.le [a; b; c; d; e] -> is_median c [a; b; c; d; e].
Proof.
  intros Hs.
  assert (H : a <= b /\ b <= c /\ c <= d /\ d <= e).
  { repeat match goal with
           | H : Sorted _ (_ :: _) |- _ => inversion H; clear H; subst
           | H : HdRel _ _ (_ :: _) |- _ => inversion H; clear H; subst
           end. lia. }
  destruct H as (Hab & Hbc & Hcd & Hde).
  unfold is_median, count_le, count_ge. split; [simpl; tauto |].
  assert (La : (a <=? c) = true) by (apply Z.leb_le; lia).
  assert (Lb : (b <=? c) = true) by (apply Z.leb_le; lia).
  assert (Lc : (c <=? c) = true) by (apply Z.leb_le; lia).
  assert (Ld : (c <=? d) = true) by (apply Z.leb_le; lia).
  assert (Le : (c <=? e) = true) by (apply Z.leb_le; lia).
  cbn [filter]. rewrite La, Lb, Lc, Ld, Le.
  split.
  - destruct (d <=? c), (e <=? c); cbn [length]; lia.
  - destruct (c <=? a), (c <=? b); cbn [length]; lia.
Qed.

(** [np.median] of five counts is the median of the five. *)
Lemma np_median_of_five (l : list Z) :
  length l = 5%nat ->
  exists m, np_median l = inject_Z m /\ is_median m l.
Proof.
  intros Hlen.
  pose proof (sort_counts_perm l) as Hp.
  pose proof (sort_counts_sorted l) as Hs.
  pose proof (Permutation_length Hp) as Hl. rewrite Hlen in Hl.
  unfold np_median. rewrite Hlen.
  destruct (sort_counts l) as [| a [| b [| c [| d [| e [| f r]]]]]];
    try discriminate Hl.
  exists c. split; [reflexivity |].
  pose proof (middle_of_sorted_five a b c d e Hs) as (Hin & Hle & Hge).
  unfold is_median.
  rewrite (count_le_perm c _ _ Hp), (count_ge_perm c _ _ Hp).
  rewrite Hlen. simpl length in Hle, Hge.
  repeat split; try assumption.
  apply Permutation_sym in Hp. exact (Permutation_in c Hp Hin).
Qed.

(** The median of a sample of odd size is unique. *)
Lemma is_median_unique (l : list Z) (m m' : Z) :
  is_median m l -> is_median m' l -> m = m'.
Proof.
  assert (disjoint : forall (a b : Z) (k : list Z), a < b ->
    (count_le a k + count_ge b k <= length k)%nat).
  { intros a b k Hab. unfold count_le, count_ge.
    induction k as [| x k IH]; simpl; [lia |].
    destruct (x <=? a) eqn:E1, (b <=? x) eqn:E2; simpl; lia. }
  intros (_ & Hle & Hge) (_ & Hle' & Hge').
  destruct (Z.lt_trichotomy m m') as [H | [H | H]]; [| assumption |].
  - pose proof (disjoint m m' l H). lia.
  - pose proof (disjoint m' m l H). lia.
Qed.

(** ** The temporal smoother *)

Lemma history_tracks_init (tracker_ready : bool) :
  history_tracks (init_system tracker_ready) [].
Proof. split; reflexivity. Qed.

Lemma apply_smart_filtering_step (self : System) (collected : list Z) (c : Z) :
  history_tracks self collected ->
  history_tracks (fst (apply_smart_filtering self c)) (collected ++ [c])
  /\ snd (apply_smart_filtering self c) = smoother_expected (collected ++ [c]).
Proof.
  intros [Hitems Hmax].
  assert (Hnew : Deque.items (Deque.append c (person_count_history self))
                 = lastn 30 (collected ++ [c])).
  { unfold Deque.append. cbn [Deque.items]. rewrite Hmax, Hitems.
    apply lastn_lastn_app. simpl. lia. }
  unfold apply_smart_filtering, smoother_expected, Deque.len.
  rewrite Hnew, lastn_length.
  assert (Hcmp : (Nat.min 30 (length (collected ++ [c])) <? 5)%nat
                 = (length (collected ++ [c]) <? 5)%nat).
  { destruct (Nat.ltb_spec (length (collected ++ [c])) 5);
      [apply Nat.ltb_lt | apply Nat.ltb_ge]; lia. }
  rewrite Hcmp.
  destruct (length (collected ++ [c]) <? 5)%nat; cbn [fst snd].
  - split; [split |].
    + exact Hnew.
    + cbn. exact Hmax.
    + rewrite last_last. reflexivity.
  - split; [split |].
    + exact Hnew.
    + cbn. exact Hmax.
    + rewrite lastn_lastn by lia. reflexivity.
Qed.

Lemma smooth_counts_from (counts : list Z) :
  forall (self : System) (collected : list Z),
    history_tracks self collected ->
    snd (smooth_counts self counts)
    = map (fun k => smoother_expected (collected ++ firstn (S k) counts))
          (seq 0 (length counts)).
Proof.
  induction counts as [| c rest IH]; intros self collected Htr;
    [reflexivity |].
  cbn [smooth_counts].
  destruct (apply_smart_filtering_step self collected c Htr) as [Hnext Hout].
  destruct (apply_smart_filtering self c) as [self1 present].
  cbn [fst snd] in Hnext, Hout.
  specialize (IH self1 (collected ++ [c]) Hnext).
  destruct (smooth_counts self1 rest) as [self2 more]. cbn [snd] in IH |- *.
  cbn [length seq map firstn]. rewrite Hout. f_equal.
  rewrite IH, <- seq_shift, map_map.
  apply map_ext. intros k. rewrite <- app_assoc. reflexivity.
Qed.

(** The closed form meets the rule of the specification. *)
Lemma smoother_expected_meets_rule (collected : list Z) :
  collected <> [] ->
  smoothed_presence collected (smoother_expected collected).
Proof.
  intros Hne. unfold smoothed_presence, smoother_expected.
  destruct (length collected <? 5)%nat eqn:Hlen.
  - left. apply Nat.ltb_lt in Hlen. split; [exact Hlen |].
    exists (removelast collected), (last collected 0).
    split; [apply app_removelast_last; exact Hne | reflexivity].
  - right. apply Nat.ltb_ge in Hlen. unfold lastn.
    pose proof (firstn_skipn (length collected - 5) collected) as Hsplit.
    pose proof (length_skipn (length collected - 5) collected) as Hl.
    destruct (skipn (length collected - 5) collected)
      as [| a [| b [| c [| d [| e [| f r]]]]]]; cbn [length] in Hl; try lia.
    destruct (np_median_of_five [a; b; c; d; e] eq_refl) as (m & Hm & Hmed).
    exists (firstn (length collected - 5) collected), a, b, c, d, e, m.
    split; [symmetry; exact Hsplit | split; [exact Hmed |]].
    rewrite Hm. reflexivity.
Qed.

(** The rule of the specification fixes the answer. *)
Lemma smoothed_presence_unique (collected : list Z) (p p' : bool) :
  smoothed_presence collected p -> smoothed_presence collected p' -> p = p'.
Proof.
  intros [(Hlen & earlier & c & Hc & ->)
         | (older & a & b & c & d & e & m & Hc & Hmed & ->)]
         [(Hlen' & earlier' & c' & Hc' & ->)
         | (older' & a' & b' & c' & d' & e' & m' & Hc' & Hmed' & ->)].
  - rewrite Hc in Hc'. apply app_inj_tail in Hc'. destruct Hc' as [_ <-].
    reflexivity.
  - rewrite Hc', length_app in Hlen. cbn [length] in Hlen. lia.
  - rewrite Hc, length_app in Hlen'. cbn [length] in Hlen'. lia.
  - rewrite Hc in Hc'. apply (f_equal (@rev Z)) in Hc'.
    rewrite !rev_app_distr in Hc'. cbn in Hc'.
    injection Hc' as <- <- <- <- <- _.
    rewrite (is_median_unique _ _ _ Hmed Hmed'). reflexivity.
Qed.

(** C3: fed with any sequence of raw counts from the initial state, the
    smoother answers each count as section 4.3 of the specification says:
    [count > 0] while fewer than five counts are collected, afterwards
    whether the median of the five most recent counts is positive; that
    rule fixes the answer; the value of [np.median] on five counts is their
    median; the counts [0,0,3,0,2] give [false] on the fifth update and
    [1,1,1,0,0] give [true]; on [3,3,3,0,0,0] the sixth answer is [false],
    the median of the five most recent counts being 0. *)
Theorem smoother_follows_median_rule (tracker_ready : bool) (counts : list Z) :
  Forall2 smoothed_presence
          (map (fun k => firstn (S k) counts) (seq 0 (length counts)))
          (snd (smooth_counts (init_system tracker_ready) counts))
  /\ (forall collected p p',
        smoothed_presence collected p -> smoothed_presence collected p' ->
        p = p')
  /\ (forall a b c d e : Z,
        exists m, np_median [a; b; c; d; e] = inject_Z m
                  /\ is_median m [a; b; c; d; e])
  /\ nth 4 (snd (smooth_counts (init_system tracker_ready) [0; 0; 3; 0; 2]))
         true = false
  /\ nth 4 (snd (smooth_counts (init_system tracker_ready) [1; 1; 1; 0; 0]))
         false = true
  /\ nth 5 (snd (smooth_counts (init_system tracker_ready)
                   [3; 3; 3; 0; 0; 0]))
         true = false.
Proof.
  split; [| split; [| split; [| split; [| split]]]].
  - rewrite (smooth_counts_from counts (init_system tracker_ready) []
               (history_tracks_init tracker_ready)).
    cbn [app].
    assert (H : forall ks : list nat,
              Forall2 smoothed_presence
                (map (fun k => firstn (S k) counts) ks)
                (map (fun k => smoother_expected (firstn (S k) counts)) ks)
              \/ counts = []).
    { destruct counts as [| c0 rest]; [right; reflexivity | left].
      induction ks as [| k ks IH]; cbn [map]; constructor; [| exact IH].
      apply smoother_expected_meets_rule. cbn [firstn]. discriminate. }
    destruct (H (seq 0 (length counts))) as [Hall | ->];
      [exact Hall | constructor].
  - exact smoothed_presence_unique.
  - intros a b c d e. apply np_median_of_five. reflexivity.
  - reflexivity.
  - reflexivity.
  - reflexivity.
Qed.

(** The answers on six counts, read off the rule of the specification: each
    answer of the code is the one the rule fixes. *)
Lemma smoother_follows_median_rule_witness :
  snd (smooth_counts (init_system true) [3; 3; 3; 0; 0; 0])
  = [true; true; true; false; true; false].
Proof.
  destruct (smoother_follows_median_rule true [3; 3; 3; 0; 0; 0])
    as (Hrule & Huniq & _).
  assert (Hexp : Forall2 smoothed_presence
            (map (fun k => firstn (S k) [3; 3; 3; 0; 0; 0]) (seq 0 6))
            [true; true; true; false; true; false]).
  { cbn [map seq firstn].
    apply Forall2_cons;
      [left; split; [cbn; lia |]; exists [], 3; split; reflexivity |].
    apply Forall2_cons;
      [left; split; [cbn; lia |]; exists [3], 3; split; reflexivity |].
    apply Forall2_cons;
      [left; split; [cbn; lia |]; exists [3; 3], 3; split; reflexivity |].
    apply Forall2_cons;
      [left; split; [cbn; lia |]; exists [3; 3; 3], 0; split; reflexivity |].
    apply Forall2_cons.
    { right. exists [], 3, 3, 3, 0, 0, 3.
      split; [reflexivity | split; [| reflexivity]].
      unfold is_median, count_le, count_ge. cbn. split; [tauto | lia]. }
    apply Forall2_cons; [| apply Forall2_nil].
    right. exists [3], 3, 3, 0, 0, 0, 0.
    split; [reflexivity | split; [| reflexivity]].
    unfold is_median, count_le, count_ge. cbn. split; [tauto | lia]. }
  cbn [length] in Hrule.
  remember (snd (smooth_counts (init_system true) [3; 3; 3; 0; 0; 0]))
    as answers eqn:Ha.
  clear Ha.
  revert Hrule Hexp.
  generalize (map (fun k => firstn (S k) [3; 3; 3; 0; 0; 0]) (seq 0 6)).
  intros prefixes Hrule. revert answers Hrule.
  generalize [true; true; true; false; true; false].
  intros expected answers Hrule Hexp. revert expected Hexp.
  induction Hrule as [| l x ls xs Hx _ IH]; intros expected Hexp.
  - inversion Hexp. reflexivity.
  - inversion Hexp as [| l' y ls' ys Hy Hys]; subst.
    f_equal; [exact (Huniq l x y Hx Hy) | apply IH; exact Hys].
Defined.

(** ** The thresholds of the state machine *)

Lemma forallb_Zrange (p : Z -> bool) (lo : Z) (n : nat) :
  forallb p (Zrange lo n) = true ->
  forall z, lo <= z < lo + Z.of_nat n -> p z = true.
Proof.
  intros H z Hz. rewrite forallb_forall in H. apply H.
  unfold Zrange. apply in_map_iff. exists (Z.to_nat (z - lo)). split; [lia |].
  apply in_seq. lia.
Qed.

(** For window sizes from -32 to 128 and sums up to 128 the binary64
    comparison [sum >= n * 0.6] of the source is the exact one. *)
Lemma float_ge_frac_agrees (n s : Z) :
  -32 <= n <= 128 -> 0 <= s <= 128 ->
  float_ge s n b64_0_6 = ge_frac s n 6.
Proof.
  intros Hn Hs. apply eqb_prop.
  refine (forallb_Zrange
            (fun s => Bool.eqb (float_ge s n b64_0_6) (ge_frac s n 6))
            0 129 _ s _); [| lia].
  refine (forallb_Zrange
            (fun n => forallb (fun s => Bool.eqb (float_ge s n b64_0_6)
                                          (ge_frac s n 6)) (Zrange 0 129))
            (-32) 161 _ n _); [| lia].
  vm_compute. reflexivity.
Qed.

(** The same for [sum > n * 0.3]. *)
Lemma float_gt_frac_agrees (n s : Z) :
  -32 <= n <= 128 -> 0 <= s <= 128 ->
  float_gt s n b64_0_3 = gt_frac s n 3.
Proof.
  intros Hn Hs. apply eqb_prop.
  refine (forallb_Zrange
            (fun s => Bool.eqb (float_gt s n b64_0_3) (gt_frac s n 3))
            0 129 _ s _); [| lia].
  refine (forallb_Zrange
            (fun n => forallb (fun s => Bool.eqb (float_gt s n b64_0_3)
                                          (gt_frac s n 3)) (Zrange 0 129))
            (-32) 161 _ n _); [| lia].
  vm_compute. reflexivity.
Qed.

(** ** What one update leaves alone *)

Lemma push_presence_keeps (self : System) (person_count : Z) :
  let after := fst (push_presence self person_count) in
  status after = status self
  /\ initial_time after = initial_time self
  /\ detection_thresh after = detection_thresh self
  /\ patience after = patience self
  /\ out after = out self
  /\ entry_time after = entry_time self
  /\ twilio_enabled after = twilio_enabled self
  /\ last_alert_time after = last_alert_time self
  /\ alert_cooldown after = alert_cooldown self
  /\ latest_frame after = latest_frame self
  /\ de after
     = Deque.appendleft (snd (push_presence self person_count)) (de self).
Proof.
  unfold push_presence, apply_smart_filtering.
  destruct (Deque.len _ <? 5)%nat; cbn; repeat split; reflexivity.
Qed.

(** ** The exit timer *)




(** ** The steps of an update, field by field *)

(** Case analysis on every test the code makes. *)
Ltac split_tests :=
  repeat (match goal with
          | H : (_, _) = (_, _) |- _ => inversion H; subst; clear H
          | H : Some _ = Some _ |- _ => inversion H; subst; clear H
          | H : context [match ?x with _ => _ end] |- _ => destruct x eqn:?
          | |- context [match ?x with _ => _ end] => destruct x eqn:?
          end; cbn in *).

Ltac by_cases :=
  cbn; split_tests; cbn in *; repeat split; try congruence; auto;
  try match goal with
      | H : ?x = _ |- context [?x] => rewrite H; cbn; congruence
      end.

Lemma send_message_keeps (self : System) (body : string) (t : Z)
  (create : PyResult string) :
  let after := fst (send_message self body t create) in
  status after = status self
  /\ out after = out self
  /\ entry_time after = entry_time self
  /\ initial_time after = initial_time self
  /\ detection_thresh after = detection_thresh self
  /\ de after = de self
  /\ alert_cooldown after = alert_cooldown self
  /\ twilio_enabled after = twilio_enabled self
  /\ latest_frame after = latest_frame self.
Proof. unfold send_message. by_cases. Qed.

Lemma exit_logic_keeps (self : System) (present : bool) (env : FrameEnv) :
  let after := fst (exit_logic self present env) in
  entry_time after = entry_time self
  /\ detection_thresh after = detection_thresh self
  /\ de after = de self
  /\ alert_cooldown after = alert_cooldown self
  /\ latest_frame after = latest_frame self
  /\ option_map w_path (out after) = option_map w_path (out self)
  /\ existsb is_writer_new (snd (exit_logic self present env)) = false.
Proof.
  unfold exit_logic, exit_transition, release_out, send_message, send_calls.
  by_cases.
Qed.

(** Above the 30 % line, or with the frame present, the room stays as it
    is. *)
Lemma exit_logic_stays (self : System) (present : bool) (env : FrameEnv) :
  present = true
  \/ gt_frac (window_sum self) (detection_thresh self) 3 = true ->
  status (fst (exit_logic self present env)) = status self
  /\ out (fst (exit_logic self present env)) = out self.
Proof.
  unfold exit_logic. intros [-> | ->]; rewrite ?andb_false_r; by_cases.
Qed.

Lemma exit_logic_idle (self : System) (present : bool) (env : FrameEnv) :
  status self = false -> exit_logic self present env = (self, []).
Proof. intros H. unfold exit_logic. rewrite H. reflexivity. Qed.

Lemma write_frame_no_writer_new (self : System) :
  existsb is_writer_new (write_frame self) = false.
Proof. unfold write_frame. by_cases. Qed.

Lemma ge_frac_gt_frac (s n : Z) :
  0 < n -> ge_frac s n 6 = true -> gt_frac s n 3 = true.
Proof.
  unfold ge_frac, gt_frac. intros Hn H.
  apply Z.leb_le in H. apply Z.ltb_lt. lia.
Qed.


Lemma occupancy_update_steps (self : System) (person_count : Z)
  (env : FrameEnv) :
  let pushed := push_presence self person_count in
  let entered := entry_transition (fst pushed) env in
  let left := exit_logic (fst entered) (snd pushed) env in
  occupancy_update self person_count env
  = (count_detection (snd pushed) (fst left),
     snd entered ++ snd left ++ write_frame (fst left)).
Proof.
  unfold occupancy_update, count_detection. cbv zeta.
  destruct (push_presence self person_count) as [s1 present]. cbn [fst snd].
  destruct (entry_transition s1 env) as [s2 opened]. cbn [fst snd].
  destruct (exit_logic s2 present env) as [s3 exited].
  reflexivity.
Qed.

Lemma count_detection_keeps (present : bool) (self : System) :
  let after := count_detection present self in
  status after = status self
  /\ out after = out self
  /\ entry_time after = entry_time self
  /\ initial_time after = initial_time self
  /\ latest_frame after = latest_frame self.
Proof. unfold count_detection. by_cases. Qed.

(** The entry transition when its condition holds. *)
Lemma entry_transition_fires (self : System) (env : FrameEnv) :
  status self = false ->
  ge_frac (window_sum self) (detection_thresh self) 6 = true ->
  let after := fst (entry_transition self env) in
  status after = true
  /\ entry_time after = Some (entry_stamp env)
  /\ snd (entry_transition self env)
     = [VideoWriter_new (recording_path (entry_stamp env))]
  /\ out after
     = match writer_new env with
       | Returned opened =>
           Some {| w_path := recording_path (entry_stamp env);
                   w_opened := opened |}
       | Raised _ => out self
       end
  /\ detection_thresh after = detection_thresh self
  /\ de after = de self
  /\ initial_time after = initial_time self.
Proof.
  intros Hst Hge. unfold entry_transition. rewrite Hst, Hge. by_cases.
Qed.

(** The entry transition when its condition fails. *)
Lemma entry_transition_idle (self : System) (env : FrameEnv) :
  negb (status self)
  && ge_frac (window_sum self) (detection_thresh self) 6 = false ->
  entry_transition self env = (self, []).
Proof.
  intros H. unfold entry_transition.
  rewrite andb_comm in H. rewrite H. reflexivity.
Qed.

(** ** The entry transition *)

Lemma entry_required_window (self : System) (person_count : Z) :
  let pushed := fst (push_presence self person_count) in
  entry_required self person_count
  = negb (status pushed)
    && ge_frac (window_sum pushed) (detection_thresh pushed) 6.
Proof.
  cbv zeta. unfold entry_required.
  destruct (push_presence_keeps self person_count) as (-> & _ & -> & _).
  reflexivity.
Qed.

(** An update in which the entry transition fires. *)
Lemma occupancy_update_entering (self : System) (person_count : Z)
  (env : FrameEnv) :
  entry_required self person_count = true ->
  let after := fst (occupancy_update self person_count env) in
  let calls := snd (occupancy_update self person_count env) in
  existsb is_writer_new calls = true
  /\ entry_time after = Some (entry_stamp env)
  /\ In (VideoWriter_new (recording_path (entry_stamp env))) calls
  /\ (forall opened, writer_new env = Returned opened ->
        option_map w_path (out after)
        = Some (recording_path (entry_stamp env)))
  /\ (snd (push_presence self person_count) = true
      \/ 0 < detection_thresh self ->
      status after = true
      /\ out after
         = match writer_new env with
           | Returned opened =>
               Some {| w_path := recording_path (entry_stamp env);
                       w_opened := opened |}
           | Raised _ => out self
           end).
Proof.
  intros Hreq. cbv zeta. rewrite occupancy_update_steps. cbv zeta.
  pose proof (entry_required_window self person_count) as Hw.
  cbv zeta in Hw. rewrite Hreq in Hw. symmetry in Hw.
  apply andb_true_iff in Hw. destruct Hw as [Hst Hge].
  apply negb_true_iff in Hst.
  pose proof (push_presence_keeps self person_count) as K. cbv zeta in K.
  destruct (push_presence self person_count) as [s1 present].
  cbn [fst snd] in *.
  destruct K as (_ & _ & Kth & _ & Kout & _).
  destruct (entry_transition_fires s1 env Hst Hge)
    as (Est & Eet & Ecalls & Eout & Eth & Ede & _).
  destruct (entry_transition s1 env) as [s2 opened]. cbn [fst snd] in *.
  subst opened.
  destruct (exit_logic_keeps s2 present env)
    as (Xet & _ & _ & _ & _ & Xpath & _).
  destruct (count_detection_keeps present (fst (exit_logic s2 present env)))
    as (Cst & Cout & Cet & _).
  repeat split.
  - rewrite Cet, Xet. exact Eet.
  - left. reflexivity.
  - intros o Ho. rewrite Cout, Xpath, Eout, Ho. reflexivity.
  - rewrite Cst. destruct (exit_logic_stays s2 present env) as [Sst _].
    + destruct H as [H | H]; [left; exact H | right].
      unfold window_sum in *. rewrite Ede, Eth.
      apply ge_frac_gt_frac; [lia | exact Hge].
    + rewrite Sst. exact Est.
  - rewrite Cout. destruct (exit_logic_stays s2 present env) as [_ Sout].
    + destruct H as [H | H]; [left; exact H | right].
      unfold window_sum in *. rewrite Ede, Eth.
      apply ge_frac_gt_frac; [lia | exact Hge].
    + rewrite Sout, Eout, Kout. reflexivity.
Qed.

(** An update in which it does not. *)
Lemma occupancy_update_not_entering (self : System) (person_count : Z)
  (env : FrameEnv) :
  entry_required self person_count = false ->
  let after := fst (occupancy_update self person_count env) in
  let calls := snd (occupancy_update self person_count env) in
  existsb is_writer_new calls = false
  /\ entry_time after = entry_time self.
Proof.
  intros Hreq. cbv zeta. rewrite occupancy_update_steps. cbv zeta.
  pose proof (entry_required_window self person_count) as Hw.
  cbv zeta in Hw. rewrite Hreq in Hw. symmetry in Hw.
  pose proof (push_presence_keeps self person_count) as K. cbv zeta in K.
  destruct (push_presence self person_count) as [s1 present].
  cbn [fst snd] in *.
  destruct K as (_ & _ & _ & _ & _ & Ket & _).
  rewrite (entry_transition_idle s1 env Hw). cbn [fst snd app].
  destruct (exit_logic_keeps s1 present env)
    as (Xet & _ & _ & _ & _ & _ & Xnew).
  destruct (count_detection_keeps present (fst (exit_logic s1 present env)))
    as (_ & _ & Cet & _).
  split.
  - rewrite existsb_app, Xnew, write_frame_no_writer_new. reflexivity.
  - rewrite Cet, Xet. exact Ket.
Qed.

(** From an occupied room an update performs no entry. *)
Lemma entry_exactly_in_occupied_room (self : System) (person_count : Z)
  (env : FrameEnv) :
  status self = true ->
  existsb is_writer_new (snd (occupancy_update self person_count env)) = false
  /\ entry_time (fst (occupancy_update self person_count env))
     = entry_time self.
Proof.
  intros Hst. apply occupancy_update_not_entering.
  unfold entry_required. rewrite Hst. reflexivity.
Qed.




(** ** The writer and the entry time *)

Ltac invariant_cases :=
  unfold writer_invariant, recording_active in *; cbn in *;
  split_tests; cbn in *;
  repeat match goal with
         | H : _ /\ _ |- _ => destruct H
         end;
  split; intros; cbn in *; try congruence; auto;
  try solve [intuition congruence].

Lemma writer_invariant_push (self : System) (person_count : Z) :
  writer_invariant self ->
  writer_invariant (fst (push_presence self person_count)).
Proof.
  unfold writer_invariant, recording_active.
  destruct (push_presence_keeps self person_count)
    as (-> & _ & _ & _ & -> & -> & _).
  tauto.
Qed.

Lemma writer_invariant_entry (self : System) (env : FrameEnv) :
  writer_invariant self -> writer_invariant (fst (entry_transition self env)).
Proof. intros H. unfold entry_transition. invariant_cases. Qed.

Lemma writer_invariant_exit (self : System) (present : bool) (env : FrameEnv) :
  writer_invariant self ->
  writer_invariant (fst (exit_logic self present env)).
Proof.
  intros H.
  unfold exit_logic, exit_transition, release_out, send_message.
  invariant_cases.
Qed.

Lemma writer_invariant_count (present : bool) (self : System) :
  writer_invariant self -> writer_invariant (count_detection present self).
Proof. intros H. unfold count_detection. invariant_cases. Qed.

Lemma writer_invariant_update (self : System) (person_count : Z)
  (env : FrameEnv) :
  writer_invariant self ->
  writer_invariant (fst (occupancy_update self person_count env)).
Proof.
  intros H. rewrite occupancy_update_steps. cbv zeta. cbn [fst].
  apply writer_invariant_count, writer_invariant_exit, writer_invariant_entry,
    writer_invariant_push, H.
Qed.

Lemma writer_invariant_process_frame (self : System) (env : FrameEnv) :
  writer_invariant self -> writer_invariant (fst (process_frame self env)).
Proof.
  intros H. unfold process_frame.
  destruct (negb (cap_opened self)); [exact H |].
  destruct (fetch_latest self); [| exact H].
  destruct (track_persons self (detections env) (tracker_update env));
    [| exact H].
  apply writer_invariant_update, H.
Qed.

Lemma writer_invariant_stop_camera (self : System) :
  writer_invariant self -> writer_invariant (fst (stop_camera self)).
Proof. intros H. unfold stop_camera, release_out. invariant_cases. Qed.

Lemma writer_invariant_reachable (self : System) :
  reachable self -> writer_invariant self.
Proof.
  induction 1 as [ready | self a b c d _ IH | self opened _ IH
                 | self opened _ IH | self _ IH | self read _ IH
                 | self env _ IH | self body t create _ IH
                 | self c a p d allocated _ IH].
  - split; [intros H; exact (False_ind _ (H eq_refl)) | reflexivity].
  - exact IH.
  - unfold start_camera. destruct opened; exact IH.
  - unfold start_detection, start_camera. destruct opened; exact IH.
  - apply writer_invariant_stop_camera, IH.
  - unfold grabber_iteration.
    destruct (frame_thread self && negb (stop_thread self) && cap_opened self);
      [destruct read |]; exact IH.
  - apply writer_invariant_process_frame, IH.
  - unfold send_message. invariant_cases.
  - unfold update_settings.
    destruct (py_int_of a); [| exact IH].
    destruct (py_int_of d); [| exact IH].
    destruct (fresh_window _ allocated); exact IH.
Qed.

Lemma reachable_process_frames (envs : list FrameEnv) :
  forall self, reachable self -> reachable (fst (process_frames self envs)).
Proof.
  induction envs as [| env rest IH]; intros self H; [exact H |].
  cbn [process_frames].
  pose proof (@reach_process_frame self env H) as H1.
  destruct (process_frame self env) as [s1 calls]. cbn [fst] in H1.
  specialize (IH s1 H1).
  destruct (process_frames s1 rest) as [s2 more]. exact IH.
Qed.

Lemma reachable_live_system : reachable live_system.
Proof.
  unfold live_system.
  apply reach_grabber, reach_start_detection, reach_init.
Qed.

(** C4, as the code has it: in every reachable state an active recording
    has its entry time; the exit transition and [stop_camera] release the
    writer and leave [entry_time] as it was, so the converse fails. *)
Theorem active_recording_has_entry_time (self : System) :
  reachable self ->
  (recording_active self = true -> entry_time self <> None)
  /\ (forall env,
        recording_active (fst (exit_transition self env)) = false
        /\ entry_time (fst (exit_transition self env)) = entry_time self)
  /\ recording_active (fst (stop_camera self)) = false
  /\ entry_time (fst (stop_camera self)) = entry_time self.
Proof.
  intros Hr. destruct (writer_invariant_reachable self Hr) as [Hout _].
  split; [| split; [| split]].
  - intros Hact. apply Hout. unfold recording_active in Hact.
    destruct (out self); [discriminate | discriminate Hact].
  - intros env.
    unfold exit_transition, release_out, send_message, recording_active.
    by_cases.
  - unfold stop_camera, release_out, recording_active. by_cases.
  - unfold stop_camera, release_out. by_cases.
Qed.

Lemma active_recording_has_entry_time_witness :
  entry_time occupied_state <> None
  /\ entry_time (fst (stop_camera occupied_state)) = entry_time occupied_state.
Proof.
  assert (Hr : reachable occupied_state).
  { apply reachable_process_frames, reachable_live_system. }
  destruct (active_recording_has_entry_time occupied_state Hr)
    as (Hact & _ & _ & Hstop).
  split; [apply Hact; reflexivity | exact Hstop].
Defined.

(** C4 as stated fails: after a session (entry at 1005, exit at 1013) the
    state is reachable, the room is empty and the writer released, and
    [entry_time] still holds the entry of that session. *)
Lemma entry_time_outlives_recording :
  reachable session_over_state
  /\ status session_over_state = false
  /\ recording_active session_over_state = false
  /\ entry_time session_over_state
     = Some "Monday, 10-00-00 AM 01 January 2024"%string
  /\ ~ (entry_time session_over_state <> None
        <-> recording_active session_over_state = true).
Proof.
  split; [| repeat split; try reflexivity].
  - apply reachable_process_frames, reachable_live_system.
  - intros [H _]. assert (E : entry_time session_over_state <> None)
      by (vm_compute; discriminate).
    specialize (H E). vm_compute in H. discriminate H.
Qed.

(** ** The cooldown of the alerts *)

Lemma send_message_cases (self : System) (body : string) (t : Z)
  (create : PyResult string) :
  (is_sent (snd (send_message self body t create)) = true
   /\ fst (send_message self body t create) = set_last_alert_time t self
   /\ alert_cooldown self <= t - last_alert_time self)
  \/ (is_sent (snd (send_message self body t create)) = false
      /\ fst (send_message self body t create) = self).
Proof.
  unfold send_message.
  destruct (negb (twilio_enabled self)); [right; split; reflexivity |].
  destruct (t - last_alert_time self <? alert_cooldown self) eqn:E;
    [right; split; reflexivity |].
  apply Z.ltb_ge in E.
  destruct create; [left | right]; repeat split; auto.
Qed.

Lemma dispatch_all_spaced (calls : list Dispatch) :
  forall self,
    0 <= alert_cooldown self ->
    spaced (alert_cooldown self) (sent_times (snd (dispatch_all self calls)))
    /\ Forall (fun t => alert_cooldown self <= t - last_alert_time self)
              (sent_times (snd (dispatch_all self calls))).
Proof.
  unfold spaced.
  induction calls as [| d rest IH]; intros self Hcd.
  - split; constructor.
  - cbn [dispatch_all].
    destruct (send_message_cases self (text d) (at_time d) (channel d))
      as [(Hsent & Hst & Hgap) | (Hsent & Hst)];
      destruct (send_message self (text d) (at_time d) (channel d))
        as [s1 reply]; cbn [fst snd] in *; subst s1.
    + specialize (IH (set_last_alert_time (at_time d) self) Hcd).
      cbn [alert_cooldown last_alert_time set_last_alert_time] in IH.
      destruct (dispatch_all (set_last_alert_time (at_time d) self) rest)
        as [s2 more]. cbn [snd] in *.
      destruct IH as [IHs IHf].
      unfold sent_times. cbn [filter snd]. rewrite Hsent. cbn [map fst].
      fold (sent_times more).
      split.
      * constructor; assumption.
      * constructor; [assumption |].
        eapply Forall_impl; [| exact IHf]. cbn beta. intros u Hu. lia.
    + specialize (IH self Hcd).
      destruct (dispatch_all self rest) as [s2 more]. cbn [snd] in *.
      unfold sent_times. cbn [filter snd]. rewrite Hsent. exact IH.
Qed.

(** *** The alerts of the exit path *)

Lemma entry_transition_alerts (self : System) (env : FrameEnv) :
  let after := fst (entry_transition self env) in
  filter is_create (snd (entry_transition self env)) = []
  /\ twilio_enabled after = twilio_enabled self
  /\ last_alert_time after = last_alert_time self
  /\ alert_cooldown after = alert_cooldown self
  /\ (status self = true -> entry_transition self env = (self, [])).
Proof.
  unfold entry_transition.
  destruct (status self); cbn [negb andb];
    rewrite ?andb_false_r, ?andb_false_l; by_cases.
Qed.

Lemma exit_transition_alerts (self : System) (env : FrameEnv) :
  let after := fst (exit_transition self env) in
  let calls := snd (exit_transition self env) in
  twilio_enabled after = twilio_enabled self
  /\ alert_cooldown after = alert_cooldown self
  /\ status after = false
  /\ (length (filter is_create calls) <= 1)%nat
  /\ (alert_time env - last_alert_time self < alert_cooldown self ->
      filter is_create calls = []
      /\ last_alert_time after = last_alert_time self)
  /\ (twilio_enabled self = true ->
      alert_cooldown self <= alert_time env - last_alert_time self ->
      forall sid, messages_create env = Returned sid ->
        length (filter is_create calls) = 1%nat
        /\ last_alert_time after = alert_time env).
Proof.
  unfold exit_transition, release_out, send_message, send_calls. cbn.
  destruct (out self) as [w |]; cbn;
    destruct (twilio_enabled self) eqn:Htw; cbn;
    destruct (alert_time env - last_alert_time self <? alert_cooldown self)
      eqn:Hcool; cbn;
    destruct (messages_create env) as [sid0 | e]; cbn;
    repeat split; try reflexivity; try assumption; try lia; intros;
    try discriminate;
    try (apply Z.ltb_ge in Hcool; lia);
    try (apply Z.ltb_lt in Hcool; lia).
Qed.

Lemma exit_logic_exit_or_idle (self : System) (present : bool)
  (env : FrameEnv) :
  exit_logic self present env = exit_transition self env
  \/ (snd (exit_logic self present env) = []
      /\ status (fst (exit_logic self present env)) = status self
      /\ last_alert_time (fst (exit_logic self present env))
         = last_alert_time self
      /\ twilio_enabled (fst (exit_logic self present env))
         = twilio_enabled self
      /\ alert_cooldown (fst (exit_logic self present env))
         = alert_cooldown self).
Proof.
  unfold exit_logic.
  destruct (status self && negb present).
  - destruct (gt_frac _ _ 3).
    + right. destruct (initial_time self); cbn; repeat split; reflexivity.
    + destruct (initial_time self) as [started |];
        [| right; cbn; repeat split; reflexivity].
      destruct (patience self <=? now env - started);
        [left; reflexivity | right; cbn; repeat split; reflexivity].
  - right. destruct (status self && gt_frac _ _ 3); cbn; repeat split;
      reflexivity.
Qed.


Lemma count_detection_alerts (present : bool) (self : System) :
  let after := count_detection present self in
  status after = status self
  /\ twilio_enabled after = twilio_enabled self
  /\ last_alert_time after = last_alert_time self
  /\ alert_cooldown after = alert_cooldown self.
Proof. unfold count_detection. destruct present; repeat split; reflexivity. Qed.

Lemma write_frame_no_create (self : System) :
  filter is_create (write_frame self) = [].
Proof.
  unfold write_frame. destruct (out self); [destruct (status self) |];
    reflexivity.
Qed.

(** What an update does to the alerts. *)
Lemma occupancy_update_alerts (self : System) (person_count : Z)
  (env : FrameEnv) :
  let after := fst (occupancy_update self person_count env) in
  let calls := snd (occupancy_update self person_count env) in
  twilio_enabled after = twilio_enabled self
  /\ alert_cooldown after = alert_cooldown self
  /\ (length (filter is_create calls) <= 1)%nat
  /\ (alert_time env - last_alert_time self < alert_cooldown self ->
      filter is_create calls = []
      /\ last_alert_time after = last_alert_time self)
  /\ (status self = true -> status after = false ->
      twilio_enabled self = true ->
      alert_cooldown self <= alert_time env - last_alert_time self ->
      forall sid, messages_create env = Returned sid ->
        length (filter is_create calls) = 1%nat
        /\ last_alert_time after = alert_time env).
Proof.
  cbv zeta. rewrite occupancy_update_steps. cbv zeta. cbn [fst snd].
  destruct (push_presence_keeps self person_count)
    as (Kst & _ & _ & _ & _ & _ & Ktw & Kla & Kcd & _).
  set (pushed := push_presence self person_count) in *.
  destruct (entry_transition_alerts (fst pushed) env)
    as (Ecalls & Etw & Ela & Ecd & Eidle).
  set (entered := entry_transition (fst pushed) env) in *.
  destruct (count_detection_alerts (snd pushed)
              (fst (exit_logic (fst entered) (snd pushed) env)))
    as (Cst & Ctw & Cla & Ccd).
  rewrite Cst, Ctw, Cla, Ccd.
  rewrite !filter_app, Ecalls, write_frame_no_create, app_nil_r. cbn [app].
  destruct (exit_transition_alerts (fst entered) env)
    as (Ttw & Tcd & Tst & Tlen & Tcool & Tsend).
  destruct (exit_logic_exit_or_idle (fst entered) (snd pushed) env)
    as [-> | (-> & Xst & Xla & Xtw & Xcd)].
  - rewrite Ttw, Tcd, Etw, Ecd, Ktw, Kcd.
    rewrite Ela, Ecd, Etw, Kla, Kcd, Ktw in *.
    split; [reflexivity | split; [reflexivity |]].
    split; [exact Tlen | split; [exact Tcool |]].
    intros _ _. exact Tsend.
  - rewrite Xst, Xla, Xtw, Xcd, Etw, Ecd, Ela, Ktw, Kcd, Kla.
    cbn [filter length].
    split; [reflexivity | split; [reflexivity |]].
    split; [lia | split; [intros _; split; reflexivity |]].
    intros Hst Hafter. exfalso.
    rewrite <- Kst in Hst.
    rewrite (Eidle Hst) in Hafter. cbn [fst] in Hafter. congruence.
Qed.

Lemma process_frame_alerts (self : System) (env : FrameEnv) :
  let after := fst (process_frame self env) in
  let calls := snd (process_frame self env) in
  twilio_enabled after = twilio_enabled self
  /\ alert_cooldown after = alert_cooldown self
  /\ (length (filter is_create calls) <= 1)%nat
  /\ (alert_time env - last_alert_time self < alert_cooldown self ->
      filter is_create calls = []
      /\ last_alert_time after = last_alert_time self)
  /\ (status self = true -> status after = false ->
      twilio_enabled self = true ->
      alert_cooldown self <= alert_time env - last_alert_time self ->
      forall sid, messages_create env = Returned sid ->
        length (filter is_create calls) = 1%nat
        /\ last_alert_time after = alert_time env).
Proof.
  assert (Hidle : let after := fst (self, @nil Call) in
                  let calls := snd (self, @nil Call) in
    twilio_enabled after = twilio_enabled self
    /\ alert_cooldown after = alert_cooldown self
    /\ (length (filter is_create calls) <= 1)%nat
    /\ (alert_time env - last_alert_time self < alert_cooldown self ->
        filter is_create calls = []
        /\ last_alert_time after = last_alert_time self)
    /\ (status self = true -> status after = false ->
        twilio_enabled self = true ->
        alert_cooldown self <= alert_time env - last_alert_time self ->
        forall sid, messages_create env = Returned sid ->
          length (filter is_create calls) = 1%nat
          /\ last_alert_time after = alert_time env)).
  { cbn. repeat split; try lia; congruence. }
  unfold process_frame.
  destruct (negb (cap_opened self)); [exact Hidle |].
  destruct (fetch_latest self); [| exact Hidle].
  destruct (track_persons self (detections env) (tracker_update env))
    as [person_count | exn]; [| exact Hidle].
  apply occupancy_update_alerts.
Qed.

(** After an alert, the frames whose alert clock reads less than the
    cooldown later reach no channel, whatever happens in the room. *)
Lemma process_frames_within_cooldown (envs : list FrameEnv) :
  forall self,
    forallb (fun e => alert_time e - last_alert_time self
                      <? alert_cooldown self) envs = true ->
    filter is_create (snd (process_frames self envs)) = []
    /\ last_alert_time (fst (process_frames self envs))
       = last_alert_time self.
Proof.
  induction envs as [| env rest IH]; intros self Hall;
    [split; reflexivity |].
  cbn [forallb] in Hall. apply andb_true_iff in Hall.
  destruct Hall as [Hcool Hrest]. apply Z.ltb_lt in Hcool.
  cbn [process_frames].
  destruct (process_frame_alerts self env) as (_ & Hcd & _ & Hquiet & _).
  destruct (Hquiet Hcool) as [Hnone Hla].
  destruct (process_frame self env) as [s1 calls]. cbn [fst snd] in *.
  specialize (IH s1). rewrite Hla, Hcd in IH. specialize (IH Hrest).
  destruct (process_frames s1 rest) as [s2 more]. cbn [fst snd] in *.
  rewrite filter_app, Hnone. exact IH.
Qed.

(** C5, as the code has it: the alerts that are sent are at least
    [alert_cooldown] apart; a call inside the cooldown leaves the state as it
    is and reaches no channel; of two dispatches less than [alert_cooldown]
    apart, the first of which is delivered, exactly one reaches the
    channel.  The same on the exit path: a frame processed while the alert
    clock is inside the cooldown reaches no channel and leaves
    [last_alert_time], whether or not the room is left in it; and when a
    frame in which the room is left has its alert delivered, the whole run
    made of that frame and of any frames whose alert clock reads less than
    [alert_cooldown] later makes exactly one notification attempt, however
    many times the room is entered and left again in it. *)
Theorem alerts_never_closer_than_cooldown
  (self : System) (calls : list Dispatch) :
  0 <= alert_cooldown self ->
  spaced (alert_cooldown self) (sent_times (snd (dispatch_all self calls)))
  /\ (forall body t create,
        twilio_enabled self = true ->
        t - last_alert_time self < alert_cooldown self ->
        send_message self body t create = (self, CooldownActive)
        /\ send_calls body (snd (send_message self body t create)) = [])
  /\ (forall d1 d2 sid,
        twilio_enabled self = true ->
        alert_cooldown self <= at_time d1 - last_alert_time self ->
        channel d1 = Returned sid ->
        at_time d2 - at_time d1 < alert_cooldown self ->
        snd (dispatch_all self [d1; d2])
        = [(at_time d1, MessageSent sid); (at_time d2, CooldownActive)]
        /\ attempts (snd (dispatch_all self [d1; d2])) = 1%nat)
  /\ (forall env,
        alert_time env - last_alert_time self < alert_cooldown self ->
        filter is_create (snd (process_frame self env)) = []
        /\ last_alert_time (fst (process_frame self env))
           = last_alert_time self)
  /\ (forall env envs sid,
        status self = true ->
        status (fst (process_frame self env)) = false ->
        twilio_enabled self = true ->
        alert_cooldown self <= alert_time env - last_alert_time self ->
        messages_create env = Returned sid ->
        forallb (fun later => alert_time later - alert_time env
                              <? alert_cooldown self) envs = true ->
        length (filter is_create (snd (process_frame self env))) = 1%nat
        /\ length (filter is_create
                     (snd (process_frames self (env :: envs)))) = 1%nat
        /\ last_alert_time (fst (process_frames self (env :: envs)))
           = alert_time env).
Proof.
  intros Hcd. split; [apply dispatch_all_spaced, Hcd | split; [| split]].
  - intros body t create Hen Hin. unfold send_message.
    rewrite Hen. cbn [negb].
    apply Z.ltb_lt in Hin. rewrite Hin. split; reflexivity.
  - intros d1 d2 sid Hen Hgap Hch Hclose.
    apply Z.ltb_ge in Hgap. apply Z.ltb_lt in Hclose.
    assert (E1 : send_message self (text d1) (at_time d1) (channel d1)
                 = (set_last_alert_time (at_time d1) self, MessageSent sid)).
    { unfold send_message. rewrite Hen, Hch, Hgap. reflexivity. }
    assert (E2 : send_message (set_last_alert_time (at_time d1) self)
                   (text d2) (at_time d2) (channel d2)
                 = (set_last_alert_time (at_time d1) self, CooldownActive)).
    { unfold send_message. cbn [twilio_enabled last_alert_time alert_cooldown
                               set_last_alert_time].
      rewrite Hen, Hclose. reflexivity. }
    cbn [dispatch_all]. rewrite E1, E2. split; reflexivity.
  - split.
    + intros env Hcool.
      destruct (process_frame_alerts self env) as (_ & _ & _ & Hquiet & _).
      exact (Hquiet Hcool).
    + intros env envs sid Hst Hleft Htw Hpass Hsid Hlater.
      destruct (process_frame_alerts self env)
        as (_ & Hcd1 & _ & _ & Hsend).
      destruct (Hsend Hst Hleft Htw Hpass sid Hsid) as [Hone Hla].
      split; [exact Hone |].
      cbn [process_frames].
      destruct (process_frame self env) as [s1 first]. cbn [fst snd] in *.
      pose proof (process_frames_within_cooldown envs s1) as Hrest.
      rewrite Hla, Hcd1 in Hrest. specialize (Hrest Hlater).
      destruct (process_frames s1 envs) as [s2 more]. cbn [fst snd] in *.
      destruct Hrest as [Hnone Hkept].
      rewrite filter_app, Hnone, app_nil_r.
      split; [exact Hone | exact Hkept].
Qed.

(** The witness: three dispatches at 1000, 1100 and 1400 and two at 1000
    and 1100; and the two sessions of [two_sessions] from the frame of the
    first exit on: the room is left at 1013 and again at 1026, the alert of
    the first exit is delivered, and one notification attempt is made. *)
Lemma alerts_never_closer_than_cooldown_witness :
  spaced 300
    (sent_times
       (snd (dispatch_all armed_system
               [delivered_at 1000; delivered_at 1100; delivered_at 1400])))
  /\ attempts
       (snd (dispatch_all armed_system [delivered_at 1000; delivered_at 1100]))
     = 1%nat
  /\ exit_events armed_before_exit
       (frame_env 0 1013 (Returned "SM2"%string) :: second_session) = 2%nat
  /\ length (filter is_create
               (snd (process_frames armed_before_exit
                       (frame_env 0 1013 (Returned "SM2"%string)
                        :: second_session)))) = 1%nat.
Proof.
  assert (Hcd : 0 <= alert_cooldown armed_system) by (vm_compute; discriminate).
  split; [| split; [| split]].
  - exact (proj1 (alerts_never_closer_than_cooldown armed_system
                    [delivered_at 1000; delivered_at 1100; delivered_at 1400]
                    Hcd)).
  - destruct (alerts_never_closer_than_cooldown armed_system [] Hcd)
      as (_ & _ & Htwo & _).
    apply (Htwo (delivered_at 1000) (delivered_at 1100) "SM1"%string).
    + reflexivity.
    + vm_compute. discriminate.
    + reflexivity.
    + vm_compute. reflexivity.
  - vm_compute. reflexivity.
  - assert (Hcd' : 0 <= alert_cooldown armed_before_exit)
      by (vm_compute; discriminate).
    destruct (alerts_never_closer_than_cooldown armed_before_exit [] Hcd')
      as (_ & _ & _ & _ & Hexit).
    refine (proj1 (proj2 (Hexit (frame_env 0 1013 (Returned "SM2"%string))
                            second_session "SM2"%string _ _ _ _ _ _))).
    + vm_compute. reflexivity.
    + vm_compute. reflexivity.
    + vm_compute. reflexivity.
    + vm_compute. discriminate.
    + reflexivity.
    + vm_compute. reflexivity.
Defined.

(** C5 as stated fails in its last part: two sessions end at 1013 and at
    1026, thirteen time units apart with a cooldown of 300; the channel
    refuses the alert of the first exit, and the second exit reaches the
    channel too: two notification attempts.  With the first alert delivered
    there is one. *)
Lemma refused_alert_is_attempted_again :
  alert_cooldown armed_system = 300
  /\ forallb (clocks_within 1001 1029)
       (two_sessions (Raised "unreachable"%string)) = true
  /\ length (filter is_release
               (snd (process_frames armed_system
                       (two_sessions (Raised "unreachable"%string))))) = 2%nat
  /\ length (filter is_create
               (snd (process_frames armed_system
                       (two_sessions (Raised "unreachable"%string))))) = 2%nat
  /\ length (filter is_create
               (snd (process_frames armed_system
                       (two_sessions (Returned "SM2"%string))))) = 1%nat
  /\ attempts
       (snd (dispatch_all armed_system [refused_at 1013; delivered_at 1026]))
     = 2%nat.
Proof. repeat split; vm_compute; reflexivity. Qed.

(** C9: when the channel raises, [send_message] leaves the state, and so
    [last_alert_time], as it was: the next call behaves as if the failed one
    had not been made, and a call that passed the cooldown test and failed
    is followed by an attempt at any later time; [last_alert_time] changes
    only in a call that returns the sid of a created message. *)
Theorem failed_alert_keeps_cooldown
  (self : System) (body : string) (t : Z) (e : string) :
  fst (send_message self body t (Raised e)) = self
  /\ (forall body' t' create',
        send_message (fst (send_message self body t (Raised e)))
                     body' t' create'
        = send_message self body' t' create')
  /\ (twilio_enabled self = true ->
      alert_cooldown self <= t - last_alert_time self ->
      snd (send_message self body t (Raised e)) = SendFailed e
      /\ forall body' t' sid,
           t <= t' ->
           send_message (fst (send_message self body t (Raised e)))
                        body' t' (Returned sid)
           = (set_last_alert_time t' self, MessageSent sid))
  /\ (forall create,
        last_alert_time (fst (send_message self body t create))
        <> last_alert_time self ->
        exists sid, create = Returned sid
                    /\ snd (send_message self body t create) = MessageSent sid).
Proof.
  assert (Hsame : fst (send_message self body t (Raised e)) = self).
  { unfold send_message. by_cases. }
  split; [exact Hsame | split; [| split]].
  - intros body' t' create'. rewrite Hsame. reflexivity.
  - intros Hen Hgap. rewrite Hsame.
    assert (Hpass : (t - last_alert_time self <? alert_cooldown self) = false)
      by (apply Z.ltb_ge; exact Hgap).
    split.
    + unfold send_message. rewrite Hen, Hpass. reflexivity.
    + intros body' t' sid Hlater. unfold send_message. rewrite Hen.
      assert (Hpass' : (t' - last_alert_time self <? alert_cooldown self)
                       = false) by (apply Z.ltb_ge; lia).
      rewrite Hpass'. reflexivity.
  - intros create. unfold send_message.
    destruct (negb (twilio_enabled self)); cbn; [congruence |].
    destruct (t - last_alert_time self <? alert_cooldown self); cbn;
      [congruence |].
    destruct create as [sid | exn]; cbn; [| congruence].
    intros _. exists sid. split; reflexivity.
Qed.

Lemma failed_alert_keeps_cooldown_witness :
  snd (send_message armed_system "alert" 1013 (Raised "unreachable"%string))
  = SendFailed "unreachable"
  /\ send_message
       (fst (send_message armed_system "alert" 1013
               (Raised "unreachable"%string)))
       "alert" 1026 (Returned "SM2"%string)
     = (set_last_alert_time 1026 armed_system, MessageSent "SM2").
Proof.
  destruct (failed_alert_keeps_cooldown armed_system "alert" 1013 "unreachable")
    as (_ & _ & Hnext & _).
  destruct Hnext as [Hfail Hagain].
  - reflexivity.
  - vm_compute. discriminate.
  - split; [exact Hfail |]. apply Hagain. vm_compute. discriminate.
Defined.

(** ** Tracking *)

(** C7, as the code has it: [track_persons] never raises; when the update
    of the tracker raises it returns the number of detections, and when the
    tracker is not initialized it returns 0 whatever the detections. *)
Theorem track_persons_degrades
  (self : System) (detections : list Detection) (update : PyResult unit) :
  track_persons self detections update
  = Returned (if tracker self then Z.of_nat (length detections) else 0).
Proof.
  unfold track_persons.
  destruct (tracker self); cbn [negb]; [| reflexivity].
  destruct detections as [| d rest]; [reflexivity |].
  destruct update; reflexivity.
Qed.

(** C7 as stated fails for the tracker that is not initialized: with two
    detections the count returned is 0, and the frame is processed as one
    without anybody. *)
Lemma uninitialized_tracker_counts_nobody :
  tracker (init_system false) = false
  /\ track_persons (init_system false) [a_detection; a_detection]
       (Raised "tracker unavailable"%string) = Returned 0
  /\ track_persons (init_system false) [a_detection; a_detection]
       (Returned tt) = Returned 0
  /\ Z.of_nat (length [a_detection; a_detection]) = 2
  /\ track_persons (init_system true) [a_detection; a_detection]
       (Raised "tracker unavailable"%string) = Returned 2.
Proof. repeat split; reflexivity. Qed.

(** ** The settings *)

Lemma fresh_window_items (n : Z) :
  0 <= n < index_limit ->
  fresh_window n true = Returned (Deque.mk (falses n) (Z.to_nat n)).
Proof.
  intros [Hn Hlim]. unfold fresh_window.
  assert (H : (n <? 0) = false) by (apply Z.ltb_ge; exact Hn).
  assert (H' : (index_limit <=? n) = false) by (apply Z.leb_gt; exact Hlim).
  rewrite H, H'. unfold Deque.make. f_equal. f_equal.
  apply lastn_all. unfold falses. rewrite repeat_length. lia.
Qed.

(** The window is built for exactly the sizes [0 <= n < index_limit] whose
    list can be allocated. *)
Lemma fresh_window_cases (n : Z) (allocated : bool) :
  (0 <= n < index_limit /\ allocated = true
   /\ fresh_window n allocated
      = Returned (Deque.mk (falses n) (Z.to_nat n)))
  \/ (exists e, fresh_window n allocated = Raised e
      /\ (n < 0 \/ index_limit <= n \/ allocated = false)).
Proof.
  destruct (Z.lt_ge_cases n 0) as [Hneg | Hpos].
  - right. unfold fresh_window.
    destruct (index_limit <=? n); [eexists; split; [reflexivity | lia] |].
    apply Z.ltb_lt in Hneg. rewrite Hneg. eexists; split; [reflexivity | lia].
  - destruct (Z.lt_ge_cases n index_limit) as [Hlim | Hbig].
    + destruct allocated.
      * left. split; [lia | split; [reflexivity |]].
        apply fresh_window_items. lia.
      * right. unfold fresh_window.
        assert (H : (n <? 0) = false) by (apply Z.ltb_ge; exact Hpos).
        assert (H' : (index_limit <=? n) = false)
          by (apply Z.leb_gt; exact Hlim).
        rewrite H, H'. eexists; split; [reflexivity | tauto].
    + right. unfold fresh_window.
      assert (H' : (index_limit <=? n) = true) by (apply Z.leb_le; exact Hbig).
      rewrite H'. eexists; split; [reflexivity | lia].
Qed.




(** ** A video writer that cannot be built *)

Lemma exit_logic_no_recorder (self : System) (present : bool) (env : FrameEnv) :
  recording_active self = false ->
  recording_active (fst (exit_logic self present env)) = false.
Proof.
  intros H.
  unfold exit_logic, exit_transition, release_out, send_message.
  unfold recording_active in *. by_cases.
Qed.

(** An occupied room without an active recorder gets none. *)
Lemma occupied_without_recorder (self : System) (person_count : Z)
  (env : FrameEnv) :
  status self = true ->
  recording_active self = false ->
  recording_active (fst (occupancy_update self person_count env)) = false.
Proof.
  intros Hst Hrec. rewrite occupancy_update_steps. cbv zeta. cbn [fst].
  pose proof (entry_required_window self person_count) as Hw. cbv zeta in Hw.
  unfold entry_required in Hw. rewrite Hst in Hw. cbn [negb andb] in Hw.
  symmetry in Hw.
  pose proof (push_presence_keeps self person_count) as K. cbv zeta in K.
  destruct (push_presence self person_count) as [s1 present].
  cbn [fst snd] in *.
  destruct K as (_ & _ & _ & _ & Kout & _).
  rewrite (entry_transition_idle s1 env Hw). cbn [fst].
  unfold recording_active at 1.
  destruct (count_detection_keeps present (fst (exit_logic s1 present env)))
    as (_ & -> & _).
  apply (exit_logic_no_recorder s1 present env).
  unfold recording_active in *. rewrite Kout. exact Hrec.
Qed.

(** C10: when the entry transition fires and building the video writer
    raises, the update still leaves the room occupied with [entry_time]
    recorded; [self.out] is what it was before, so no recorder is active,
    and none becomes active in the updates that follow while the room is
    occupied. *)
Theorem entry_survives_writer_failure
  (self : System) (person_count : Z) (env : FrameEnv) (e : string) :
  reachable self ->
  entry_required self person_count = true ->
  writer_new env = Raised e ->
  0 < detection_thresh self ->
  let after := fst (occupancy_update self person_count env) in
  status self = false
  /\ status after = true
  /\ entry_time after = Some (entry_stamp env)
  /\ out after = out self
  /\ recording_active after = false
  /\ (forall count' env',
        status (fst (occupancy_update after count' env')) = true ->
        recording_active (fst (occupancy_update after count' env')) = false
        /\ entry_time (fst (occupancy_update after count' env'))
           = Some (entry_stamp env)).
Proof.
  intros Hr Hreq Hraise Hpos. cbv zeta.
  assert (Hst : status self = false).
  { unfold entry_required in Hreq. apply andb_true_iff in Hreq.
    apply negb_true_iff. tauto. }
  destruct (occupancy_update_entering self person_count env Hreq)
    as (_ & Het & _ & _ & Hstay).
  destruct (Hstay (or_intror Hpos)) as [Hocc Hout].
  rewrite Hraise in Hout.
  destruct (writer_invariant_reachable self Hr) as [_ Hidle].
  assert (Hrec : recording_active
                   (fst (occupancy_update self person_count env)) = false).
  { unfold recording_active. rewrite Hout. apply Hidle, Hst. }
  repeat split; try assumption.
  - apply occupied_without_recorder; assumption.
  - destruct (entry_exactly_in_occupied_room
                (fst (occupancy_update self person_count env)) count' env'
                Hocc) as [_ Hkeep].
    rewrite Hkeep. exact Het.
Qed.

Lemma reachable_almost_entered : reachable almost_entered_state.
Proof. apply reachable_process_frames, reachable_live_system. Qed.

Lemma entry_survives_writer_failure_witness :
  status (fst (occupancy_update almost_entered_state 1
                 (frame_env_no_writer 1 1005))) = true
  /\ entry_time (fst (occupancy_update almost_entered_state 1
                        (frame_env_no_writer 1 1005)))
     = Some "Monday, 10-00-00 AM 01 January 2024"%string
  /\ recording_active (fst (occupancy_update almost_entered_state 1
                              (frame_env_no_writer 1 1005))) = false.
Proof.
  assert (Hpos : 0 < detection_thresh almost_entered_state)
    by (vm_compute; reflexivity).
  destruct (entry_survives_writer_failure almost_entered_state 1
              (frame_env_no_writer 1 1005) "cv2.error"
              reachable_almost_entered eq_refl eq_refl Hpos)
    as (_ & Hocc & Het & _ & Hrec & _).
  repeat split; assumption.
Defined.

(** ** The frame cell *)











(** Before the first capture: after [start_detection] the cell is empty, a
    call of [process_frame] fetches nothing and changes nothing, and no
    frame is waiting; one is waiting after the first turn of the grabber,
    and still one when two more frames are captured before the next fetch,
    which finds the last of them. *)
Lemma cell_empty_before_first_capture :
  buffered_frames started_system = 0%nat
  /\ process_frame started_system (frame_env 1 1001 (Returned "SM1"%string))
     = (started_system, [])
  /\ snd (run_pipeline started_system
            [Process (frame_env 1 1001 (Returned "SM1"%string))])
     = [Fetched None]
  /\ buffered_frames
       (fst (run_pipeline started_system
               [Process (frame_env 1 1001 (Returned "SM1"%string))])) = 0%nat
  /\ buffered_frames
       (fst (run_pipeline started_system
               [Grab (Some 1%nat); Grab (Some 2%nat); Grab (Some 3%nat)]))
     = 1%nat
  /\ snd (run_pipeline started_system
            [Grab (Some 1%nat); Grab (Some 2%nat); Grab (Some 3%nat);
             Process (frame_env 1 1001 (Returned "SM1"%string))])
     = [Captured 1%nat; Captured 2%nat; Captured 3%nat; Fetched (Some 3%nat)].
Proof. repeat split; reflexivity. Qed.

(** * Further properties of the code *)

(** ** One call of [process_frame], step by step *)

Lemma process_frame_shape (self : System) (env : FrameEnv) :
  process_frame self env = (self, [])
  \/ exists person_count,
       process_frame self env = occupancy_update self person_count env
       /\ track_persons self (detections env) (tracker_update env)
          = Returned person_count.
Proof.
  unfold process_frame.
  destruct (negb (cap_opened self)); [left; reflexivity |].
  destruct (fetch_latest self); [| left; reflexivity].
  destruct (track_persons self (detections env) (tracker_update env))
    as [person_count | exn]; [right | left; reflexivity].
  exists person_count. split; reflexivity.
Qed.

Lemma entry_transition_keeps (self : System) (env : FrameEnv) :
  let after := fst (entry_transition self env) in
  de after = de self
  /\ detection_thresh after = detection_thresh self
  /\ detection_count after = detection_count self
  /\ initial_time after = initial_time self
  /\ twilio_enabled after = twilio_enabled self
  /\ tracker after = tracker self
  /\ person_count_history after = person_count_history self
  /\ patience after = patience self
  /\ (status self = true -> status after = true).
Proof. unfold entry_transition. by_cases. Qed.

Lemma exit_logic_keeps_more (self : System) (present : bool) (env : FrameEnv) :
  let after := fst (exit_logic self present env) in
  detection_count after = detection_count self
  /\ twilio_enabled after = twilio_enabled self
  /\ tracker after = tracker self
  /\ person_count_history after = person_count_history self
  /\ patience after = patience self.
Proof.
  unfold exit_logic, exit_transition, release_out, send_message.
  by_cases.
Qed.

Lemma count_detection_keeps_more (present : bool) (self : System) :
  let after := count_detection present self in
  de after = de self
  /\ detection_thresh after = detection_thresh self
  /\ twilio_enabled after = twilio_enabled self
  /\ tracker after = tracker self
  /\ person_count_history after = person_count_history self
  /\ detection_count after
     = detection_count self + (if present then 1 else 0).
Proof. unfold count_detection. destruct present; cbn; repeat split; lia. Qed.

Lemma push_presence_keeps_more (self : System) (person_count : Z) :
  let after := fst (push_presence self person_count) in
  detection_count after = detection_count self
  /\ tracker after = tracker self
  /\ person_count_history after
     = Deque.append person_count (person_count_history self).
Proof.
  unfold push_presence, apply_smart_filtering.
  destruct (Deque.len _ <? 5)%nat; cbn; repeat split; reflexivity.
Qed.

(** The window and the threshold after an update. *)
Lemma occupancy_update_window (self : System) (person_count : Z)
  (env : FrameEnv) :
  let after := fst (occupancy_update self person_count env) in
  de after
  = Deque.appendleft (snd (push_presence self person_count)) (de self)
  /\ detection_thresh after = detection_thresh self.
Proof.
  cbv zeta. rewrite occupancy_update_steps. cbv zeta. cbn [fst].
  destruct (push_presence_keeps self person_count)
    as (_ & _ & Kth & _ & _ & _ & _ & _ & _ & _ & Kde).
  set (pushed := push_presence self person_count) in *.
  set (entered := entry_transition (fst pushed) env).
  set (left := exit_logic (fst entered) (snd pushed) env).
  destruct (count_detection_keeps_more (snd pushed) (fst left))
    as (-> & -> & _).
  destruct (exit_logic_keeps (fst entered) (snd pushed) env)
    as (_ & Xth & Xde & _).
  fold left in Xth, Xde. rewrite Xth, Xde.
  destruct (entry_transition_keeps (fst pushed) env) as (Ede & Eth & _).
  fold entered in Ede, Eth. rewrite Ede, Eth. split; assumption.
Qed.

(** ** The presence window *)

Lemma appendleft_full (present : bool) (d : Deque.t bool) :
  length (Deque.items d) = Deque.maxlen d ->
  length (Deque.items (Deque.appendleft present d))
  = Deque.maxlen (Deque.appendleft present d)
  /\ Deque.maxlen (Deque.appendleft present d) = Deque.maxlen d.
Proof.
  intros H. unfold Deque.appendleft. cbn [Deque.items Deque.maxlen].
  rewrite length_firstn. cbn [length]. split; lia.
Qed.

Lemma process_frame_window (self : System) (env : FrameEnv) :
  window_full self ->
  window_full (fst (process_frame self env))
  /\ Deque.maxlen (de (fst (process_frame self env))) = Deque.maxlen (de self)
  /\ detection_thresh (fst (process_frame self env)) = detection_thresh self.
Proof.
  unfold window_full. intros Hfull.
  destruct (process_frame_shape self env) as [-> | (c & -> & _)];
    [split; [exact Hfull | split; reflexivity] |].
  destruct (occupancy_update_window self c env) as [Hde Hth].
  rewrite Hde, Hth.
  destruct (appendleft_full (snd (push_presence self c)) (de self) Hfull)
    as [Hlen Hmax].
  split; [exact Hlen | split; [exact Hmax | reflexivity]].
Qed.

(** What [update_settings] leaves of the window: a call that returns has
    built a full window of all [False] whose capacity is the stored
    threshold; a call that raises has kept the window. *)
Lemma update_settings_window (self : System) (confidence : Q)
  (area : PyNumber) (patience_s : Z) (window_size : PyNumber)
  (allocated : bool) :
  let result :=
    update_settings self confidence area patience_s window_size allocated in
  match snd result with
  | Returned _ =>
      window_full (fst result) /\ window_matches (fst result)
      /\ window_sum (fst result) = 0
      /\ 0 <= detection_thresh (fst result) < index_limit
  | Raised _ => de (fst result) = de self
  end.
Proof.
  cbv zeta. unfold update_settings.
  destruct (py_int_of area) as [a | e]; [| reflexivity].
  destruct (py_int_of window_size) as [n | e]; [| reflexivity].
  destruct (fresh_window_cases n allocated)
    as [(Hn & _ & ->) | (e & -> & _)]; [| reflexivity].
  unfold window_full, window_matches, window_sum. cbn.
  unfold falses. rewrite repeat_length.
  split; [reflexivity | split; [lia | split; [| exact Hn]]].
  apply sum_bools_falses.
Qed.

Lemma window_full_reachable (self : System) :
  reachable self -> window_full self.
Proof.
  induction 1 as [ready | self a b c d _ IH | self opened _ IH
                 | self opened _ IH | self _ IH | self read _ IH
                 | self env _ IH | self body t create _ IH
                 | self c a p d allocated _ IH].
  - reflexivity.
  - exact IH.
  - unfold start_camera. destruct opened; exact IH.
  - unfold start_detection, start_camera. destruct opened; exact IH.
  - unfold stop_camera, release_out. cbn. destruct (out self); exact IH.
  - unfold grabber_iteration.
    destruct (frame_thread self && negb (stop_thread self) && cap_opened self);
      [destruct read |]; exact IH.
  - apply process_frame_window, IH.
  - unfold send_message.
    destruct (negb (twilio_enabled self)); [exact IH |].
    destruct (t - last_alert_time self <? alert_cooldown self); [exact IH |].
    destruct create; exact IH.
  - pose proof (update_settings_window self c a p d allocated) as H.
    cbv zeta in H.
    destruct (snd (update_settings self c a p d allocated));
      [apply H | unfold window_full; rewrite H; exact IH].
Qed.

Lemma settled_reachable (self : System) : settled self -> reachable self.
Proof.
  induction 1; try (constructor; assumption).
Qed.

Lemma window_matches_settled (self : System) :
  settled self -> window_matches self.
Proof.
  induction 1 as [ready | self a b c d _ IH | self opened _ IH
                 | self opened _ IH | self _ IH | self read _ IH
                 | self env Hs IH | self body t create _ IH
                 | self c a p d allocated message _ IH Hret].
  - reflexivity.
  - exact IH.
  - unfold start_camera. destruct opened; exact IH.
  - unfold start_detection, start_camera. destruct opened; exact IH.
  - unfold stop_camera, release_out. cbn. destruct (out self); exact IH.
  - unfold grabber_iteration.
    destruct (frame_thread self && negb (stop_thread self) && cap_opened self);
      [destruct read |]; exact IH.
  - destruct (process_frame_window self env) as (_ & Hmax & Hth).
    { apply window_full_reachable, settled_reachable, Hs. }
    unfold window_matches. rewrite Hmax, Hth. exact IH.
  - unfold send_message.
    destruct (negb (twilio_enabled self)); [exact IH |].
    destruct (t - last_alert_time self <? alert_cooldown self); [exact IH |].
    destruct create; exact IH.
  - pose proof (update_settings_window self c a p d allocated) as H.
    cbv zeta in H. rewrite Hret in H. apply H.
Qed.

(** X1: in every reachable state the presence window is full (its length
    is its capacity) and the detection score [sum(self.de)] lies between 0
    and the capacity.  As long as no call of [update_settings] has raised,
    the capacity is [detection_thresh], so the score never exceeds
    [detection_thresh]; a call of [update_settings] that raises in the
    construction of the window stores the new threshold and keeps the old
    window, after which the two may differ. *)
Theorem presence_window_stays_full (self : System) :
  (reachable self ->
   length (Deque.items (de self)) = Deque.maxlen (de self)
   /\ 0 <= window_sum self <= Z.of_nat (Deque.maxlen (de self)))
  /\ (settled self ->
      Z.of_nat (Deque.maxlen (de self)) = detection_thresh self
      /\ window_sum self <= detection_thresh self)
  /\ (forall confidence area patience_s window_size allocated,
        let result :=
          update_settings self confidence area patience_s window_size
            allocated in
        match snd result with
        | Returned _ =>
            Z.of_nat (Deque.maxlen (de (fst result)))
            = detection_thresh (fst result)
        | Raised _ => de (fst result) = de self
        end).
Proof.
  assert (Hbounds : reachable self ->
            length (Deque.items (de self)) = Deque.maxlen (de self)
            /\ 0 <= window_sum self <= Z.of_nat (Deque.maxlen (de self))).
  { intros Hr. pose proof (window_full_reachable self Hr) as Hfull.
    unfold window_full in Hfull.
    pose proof (sum_bools_bounds (Deque.items (de self))) as Hb.
    fold (window_sum self) in Hb. rewrite Hfull in Hb.
    split; assumption. }
  split; [exact Hbounds | split].
  - intros Hs. pose proof (window_matches_settled self Hs) as Hm.
    unfold window_matches in Hm.
    destruct (Hbounds (settled_reachable self Hs)) as [_ Hb].
    split; [exact Hm | lia].
  - intros confidence area patience_s window_size allocated. cbv zeta.
    pose proof (update_settings_window self confidence area patience_s
                  window_size allocated) as H.
    cbv zeta in H.
    destruct (snd (update_settings self confidence area patience_s
                     window_size allocated)); [apply H | exact H].
Qed.

Lemma settled_process_frames (envs : list FrameEnv) :
  forall self, settled self -> settled (fst (process_frames self envs)).
Proof.
  induction envs as [| env rest IH]; intros self H; [exact H |].
  cbn [process_frames].
  pose proof (@settled_process_frame self env H) as H1.
  destruct (process_frame self env) as [s1 calls]. cbn [fst] in H1.
  specialize (IH s1 H1).
  destruct (process_frames s1 rest) as [s2 more]. exact IH.
Qed.

(** The witness: after a full session the window of the defaults is full
    and the score is within the threshold; a window size of [index_limit]
    given in that state is stored while the window of 8 is kept. *)
Lemma presence_window_stays_full_witness :
  (length (Deque.items (de session_over_state))
   = Deque.maxlen (de session_over_state)
   /\ 0 <= window_sum session_over_state
      <= Z.of_nat (Deque.maxlen (de session_over_state)))
  /\ (Z.of_nat (Deque.maxlen (de session_over_state))
      = detection_thresh session_over_state
      /\ window_sum session_over_state <= detection_thresh session_over_state)
  /\ de (fst (update_settings session_over_state (1 # 2) (Finite (2000 # 1))
                5 (Finite (inject_Z index_limit)) true))
     = de session_over_state
  /\ detection_thresh
       (fst (update_settings session_over_state (1 # 2) (Finite (2000 # 1))
               5 (Finite (inject_Z index_limit)) true))
     = index_limit.
Proof.
  assert (Hs : settled session_over_state).
  { apply settled_process_frames. unfold live_system.
    apply settled_grabber, settled_start_detection, settled_init. }
  destruct (presence_window_stays_full session_over_state)
    as (Hfull & Hcap & Hupd).
  split; [apply Hfull, settled_reachable, Hs | split; [apply Hcap, Hs |]].
  split; [| reflexivity].
  exact (Hupd (1 # 2) (Finite (2000 # 1)) 5 (Finite (inject_Z index_limit))
           true).
Defined.

(** ** The detection counter *)

Lemma occupancy_update_count (self : System) (person_count : Z)
  (env : FrameEnv) :
  detection_count (fst (occupancy_update self person_count env))
  = detection_count self
    + (if snd (push_presence self person_count) then 1 else 0).
Proof.
  rewrite occupancy_update_steps. cbv zeta. cbn [fst].
  set (pushed := push_presence self person_count).
  set (entered := entry_transition (fst pushed) env).
  set (left := exit_logic (fst entered) (snd pushed) env).
  destruct (count_detection_keeps_more (snd pushed) (fst left))
    as (_ & _ & _ & _ & _ & ->).
  destruct (exit_logic_keeps_more (fst entered) (snd pushed) env) as (X & _).
  fold left in X. rewrite X.
  destruct (entry_transition_keeps (fst pushed) env) as (_ & _ & E & _).
  fold entered in E. rewrite E.
  destruct (push_presence_keeps_more self person_count) as (P & _).
  fold pushed in P. rewrite P. reflexivity.
Qed.

(** X2: [detection_count] never decreases: a call of [process_frame] adds
    at most one, so a run of [n] calls adds between 0 and [n]. *)
Theorem detection_count_is_monotone (self : System) (envs : list FrameEnv) :
  detection_count self <= detection_count (fst (process_frames self envs))
  /\ detection_count (fst (process_frames self envs))
     <= detection_count self + Z.of_nat (length envs).
Proof.
  revert self. induction envs as [| env rest IH]; intros self.
  - cbn. lia.
  - cbn [process_frames length].
    assert (Hone : detection_count self
                   <= detection_count (fst (process_frame self env))
                   <= detection_count self + 1).
    { destruct (process_frame_shape self env) as [-> | (c & -> & _)];
        [cbn; lia |].
      rewrite occupancy_update_count.
      destruct (snd (push_presence self c)); lia. }
    destruct (process_frame self env) as [s1 calls]. cbn [fst] in Hone.
    specialize (IH s1). destruct (process_frames s1 rest) as [s2 more].
    cbn [fst] in *. lia.
Qed.

(** ** Leaving the room *)

Lemma exit_logic_exits (self : System) (present : bool) (env : FrameEnv) :
  status self = true ->
  status (fst (exit_logic self present env)) = false ->
  exists started,
    initial_time self = Some started
    /\ patience self <= now env - started
    /\ present = false
    /\ gt_frac (window_sum self) (detection_thresh self) 3 = false
    /\ initial_time (fst (exit_logic self present env)) = None.
Proof.
  intros Hst. unfold exit_logic. rewrite Hst. cbn [andb].
  destruct present; cbn [negb].
  - destruct (gt_frac (window_sum self) (detection_thresh self) 3); cbn;
      congruence.
  - destruct (gt_frac (window_sum self) (detection_thresh self) 3) eqn:Hgt.
    + destruct (initial_time self); cbn; congruence.
    + destruct (initial_time self) as [started |] eqn:Hit; [| cbn; congruence].
      destruct (patience self <=? now env - started) eqn:Hp;
        [| cbn; congruence].
      intros _. exists started. apply Z.leb_le in Hp.
      repeat split; try assumption; try reflexivity.
      unfold exit_transition, release_out, send_message. by_cases.
Qed.

(** X3: an update takes the room from occupied to empty only when the exit
    timer was already running, at least [patience] has passed since it was
    started, the smoothed presence of the frame is false and the window sum
    is at most [0.3 * detection_thresh]; the timer is then cleared.  So the
    update that starts the timer never ends the session. *)
Theorem exit_needs_patience
  (self : System) (person_count : Z) (env : FrameEnv) :
  status self = true ->
  status (fst (occupancy_update self person_count env)) = false ->
  exists started,
    initial_time self = Some started
    /\ patience self <= now env - started
    /\ snd (push_presence self person_count) = false
    /\ gt_frac (window_sum (fst (push_presence self person_count)))
               (detection_thresh self) 3 = false
    /\ initial_time (fst (occupancy_update self person_count env)) = None.
Proof.
  intros Hst. rewrite occupancy_update_steps. cbv zeta. cbn [fst].
  pose proof (entry_required_window self person_count) as Hw. cbv zeta in Hw.
  unfold entry_required in Hw. rewrite Hst in Hw. cbn [negb andb] in Hw.
  symmetry in Hw.
  pose proof (push_presence_keeps self person_count) as K. cbv zeta in K.
  destruct (push_presence self person_count) as [s1 present].
  cbn [fst snd] in *.
  destruct K as (Kst & Kit & Kth & Kpat & _).
  rewrite (entry_transition_idle s1 env Hw). cbn [fst].
  destruct (count_detection_keeps present (fst (exit_logic s1 present env)))
    as (-> & _ & _ & -> & _).
  intros Hleft. rewrite Hst in Kst.
  destruct (exit_logic_exits s1 present env Kst Hleft)
    as (started & Hit & Hp & Hpres & Hgt & Hclear).
  exists started. rewrite <- Kit, <- Kpat, <- Kth. tauto.
Qed.

Lemma exit_needs_patience_witness :
  exists started,
    initial_time about_to_exit_state = Some started
    /\ patience about_to_exit_state <= 1013 - started.
Proof.
  destruct (exit_needs_patience about_to_exit_state 0
              (frame_env 0 1013 (Returned "SM2"%string)) eq_refl eq_refl)
    as (started & Hit & Hp & _).
  exists started. split; [exact Hit | exact Hp].
Defined.

(** ** The exit timer and the state of the room *)

Lemma timer_only_when_occupied_exit (self : System) (present : bool)
  (env : FrameEnv) :
  timer_only_when_occupied self ->
  timer_only_when_occupied (fst (exit_logic self present env)).
Proof.
  unfold timer_only_when_occupied, exit_logic, exit_transition, release_out,
    send_message.
  intros H. destruct (status self) eqn:Hst; cbn [andb].
  - destruct present; cbn [negb];
      destruct (gt_frac (window_sum self) (detection_thresh self) 3);
      try (cbn; congruence);
      destruct (initial_time self) eqn:Hit; try (cbn; congruence);
      destruct (patience self <=? now env - z); try (cbn; congruence);
      by_cases.
  - assert (Hnone : initial_time self = None).
    { destruct (initial_time self); [| reflexivity].
      discriminate H. congruence. }
    cbn. rewrite Hst. intros Hset. congruence.
Qed.

Lemma timer_only_when_occupied_process_frame (self : System) (env : FrameEnv) :
  timer_only_when_occupied self ->
  timer_only_when_occupied (fst (process_frame self env)).
Proof.
  intros H. destruct (process_frame_shape self env) as [-> | (c & -> & _)];
    [exact H |].
  rewrite occupancy_update_steps. cbv zeta. cbn [fst].
  set (pushed := push_presence self c).
  set (entered := entry_transition (fst pushed) env).
  assert (Hp : timer_only_when_occupied (fst pushed)).
  { unfold timer_only_when_occupied, pushed.
    destruct (push_presence_keeps self c) as (-> & -> & _). exact H. }
  assert (He : timer_only_when_occupied (fst entered)).
  { unfold timer_only_when_occupied, entered, entry_transition in *.
    destruct (ge_frac _ _ 6 && negb (status (fst pushed))); [| exact Hp].
    destruct (writer_new env); cbn; reflexivity. }
  pose proof (timer_only_when_occupied_exit (fst entered) (snd pushed) env He)
    as Hx.
  unfold timer_only_when_occupied in *.
  destruct (count_detection_keeps (snd pushed)
              (fst (exit_logic (fst entered) (snd pushed) env)))
    as (-> & _ & _ & -> & _).
  exact Hx.
Qed.

(** X4: [process_frame] keeps the exit timer tied to the room: when the
    timer runs only while the room is occupied before a run of calls, the
    same holds after it.  [stop_camera] does not keep this: it empties the
    room and leaves a running timer as it is. *)
Theorem timer_runs_only_while_occupied (self : System) (envs : list FrameEnv) :
  timer_only_when_occupied self ->
  timer_only_when_occupied (fst (process_frames self envs))
  /\ initial_time (fst (stop_camera self)) = initial_time self
  /\ status (fst (stop_camera self)) = false.
Proof.
  intros H. split.
  - revert self H. induction envs as [| env rest IH]; intros self H;
      [exact H |].
    cbn [process_frames].
    pose proof (timer_only_when_occupied_process_frame self env H) as H1.
    destruct (process_frame self env) as [s1 calls]. cbn [fst] in H1.
    specialize (IH s1 H1). destruct (process_frames s1 rest) as [s2 more].
    exact IH.
  - unfold stop_camera, release_out. by_cases.
Qed.

Lemma timer_runs_only_while_occupied_witness :
  timer_only_when_occupied
    (fst (process_frames live_system (two_sessions (Returned "SM2"%string))))
  /\ initial_time (fst (stop_camera pending_exit_state)) = Some 1008
  /\ status (fst (stop_camera pending_exit_state)) = false.
Proof.
  assert (H0 : timer_only_when_occupied live_system).
  { intros H. exfalso. apply H. reflexivity. }
  assert (H1 : timer_only_when_occupied pending_exit_state).
  { intros _. reflexivity. }
  split.
  - exact (proj1 (timer_runs_only_while_occupied live_system
                    (two_sessions (Returned "SM2"%string)) H0)).
  - exact (proj2 (timer_runs_only_while_occupied pending_exit_state [] H1)).
Defined.

(** ** Alerts without Twilio settings *)

Lemma exit_logic_silent (self : System) (present : bool) (env : FrameEnv) :
  twilio_enabled self = false ->
  filter is_create (snd (exit_logic self present env)) = [].
Proof.
  intros H.
  unfold exit_logic, exit_transition, release_out, send_message, send_calls.
  by_cases; rewrite H in *; discriminate.
Qed.

Lemma process_frame_silent (self : System) (env : FrameEnv) :
  twilio_enabled self = false ->
  filter is_create (snd (process_frame self env)) = []
  /\ twilio_enabled (fst (process_frame self env)) = false.
Proof.
  intros H. destruct (process_frame_shape self env) as [-> | (c & -> & _)];
    [split; [reflexivity | exact H] |].
  rewrite occupancy_update_steps. cbv zeta. cbn [fst snd].
  set (pushed := push_presence self c).
  set (entered := entry_transition (fst pushed) env).
  set (left := exit_logic (fst entered) (snd pushed) env).
  assert (Hp : twilio_enabled (fst pushed) = false).
  { unfold pushed. destruct (push_presence_keeps self c)
      as (_ & _ & _ & _ & _ & _ & -> & _). exact H. }
  assert (He : twilio_enabled (fst entered) = false).
  { destruct (entry_transition_keeps (fst pushed) env)
      as (_ & _ & _ & _ & E & _). fold entered in E. rewrite E. exact Hp. }
  split.
  - rewrite !filter_app. unfold left.
    rewrite (exit_logic_silent (fst entered) (snd pushed) env He).
    assert (E1 : filter is_create (snd entered) = []).
    { unfold entered, entry_transition. by_cases. }
    assert (E2 : filter is_create
                   (write_frame
                      (fst (exit_logic (fst entered) (snd pushed) env))) = []).
    { unfold write_frame. by_cases. }
    rewrite E1, E2. reflexivity.
  - destruct (count_detection_keeps_more (snd pushed) (fst left))
      as (_ & _ & -> & _).
    destruct (exit_logic_keeps_more (fst entered) (snd pushed) env)
      as (_ & X & _). fold left in X. rewrite X. exact He.
Qed.

(** X5: while the Twilio settings are incomplete ([twilio_enabled] is
    false), no run of [process_frame] calls reaches the notification
    channel, whatever sessions begin and end in it, and the run leaves the
    settings incomplete. *)
Theorem no_alert_without_twilio (self : System) (envs : list FrameEnv) :
  twilio_enabled self = false ->
  filter is_create (snd (process_frames self envs)) = []
  /\ twilio_enabled (fst (process_frames self envs)) = false.
Proof.
  revert self. induction envs as [| env rest IH]; intros self H.
  - split; [reflexivity | exact H].
  - cbn [process_frames].
    destruct (process_frame_silent self env H) as [Hc Ht].
    destruct (process_frame self env) as [s1 calls]. cbn [fst snd] in *.
    destruct (IH s1 Ht) as [Hc' Ht'].
    destruct (process_frames s1 rest) as [s2 more]. cbn [fst snd] in *.
    rewrite filter_app, Hc, Hc'. split; [reflexivity | exact Ht'].
Qed.

Lemma no_alert_without_twilio_witness :
  filter is_create
    (snd (process_frames unarmed_system
            (two_sessions (Returned "SM2"%string)))) = [].
Proof.
  exact (proj1 (no_alert_without_twilio unarmed_system
                  (two_sessions (Returned "SM2"%string)) eq_refl)).
Defined.

(** ** Entering needs enough frames *)

Lemma sum_bools_firstn (n : nat) (l : list bool) :
  0 <= sum_bools (firstn n l) <= sum_bools l.
Proof.
  revert n. induction l as [| b l IH]; intros n.
  - rewrite firstn_nil. cbn. lia.
  - destruct n as [| n]; cbn [firstn sum_bools].
    + pose proof (sum_bools_bounds l). destruct b; lia.
    + specialize (IH n). destruct b; lia.
Qed.

Lemma window_sum_appendleft (present : bool) (d : Deque.t bool) :
  0 <= sum_bools (Deque.items (Deque.appendleft present d))
    <= sum_bools (Deque.items d) + (if present then 1 else 0).
Proof.
  unfold Deque.appendleft. cbn [Deque.items].
  pose proof (sum_bools_firstn (Deque.maxlen d) (present :: Deque.items d))
    as H.
  cbn [sum_bools] in H. lia.
Qed.

(** An update that finds the room empty and the window sum too low. *)
Lemma occupancy_update_stays_empty (self : System) (person_count : Z)
  (env : FrameEnv) :
  status self = false ->
  10 * (window_sum self + 1) < 6 * detection_thresh self ->
  let after := fst (occupancy_update self person_count env) in
  status after = false
  /\ window_sum after <= window_sum self + 1
  /\ detection_thresh after = detection_thresh self
  /\ existsb is_writer_new (snd (occupancy_update self person_count env))
     = false.
Proof.
  intros Hst Hlow. cbv zeta.
  destruct (occupancy_update_window self person_count env) as [Hde Hth].
  pose proof (window_sum_appendleft (snd (push_presence self person_count))
                (de self)) as Hsum.
  fold (window_sum self) in Hsum.
  destruct (push_presence_keeps self person_count)
    as (Kst & _ & Kth & _ & _ & _ & _ & _ & _ & _ & Kde).
  assert (Hreq : entry_required self person_count = false).
  { unfold entry_required, window_sum. rewrite Hst, Kde. cbn [negb andb].
    unfold ge_frac. apply Z.leb_gt.
    destruct (snd (push_presence self person_count)); lia. }
  destruct (occupancy_update_not_entering self person_count env Hreq)
    as [Hnew _].
  repeat split.
  - rewrite occupancy_update_steps. cbv zeta. cbn [fst].
    pose proof (entry_required_window self person_count) as Hw.
    cbv zeta in Hw. rewrite Hreq in Hw. symmetry in Hw.
    rewrite (entry_transition_idle _ env Hw). cbn [fst].
    rewrite exit_logic_idle by (rewrite Kst; exact Hst). cbn [fst].
    destruct (count_detection_keeps (snd (push_presence self person_count))
                (fst (push_presence self person_count))) as (-> & _).
    rewrite Kst. exact Hst.
  - unfold window_sum at 1. rewrite Hde.
    destruct (snd (push_presence self person_count)); lia.
  - exact Hth.
  - exact Hnew.
Qed.

(** X6: the room does not become occupied before enough frames were
    processed: from an empty room, a run of [n] calls of [process_frame]
    with [window sum + n] below [0.6 * detection_thresh] leaves the room
    empty and builds no video writer (with the settings of [__init__] and a
    fresh window, four frames never suffice). *)
Theorem entry_needs_enough_frames (self : System) (envs : list FrameEnv) :
  status self = false ->
  10 * (window_sum self + Z.of_nat (length envs)) < 6 * detection_thresh self ->
  status (fst (process_frames self envs)) = false
  /\ existsb is_writer_new (snd (process_frames self envs)) = false.
Proof.
  revert self. induction envs as [| env rest IH]; intros self Hst Hlow.
  - split; [exact Hst | reflexivity].
  - cbn [process_frames]. cbn [length] in Hlow.
    assert (Hone : status (fst (process_frame self env)) = false
                   /\ window_sum (fst (process_frame self env))
                      <= window_sum self + 1
                   /\ detection_thresh (fst (process_frame self env))
                      = detection_thresh self
                   /\ existsb is_writer_new (snd (process_frame self env))
                      = false).
    { destruct (process_frame_shape self env) as [-> | (c & -> & _)].
      - cbn. repeat split; [exact Hst | lia].
      - apply occupancy_update_stays_empty; [exact Hst | lia]. }
    destruct (process_frame self env) as [s1 calls]. cbn [fst snd] in *.
    destruct Hone as (Hst1 & Hsum1 & Hth1 & Hnew1).
    destruct (IH s1 Hst1) as [Hst2 Hnew2]; [rewrite Hth1; lia |].
    destruct (process_frames s1 rest) as [s2 more]. cbn [fst snd] in *.
    split; [exact Hst2 |]. rewrite existsb_app, Hnew1, Hnew2. reflexivity.
Qed.

Lemma entry_needs_enough_frames_witness :
  status almost_entered_state = false.
Proof.
  refine (proj1 (entry_needs_enough_frames live_system
                   (map (fun u => frame_env 1 u (Returned "SM1"%string))
                        (Zrange 1001 4)) eq_refl _)).
  vm_compute. reflexivity.
Defined.

(** ** The median as a majority vote *)

Lemma count_ge_positive (m : Z) (l : list Z) :
  0 < m -> (count_ge m l <= count_positive l)%nat.
Proof.
  intros Hm. unfold count_ge, count_positive.
  induction l as [| x l IH]; cbn [filter]; [lia |].
  destruct (m <=? x) eqn:E1, (0 <? x) eqn:E2; cbn [length]; lia.
Qed.

Lemma count_le_not_positive (m : Z) (l : list Z) :
  m <= 0 -> (count_le m l + count_positive l <= length l)%nat.
Proof.
  intros Hm. unfold count_le, count_positive.
  induction l as [| x l IH]; cbn [filter length]; [lia |].
  destruct (x <=? m) eqn:E1, (0 <? x) eqn:E2; cbn [length]; lia.
Qed.

Lemma median_of_five_majority (l : list Z) :
  length l = 5%nat ->
  Qpositive (np_median l) = (3 <=? count_positive l)%nat.
Proof.
  intros Hlen.
  destruct (np_median_of_five l Hlen) as (m & -> & _ & Hle & Hge).
  rewrite Hlen in Hle, Hge.
  unfold Qpositive, inject_Z. cbn [Qnum].
  destruct (Z.ltb_spec 0 m) as [Hpos | Hneg]; symmetry.
  - apply Nat.leb_le. pose proof (count_ge_positive m l Hpos). lia.
  - apply Nat.leb_gt. pose proof (count_le_not_positive m l Hneg). lia.
Qed.

(** X7: once five samples are collected, [apply_smart_filtering] is a
    majority vote: it returns true exactly when at least three of the five
    most recent counts are positive, so one or two frames without (or with)
    a detection among five do not change the answer. *)
Theorem smoothing_is_majority_of_five (self : System) (person_count : Z) :
  (5 <= Deque.len (Deque.append person_count (person_count_history self)))%nat ->
  snd (apply_smart_filtering self person_count)
  = (3 <=? count_positive
             (lastn 5 (Deque.items
                         (Deque.append person_count
                            (person_count_history self)))))%nat.
Proof.
  intros Hlen. unfold apply_smart_filtering.
  assert (E : (Deque.len (Deque.append person_count
                            (person_count_history self)) <? 5)%nat = false)
    by (apply Nat.ltb_ge; exact Hlen).
  rewrite E. cbn [snd].
  apply median_of_five_majority. rewrite lastn_length.
  unfold Deque.len in Hlen. lia.
Qed.

Lemma smoothing_is_majority_of_five_witness :
  snd (apply_smart_filtering occupied_state 0) = true.
Proof.
  refine (eq_trans (smoothing_is_majority_of_five occupied_state 0 _) _).
  - apply Nat.leb_le. reflexivity.
  - reflexivity.
Defined.

(** ** A system without tracker *)

Lemma Forall_lastn (A : Type) (P : A -> Prop) (n : nat) (l : list A) :
  Forall P l -> Forall P (lastn n l).
Proof.
  intros H. unfold lastn. rewrite <- (firstn_skipn (length l - n) l) in H.
  apply Forall_app in H. tauto.
Qed.

Lemma smoothing_sees_nobody (self : System) :
  Forall (fun c => c <= 0) (Deque.items (person_count_history self)) ->
  snd (apply_smart_filtering self 0) = false
  /\ Forall (fun c => c <= 0)
       (Deque.items (person_count_history (fst (apply_smart_filtering self 0)))).
Proof.
  intros Hall.
  assert (Hnew : Forall (fun c => c <= 0)
                   (Deque.items (Deque.append 0 (person_count_history self)))).
  { unfold Deque.append. cbn [Deque.items]. apply Forall_lastn.
    apply Forall_app. split; [exact Hall | repeat constructor; lia]. }
  unfold apply_smart_filtering.
  destruct (Deque.len (Deque.append 0%Z (person_count_history self)) <? 5)%nat
    eqn:E; cbn [fst snd]; (split; [| exact Hnew]).
  - reflexivity.
  - apply Nat.ltb_ge in E. unfold Deque.len in E.
    set (recent := lastn 5 (Deque.items
                              (Deque.append 0 (person_count_history self)))).
    assert (Hlen : length recent = 5%nat)
      by (unfold recent; rewrite lastn_length; lia).
    destruct (np_median_of_five recent Hlen) as (m & -> & Hin & _).
    assert (Hm : m <= 0).
    { assert (Hr : Forall (fun c => c <= 0) recent)
        by (apply Forall_lastn; exact Hnew).
      rewrite Forall_forall in Hr. exact (Hr m Hin). }
    unfold Qpositive, inject_Z. cbn [Qnum]. apply Z.ltb_ge. exact Hm.
Qed.

Lemma process_frame_blind (self : System) (env : FrameEnv) :
  blind self ->
  blind (fst (process_frame self env)) /\ snd (process_frame self env) = [].
Proof.
  intros Hb.
  destruct (process_frame_shape self env) as [-> | (c & -> & Htr)];
    [split; [exact Hb | reflexivity] |].
  destruct Hb as (Htk & Hst & Hsum & Hall & Hpos).
  assert (Hc : c = 0).
  { unfold track_persons in Htr. rewrite Htk in Htr. cbn in Htr. congruence. }
  subst c.
  destruct (smoothing_sees_nobody self Hall) as [Hpd Hall'].
  rewrite occupancy_update_steps. cbv zeta. cbn [fst snd].
  destruct (push_presence_keeps self 0)
    as (Kst & _ & Kth & _ & _ & _ & _ & _ & _ & _ & Kde).
  destruct (push_presence_keeps_more self 0) as (_ & Ktk & Khist).
  assert (Epd : snd (push_presence self 0) = false).
  { unfold push_presence.
    destruct (apply_smart_filtering self 0) as [s1 pd]. exact Hpd. }
  assert (Esum : window_sum (fst (push_presence self 0)) = 0).
  { unfold window_sum. rewrite Kde, Epd.
    pose proof (window_sum_appendleft false (de self)) as H.
    fold (window_sum self) in H. lia. }
  assert (Hidle : negb (status (fst (push_presence self 0)))
                  && ge_frac (window_sum (fst (push_presence self 0)))
                             (detection_thresh (fst (push_presence self 0))) 6
                  = false).
  { rewrite Kst, Hst, Esum, Kth. cbn [negb andb]. unfold ge_frac.
    apply Z.leb_gt. lia. }
  rewrite (entry_transition_idle _ env Hidle). cbn [fst snd].
  rewrite exit_logic_idle by (rewrite Kst; exact Hst). cbn [fst snd app].
  rewrite Epd. unfold count_detection.
  split.
  - unfold blind. rewrite Ktk, Kst, Esum, Kth, Khist.
    repeat split; try assumption.
    unfold apply_smart_filtering in Hall'.
    destruct (Deque.len (Deque.append 0%Z (person_count_history self)) <? 5)%nat;
      exact Hall'.
  - unfold write_frame. rewrite Kst, Hst.
    destruct (out (fst (push_presence self 0))); reflexivity.
Qed.

(** X8: a system whose tracker is not initialized, in an empty room with
    an empty history, never reports the room occupied: whatever the
    detector returns, every call of [process_frame] counts nobody, the room
    stays empty, and no video writer, frame write or alert is ever
    requested. *)
Theorem no_tracker_never_occupied (self : System) (envs : list FrameEnv) :
  blind self ->
  status (fst (process_frames self envs)) = false
  /\ snd (process_frames self envs) = []
  /\ window_sum (fst (process_frames self envs)) = 0.
Proof.
  revert self. induction envs as [| env rest IH]; intros self Hb.
  - destruct Hb as (_ & Hst & Hsum & _). repeat split; assumption.
  - cbn [process_frames].
    destruct (process_frame_blind self env Hb) as [Hb1 Hc1].
    destruct (process_frame self env) as [s1 calls]. cbn [fst snd] in *.
    destruct (IH s1 Hb1) as (Hst & Hc & Hsum).
    destruct (process_frames s1 rest) as [s2 more]. cbn [fst snd] in *.
    subst. repeat split; assumption.
Qed.

Lemma no_tracker_never_occupied_witness :
  status (fst (process_frames blind_system
                 (two_sessions (Returned "SM2"%string)))) = false
  /\ snd (process_frames blind_system
            (two_sessions (Returned "SM2"%string))) = [].
Proof.
  assert (Hb : blind blind_system).
  { unfold blind. repeat split; try reflexivity. constructor. }
  destruct (no_tracker_never_occupied blind_system
              (two_sessions (Returned "SM2"%string)) Hb) as (Hst & Hc & _).
  split; assumption.
Defined.

(** ** After [stop_camera] *)

Lemma pipeline_step_closed (self : System) (step : PipelineStep) :
  cap_opened self = false ->
  observe self step = []
  /\ (pipeline_step self step = self
      \/ pipeline_step self step = set_frame_thread false self).
Proof.
  intros Hc. destruct step as [[frame |] | env];
    cbn [observe pipeline_step]; unfold grabber_live, grabber_iteration,
      process_frame; rewrite Hc, ?andb_false_r; cbn; auto.
Qed.

Lemma run_pipeline_closed (steps : list PipelineStep) :
  forall self,
    cap_opened self = false ->
    snd (run_pipeline self steps) = []
    /\ (fst (run_pipeline self steps) = self
        \/ fst (run_pipeline self steps) = set_frame_thread false self).
Proof.
  induction steps as [| step rest IH]; intros self Hc; cbn [run_pipeline].
  - split; [reflexivity | left; reflexivity].
  - destruct (pipeline_step_closed self step Hc) as [-> [Hs | Hs]];
      rewrite Hs.
    + specialize (IH self Hc). destruct (run_pipeline self rest) as [s1 more].
      exact IH.
    + specialize (IH (set_frame_thread false self) Hc).
      destruct (run_pipeline (set_frame_thread false self) rest)
        as [s1 more]. cbn [fst snd] in *.
      destruct IH as [-> [-> | ->]]; split; auto.
Qed.

(** X9: after [stop_camera] the system is inert until the camera is started
    again: in every interleaving of grabber turns and [process_frame]
    calls nothing is captured and nothing is fetched, the state changes at
    most by the grabber thread leaving its loop, and [get_frame] returns
    without processing. *)
Theorem stopped_system_is_inert (self : System) (steps : list PipelineStep) :
  snd (run_pipeline (fst (stop_camera self)) steps) = []
  /\ (fst (run_pipeline (fst (stop_camera self)) steps) = fst (stop_camera self)
      \/ fst (run_pipeline (fst (stop_camera self)) steps)
         = set_frame_thread false (fst (stop_camera self)))
  /\ status (fst (run_pipeline (fst (stop_camera self)) steps)) = false
  /\ (forall env,
        get_frame (fst (stop_camera self)) env = (fst (stop_camera self), [])).
Proof.
  assert (Hc : cap_opened (fst (stop_camera self)) = false).
  { unfold stop_camera, release_out. by_cases. }
  assert (Hst : status (fst (stop_camera self)) = false).
  { unfold stop_camera, release_out. by_cases. }
  destruct (run_pipeline_closed steps (fst (stop_camera self)) Hc)
    as [Hobs Hstate].
  split; [exact Hobs | split; [exact Hstate | split]].
  - destruct Hstate as [-> | ->]; [exact Hst | cbn; exact Hst].
  - intros env. unfold get_frame. rewrite Hc, andb_false_r. reflexivity.
Qed.

(** ** The detections kept from the model *)

Lemma Qltb_lt (a b : Q) : Qltb a b = true <-> (a < b)%Q.
Proof.
  unfold Qltb. rewrite negb_true_iff. split.
  - intros H. apply Qnot_le_lt. intros Hle.
    apply Qle_bool_iff in Hle. congruence.
  - intros H. destruct (Qle_bool b a) eqn:E; [| reflexivity].
    apply Qle_bool_iff in E. exfalso. exact (Qlt_not_le _ _ H E).
Qed.

Lemma box_detection_sound (self : System) (box : YoloBox) (d : Detection) :
  box_detection self box = Returned (Some d) ->
  passes_thresholds self d = true
  /\ consistent_detection d
  /\ confidence d = conf box
  /\ py_int_of (cls box) = Returned person_class_id.
Proof.
  unfold box_detection, passes_thresholds, consistent_detection.
  destruct (py_int_of (cls box)) as [class_id | e]; [| discriminate].
  destruct (class_id =? person_class_id) eqn:Hcls; cbn [andb];
    [| discriminate].
  destruct (Qltb (confidence_threshold self) (conf box)) eqn:Hconf;
    [| discriminate].
  destruct (int_corners (xyxy box)) as [[[[x1 y1] x2] y2] | e];
    [| discriminate].
  cbv zeta.
  destruct (area_threshold self <? _) eqn:Harea; [| discriminate].
  destruct (drawn box); [| discriminate].
  intros H. injection H as <-. cbn. rewrite Hconf, Harea.
  apply Z.eqb_eq in Hcls. subst class_id. repeat split; reflexivity.
Qed.

Lemma collect_detections_sound (self : System) (boxes : list YoloBox) :
  forall detections,
    collect_detections self boxes = Returned detections ->
    Forall (fun d => passes_thresholds self d = true /\ consistent_detection d)
           detections
    /\ (length detections <= length boxes)%nat.
Proof.
  induction boxes as [| box rest IH]; cbn [collect_detections length];
    intros detections H.
  - injection H as <-. split; [constructor | cbn; lia].
  - destruct (box_detection self box) as [kept | e] eqn:E; [| discriminate].
    destruct (collect_detections self rest) as [more | e]; [| discriminate].
    destruct (IH more eq_refl) as [IHf IHl].
    injection H as <-. destruct kept as [d |].
    + destruct (box_detection_sound self box d E) as (Hp & Hc & _).
      split; [constructor; [split |]; assumption | cbn [length]; lia].
    + split; [exact IHf | lia].
Qed.

(** X10: every detection [detect_persons_yolo] returns has a confidence
    above [confidence_threshold] and an area above [area_threshold], its
    area and center are those of its box, and there are never more
    detections than boxes; without a model, and when the model raises, the
    list is empty. *)
Theorem detections_pass_both_thresholds
  (self : System) (yolo : option (PyResult (list (option (list YoloBox))))) :
  Forall (fun d => (confidence_threshold self < confidence d)%Q
                   /\ area_threshold self < area d
                   /\ consistent_detection d)
         (detect_persons_yolo self yolo)
  /\ (forall results,
        yolo = Some (Returned results) ->
        (length (detect_persons_yolo self yolo)
         <= match results with
            | Some boxes :: _ => length boxes
            | _ => 0
            end)%nat)
  /\ ((yolo = None \/ exists e, yolo = Some (Raised e)) ->
      detect_persons_yolo self yolo = []).
Proof.
  split; [| split].
  - unfold detect_persons_yolo.
    destruct yolo as [[results | e] |]; try constructor.
    destruct results as [| [boxes |] rest]; try constructor.
    destruct (collect_detections self boxes) as [detections | e] eqn:E;
      [| constructor].
    destruct (collect_detections_sound self boxes detections E) as [Hf _].
    eapply Forall_impl; [| exact Hf]. cbn beta.
    intros d [Hp Hc]. unfold passes_thresholds in Hp.
    apply andb_true_iff in Hp. destruct Hp as [Hconf Harea].
    apply Qltb_lt in Hconf. apply Z.ltb_lt in Harea. tauto.
  - intros results ->. cbn [detect_persons_yolo].
    destruct results as [| [boxes |] rest]; cbn [length]; try lia.
    destruct (collect_detections self boxes) as [detections | e] eqn:E;
      [| cbn [length]; lia].
    apply (collect_detections_sound self boxes detections E).
  - intros [-> | [e ->]]; reflexivity.
Qed.

Lemma detections_pass_both_thresholds_witness :
  (length (detect_persons_yolo (init_system true)
             (Some (Returned [Some sample_boxes]))) <= 2)%nat
  /\ detect_persons_yolo (init_system true) (Some (Raised "CUDA"%string)) = [].
Proof.
  destruct (detections_pass_both_thresholds (init_system true)
              (Some (Returned [Some sample_boxes]))) as (_ & Hlen & _).
  destruct (detections_pass_both_thresholds (init_system true)
              (Some (Raised "CUDA"%string))) as (_ & _ & Hnone).
  split.
  - exact (Hlen [Some sample_boxes] eq_refl).
  - apply Hnone. right. exists "CUDA"%string. reflexivity.
Defined.

Lemma box_detection_stricter (loose strict : System) (box : YoloBox) :
  (confidence_threshold loose <= confidence_threshold strict)%Q ->
  area_threshold loose <= area_threshold strict ->
  forall kept,
    box_detection loose box = Returned kept ->
    box_detection strict box
    = Returned match kept with
               | Some d => if passes_thresholds strict d then Some d else None
               | None => None
               end.
Proof.
  intros Hc Ha kept. unfold box_detection, passes_thresholds.
  destruct (py_int_of (cls box)) as [class_id | e]; [| discriminate].
  destruct (class_id =? person_class_id); cbn [andb];
    [| intros H; injection H as <-; reflexivity].
  destruct (Qltb (confidence_threshold strict) (conf box)) eqn:Hs.
  - assert (Hl : Qltb (confidence_threshold loose) (conf box) = true).
    { apply Qltb_lt. apply Qltb_lt in Hs.
      exact (Qle_lt_trans _ _ _ Hc Hs). }
    rewrite Hl.
    destruct (int_corners (xyxy box)) as [[[[x1 y1] x2] y2] | e];
      [| discriminate].
    cbv zeta. set (box_area := (x2 - x1) * (y2 - y1)).
    destruct (area_threshold strict <? box_area) eqn:Has.
    + assert (Hal : (area_threshold loose <? box_area) = true)
        by (apply Z.ltb_lt; apply Z.ltb_lt in Has; lia).
      rewrite Hal. destruct (drawn box); [| discriminate].
      intros H. injection H as <-. cbn. rewrite Hs, Has. reflexivity.
    + destruct (area_threshold loose <? box_area);
        [| intros H; injection H as <-; reflexivity].
      destruct (drawn box); [| discriminate].
      intros H. injection H as <-. cbn. rewrite Hs, Has. reflexivity.
  - destruct (Qltb (confidence_threshold loose) (conf box));
      [| intros H; injection H as <-; reflexivity].
    destruct (int_corners (xyxy box)) as [[[[x1 y1] x2] y2] | e];
      [| discriminate].
    cbv zeta.
    destruct (area_threshold loose <? _);
      [| intros H; injection H as <-; reflexivity].
    destruct (drawn box); [| discriminate].
    intros H. injection H as <-. cbn. rewrite Hs. reflexivity.
Qed.

Lemma collect_detections_stricter (loose strict : System)
  (boxes : list YoloBox) :
  (confidence_threshold loose <= confidence_threshold strict)%Q ->
  area_threshold loose <= area_threshold strict ->
  forall detections,
    collect_detections loose boxes = Returned detections ->
    collect_detections strict boxes
    = Returned (filter (passes_thresholds strict) detections).
Proof.
  intros Hc Ha.
  induction boxes as [| box rest IH]; cbn [collect_detections];
    intros detections H.
  - injection H as <-. reflexivity.
  - destruct (box_detection loose box) as [kept | e] eqn:E; [| discriminate].
    destruct (collect_detections loose rest) as [more | e]; [| discriminate].
    rewrite (box_detection_stricter loose strict box Hc Ha kept E).
    rewrite (IH more eq_refl). injection H as <-.
    destruct kept as [d |]; [| reflexivity].
    cbn [filter]. destruct (passes_thresholds strict d); reflexivity.
Qed.

Lemma filter_subsequence {A : Type} (keep : A -> bool) (l : list A) :
  subsequence (filter keep l) l.
Proof.
  induction l as [| x l IH]; cbn [filter]; [constructor |].
  destruct (keep x); constructor; exact IH.
Qed.

(** X11: raising the thresholds only removes detections, as long as the
    run with the lower thresholds raises nothing: then the run with a
    confidence threshold and an area threshold at least as high raises
    nothing either, and the list it returns is the list for the lower
    thresholds with some detections removed, in the same order, so the
    number of detections does not grow.  The condition is needed: the
    conversion of the corners and the drawing are done for the boxes that
    pass the tests only, so a box that passes only the lower thresholds and
    cannot be drawn empties the list for the lower thresholds and leaves
    the list for the higher ones. *)
Theorem stricter_thresholds_remove_detections
  (loose strict : System)
  (yolo : option (PyResult (list (option (list YoloBox))))) :
  (confidence_threshold loose <= confidence_threshold strict)%Q ->
  area_threshold loose <= area_threshold strict ->
  detection_raises loose yolo = false ->
  detection_raises strict yolo = false
  /\ subsequence (detect_persons_yolo strict yolo)
                 (detect_persons_yolo loose yolo)
  /\ (length (detect_persons_yolo strict yolo)
      <= length (detect_persons_yolo loose yolo))%nat.
Proof.
  intros Hc Ha Hquiet.
  assert (E : detection_raises strict yolo = false
              /\ detect_persons_yolo strict yolo
                 = filter (passes_thresholds strict)
                          (detect_persons_yolo loose yolo)).
  { unfold detect_persons_yolo, detection_raises in *.
    destruct yolo as [[results | e] |]; try (split; reflexivity);
      [| discriminate].
    destruct results as [| [boxes |] rest]; try (split; reflexivity).
    destruct (collect_detections loose boxes) as [detections | e] eqn:El;
      [| discriminate].
    rewrite (collect_detections_stricter loose strict boxes Hc Ha
               detections El).
    split; reflexivity. }
  destruct E as [E1 E2].
  split; [exact E1 | rewrite E2; split].
  - apply filter_subsequence.
  - apply filter_length_le.
Qed.

(** The witness; its last two parts show the run the condition excludes:
    the second box passes the default thresholds and cannot be drawn, so
    the default thresholds give no detection and the higher ones give
    one. *)
Lemma stricter_thresholds_remove_detections_witness :
  (length (detect_persons_yolo
             (fst (update_settings (init_system true)
                     (7 # 10) (Finite (2000 # 1)) 5 (Finite (8 # 1)) true))
             (Some (Returned [Some sample_boxes])))
   <= length (detect_persons_yolo (init_system true)
                (Some (Returned [Some sample_boxes]))))%nat
  /\ length (detect_persons_yolo (init_system true)
               (Some (Returned [Some boxes_one_undrawn]))) = 0%nat
  /\ length (detect_persons_yolo
               (fst (update_settings (init_system true)
                       (7 # 10) (Finite (2000 # 1)) 5 (Finite (8 # 1)) true))
               (Some (Returned [Some boxes_one_undrawn]))) = 1%nat.
Proof.
  split; [| split; reflexivity].
  refine (proj2 (proj2 (stricter_thresholds_remove_detections
                   (init_system true)
                   (fst (update_settings (init_system true)
                           (7 # 10) (Finite (2000 # 1)) 5 (Finite (8 # 1))
                           true))
                   (Some (Returned [Some sample_boxes])) _ _ _))).
  - vm_compute. discriminate.
  - vm_compute. discriminate.
  - reflexivity.
Defined.

(** ** Paths *)

Lemma str_take_drop (n : nat) (p : string) :
  (str_take n p ++ str_drop n p)%string = p.
Proof.
  revert p. induction n as [| n IH]; intros p; [reflexivity |].
  destruct p as [| c r]; [reflexivity |].
  cbn [str_take str_drop String.append]. rewrite IH. reflexivity.
Qed.

Lemma str_append_nil (p : string) : (p ++ "")%string = p.
Proof. induction p as [| c r IH]; cbn; [| rewrite IH]; reflexivity. Qed.

Lemma str_length_append (p q : string) :
  String.length (p ++ q) = (String.length p + String.length q)%nat.
Proof. induction p as [| c r IH]; cbn; [| rewrite IH]; reflexivity. Qed.

Lemma splitext_joins (p : string) :
  (fst (splitext p) ++ snd (splitext p))%string = p.
Proof.
  unfold splitext.
  destruct (rfind "/" p <? rfind "." p); cbn [fst snd];
    [| apply str_append_nil].
  destruct (has_non_dot p _ _); cbn [fst snd];
    [apply str_take_drop | apply str_append_nil].
Qed.

(** X12: [os.path.splitext] loses nothing (name and extension put together
    give the path back), so the default output path of
    [smart_compress_video], [name + "_compressed" + ext], is eleven
    characters longer than the input path and never the input path itself:
    the default never makes [ffmpeg] overwrite its input. *)
Theorem default_output_is_not_the_input (input_path : string) :
  (fst (splitext input_path) ++ snd (splitext input_path))%string = input_path
  /\ String.length (default_output_path input_path)
     = (String.length input_path + 11)%nat
  /\ default_output_path input_path <> input_path
  /\ resolve_output input_path None <> input_path.
Proof.
  pose proof (splitext_joins input_path) as Hj.
  assert (Hlen : String.length (default_output_path input_path)
                 = (String.length input_path + 11)%nat).
  { unfold default_output_path.
    destruct (splitext input_path) as [name ext]. cbn [fst snd] in Hj.
    rewrite <- Hj, !str_length_append. cbn [String.length]. lia. }
  assert (Hne : default_output_path input_path <> input_path).
  { intros E. rewrite E in Hlen. lia. }
  repeat split; assumption.
Qed.

Lemma default_output_is_not_the_input_witness :
  default_output_path "surveillance_outputs/a.mp4"
  <> "surveillance_outputs/a.mp4"%string.
Proof.
  exact (proj1 (proj2 (proj2
           (default_output_is_not_the_input "surveillance_outputs/a.mp4")))).
Defined.

(** ** The compression and its second attempt *)

Lemma fs_write_same (fs : FS) (path : string) (content : option Z) :
  fs_write fs path content path = content.
Proof. unfold fs_write. rewrite String.eqb_refl. reflexivity. Qed.

Lemma fs_write_other (fs : FS) (path other : string) (content : option Z) :
  other <> path -> fs_write fs path content other = fs other.
Proof.
  intros H. unfold fs_write. apply String.eqb_neq in H. rewrite H.
  reflexivity.
Qed.

Lemma backup_of_differs (path : string) : backup_of path <> path.
Proof.
  intros E. assert (H : String.length (backup_of path) = String.length path)
    by (rewrite E; reflexivity).
  unfold backup_of in H. rewrite str_length_append in H. cbn in H. lia.
Qed.

Lemma fs_move_result (fs : FS) (src dst : string) :
  src <> dst ->
  fs_move fs src dst dst = fs src /\ fs_move fs src dst src = None.
Proof.
  intros H. unfold fs_move. apply String.eqb_neq in H. rewrite H.
  apply String.eqb_neq in H. split.
  - rewrite fs_write_other by congruence. apply fs_write_same.
  - apply fs_write_same.
Qed.

Ltac compress_cases :=
  unfold smart_compress_video, result_of, files_of, calls_of, resolve_output;
  cbv zeta;
  repeat match goal with
         | |- context [match ?x with _ => _ end] => destruct x eqn:?
         end;
  cbn [fst snd length map firstn].

(** X13: [smart_compress_video] runs the compression at most twice, both
    times on the same input, output and codec: the codec of every run is
    the one asked for, or for ['auto'] the one chosen from the size of the
    input; it is one of the four of [compression_functions], and ['auto']
    never selects AV1; the first run has the quality asked for, the second
    the next slower one; with quality ['veryslow'] there is one run at
    most. *)
Theorem compression_runs_at_most_twice
  (fs : FS) (input_path : string) (output_path : option string)
  (codec quality : string) (target_reduction : Z)
  (first second : CompressRun) :
  let calls :=
    calls_of (smart_compress_video fs input_path output_path codec quality
                target_reduction first second) in
  (length calls <= 2)%nat
  /\ map cc_quality calls
     = firstn (length calls) [quality; next_quality quality]
  /\ Forall (fun c => cc_input c = input_path
                      /\ cc_output c = resolve_output input_path output_path
                      /\ supported_codec (cc_codec c) = true
                      /\ (codec = "auto"%string -> cc_codec c <> "av1"%string)
                      /\ (codec <> "auto"%string -> cc_codec c = codec))
            calls
  /\ (quality = "veryslow"%string -> (length calls <= 1)%nat)
  /\ (forall original_size,
        fs input_path = Some original_size ->
        map cc_codec calls
        = repeat (resolve_codec codec original_size) (length calls))
  /\ (forall c1 c2, In c1 calls -> In c2 calls -> cc_codec c1 = cc_codec c2).
Proof.
  cbv zeta.
  assert (Hauto : forall size, auto_codec size <> "av1"%string).
  { intros size. unfold auto_codec.
    destruct (500 * MiB <? size); [discriminate |].
    destruct (100 * MiB <? size); discriminate. }
  assert (Hsame : forall original_size,
            fs input_path = Some original_size ->
            map cc_codec
              (calls_of (smart_compress_video fs input_path output_path codec
                           quality target_reduction first second))
            = repeat (resolve_codec codec original_size)
                (length
                   (calls_of (smart_compress_video fs input_path output_path
                                codec quality target_reduction first
                                second)))).
  { intros original_size Hsize.
    unfold smart_compress_video, calls_of, resolve_codec. rewrite Hsize.
    repeat match goal with
           | |- context [match ?x with _ => _ end] => destruct x
           end; reflexivity. }
  assert (Hequal : forall c1 c2,
            In c1 (calls_of (smart_compress_video fs input_path output_path
                               codec quality target_reduction first second)) ->
            In c2 (calls_of (smart_compress_video fs input_path output_path
                               codec quality target_reduction first second)) ->
            cc_codec c1 = cc_codec c2).
  { destruct (fs input_path) as [original_size |] eqn:Hsize.
    - intros c1 c2 H1 H2.
      apply (in_map cc_codec) in H1. apply (in_map cc_codec) in H2.
      rewrite (Hsame original_size eq_refl) in H1, H2.
      apply repeat_spec in H1. apply repeat_spec in H2. congruence.
    - unfold smart_compress_video, calls_of. rewrite Hsize.
      intros c1 c2 []. }
  revert Hsame Hequal.
  compress_cases; intros Hsame Hequal;
    repeat match goal with
           | H : negb _ = false |- _ => apply negb_false_iff in H
           | H : (_ && _)%bool = true |- _ =>
               apply andb_true_iff in H; destruct H
           | H : negb _ = true |- _ => apply negb_true_iff in H
           end;
    (split; [lia | split; [reflexivity | split;
       [ repeat constructor; cbn; try assumption; try reflexivity;
         intros Hc; first
           [ apply Hauto
           | reflexivity
           | match goal with
             | H : (_ =? "auto")%string = false |- _ =>
                 apply String.eqb_neq in H; contradiction
             | H : (_ =? "auto")%string = true |- _ =>
                 apply String.eqb_eq in H; contradiction
             end ]
       | split;
         [ intros Hq; first [lia | subst quality; cbn in *; discriminate]
         | split; [exact Hsame | exact Hequal] ] ]]]).
Qed.

(** The witness: with quality ['veryslow'] one run; with the defaults and a
    first run that misses the target, two runs, both with the codec chosen
    for a file of 10 MiB. *)
Lemma compression_runs_at_most_twice_witness :
  (length (calls_of (smart_compress_video one_recording
                       "surveillance_outputs/a.mp4" None "auto" "veryslow" 50
                       (run_writing "surveillance_outputs/a_compressed.mp4"
                          (8 * MiB))
                       run_failing)) <= 1)%nat
  /\ map cc_codec
       (calls_of (smart_compress_video one_recording
                    "surveillance_outputs/a.mp4" None "auto" "medium" 50
                    (run_writing "surveillance_outputs/a_compressed.mp4"
                       (8 * MiB))
                    run_failing))
     = ["x264"%string; "x264"%string].
Proof.
  split.
  - exact (proj1 (proj2 (proj2 (proj2
             (compression_runs_at_most_twice one_recording
                "surveillance_outputs/a.mp4" None "auto" "veryslow" 50
                (run_writing "surveillance_outputs/a_compressed.mp4"
                   (8 * MiB))
                run_failing)))) eq_refl).
  - exact (proj1 (proj2 (proj2 (proj2 (proj2
             (compression_runs_at_most_twice one_recording
                "surveillance_outputs/a.mp4" None "auto" "medium" 50
                (run_writing "surveillance_outputs/a_compressed.mp4"
                   (8 * MiB))
                run_failing))))) (10 * MiB) eq_refl).
Defined.

(** X14: when [smart_compress_video] makes its second attempt and that run
    leaves the backup file alone, the call ends with one output and no
    backup: after a failed second run the output file is the result of the
    first run again, after a successful one it is the new result, and in
    both cases the backup is gone and [True] is returned.  When the second
    run reports success without an output file, the call raises and the
    first result stays at the backup path. *)
Theorem second_attempt_leaves_one_output
  (fs : FS) (input_path : string) (output_path : option string)
  (codec quality : string) (target_reduction : Z)
  (first second : CompressRun) :
  let out := resolve_output input_path output_path in
  let r := smart_compress_video fs input_path output_path codec quality
             target_reduction first second in
  let retried := run_effect second
                   (fs_move (run_effect first fs) out (backup_of out)) in
  length (calls_of r) = 2%nat ->
  (forall files, run_effect second files (backup_of out)
                 = files (backup_of out)) ->
  exists first_size,
    run_effect first fs out = Some first_size
    /\ (run_ok second = false ->
        result_of r = Returned true
        /\ files_of r out = Some first_size
        /\ files_of r (backup_of out) = None)
    /\ (forall new_size,
          run_ok second = true ->
          retried out = Some new_size ->
          result_of r = Returned true
          /\ files_of r out = Some new_size
          /\ files_of r (backup_of out) = None)
    /\ (run_ok second = true ->
        retried out = None ->
        result_of r = Raised "FileNotFoundError"%string
        /\ files_of r (backup_of out) = Some first_size).
Proof.
  cbv zeta. intros Htwo Hkeep.
  unfold smart_compress_video, calls_of, result_of, files_of in *.
  fold (resolve_output input_path output_path) in *.
  set (out := resolve_output input_path output_path) in *.
  pose proof (backup_of_differs out) as Hdiff.
  destruct (fs input_path) as [size |]; [| discriminate Htwo].
  destruct (negb (supported_codec _)); [discriminate Htwo |].
  destruct (run_ok first); [| discriminate Htwo].
  destruct (run_effect first fs out) as [first_size |] eqn:Hfirst;
    [| discriminate Htwo].
  destruct (size =? 0); [discriminate Htwo |].
  destruct (reduction_below size first_size target_reduction
            && negb (String.eqb quality "veryslow")); [| discriminate Htwo].
  assert (Hback : run_effect second
                    (fs_move (run_effect first fs) out (backup_of out))
                    (backup_of out) = Some first_size).
  { rewrite Hkeep.
    destruct (fs_move_result (run_effect first fs) out (backup_of out))
      as [-> _]; [congruence | exact Hfirst]. }
  exists first_size. split; [reflexivity |].
  rewrite Hback.
  destruct (run_ok second); (split; [| split]); try (intros; discriminate).
  - intros new_size _ Hnew. rewrite Hnew. cbn [fst snd].
    unfold fs_remove. rewrite fs_write_same, fs_write_other by congruence.
    repeat split; [exact Hnew].
  - intros _ Hnone. rewrite Hnone. cbn [fst snd].
    split; [reflexivity | exact Hback].
  - intros _. cbn [fst snd].
    destruct (fs_move_result
                (run_effect second
                   (fs_move (run_effect first fs) out (backup_of out)))
                (backup_of out) out Hdiff) as [-> ->].
    repeat split; [exact Hback].
Qed.

Lemma second_attempt_leaves_one_output_witness :
  exists first_size,
    files_of (smart_compress_video one_recording "surveillance_outputs/a.mp4"
                None "auto" "medium" 50
                (run_writing "surveillance_outputs/a_compressed.mp4" (8 * MiB))
                run_failing)
             "surveillance_outputs/a_compressed.mp4"%string
    = Some first_size.
Proof.
  destruct (second_attempt_leaves_one_output one_recording
              "surveillance_outputs/a.mp4" None "auto" "medium" 50
              (run_writing "surveillance_outputs/a_compressed.mp4" (8 * MiB))
              run_failing eq_refl (fun files => eq_refl))
    as (first_size & _ & Hfail & _).
  exists first_size. exact (proj1 (proj2 (Hfail eq_refl))).
Defined.

(** X15: [smart_compress_video] returns [True] only when the first run
    succeeded and left a file at the output path.  For a codec it does not
    know it returns [False] without running anything and leaves the files;
    for a codec it knows (['auto'] always resolves to one) it returns
    [False] after one run that failed or left no output.  A missing input
    file makes it raise before any run.  An empty input file makes it raise
    [ZeroDivisionError] after a successful first run, for every codec it
    knows and so for the default ['auto']. *)
Theorem compression_result_meaning
  (fs : FS) (input_path : string) (output_path : option string)
  (codec quality : string) (target_reduction : Z)
  (first second : CompressRun) :
  let out := resolve_output input_path output_path in
  let r := smart_compress_video fs input_path output_path codec quality
             target_reduction first second in
  (result_of r = Returned true ->
   run_ok first = true /\ run_effect first fs out <> None)
  /\ (result_of r = Returned false ->
      (calls_of r = [] /\ files_of r = fs)
      \/ (length (calls_of r) = 1%nat
          /\ files_of r = run_effect first fs
          /\ (run_ok first = false \/ run_effect first fs out = None)))
  /\ (fs input_path = None ->
      result_of r = Raised "FileNotFoundError"%string
      /\ calls_of r = [] /\ files_of r = fs)
  /\ (forall original_size,
        fs input_path = Some original_size ->
        supported_codec (resolve_codec codec original_size) = false ->
        result_of r = Returned false /\ calls_of r = [] /\ files_of r = fs)
  /\ (forall original_size,
        fs input_path = Some original_size ->
        supported_codec (resolve_codec codec original_size) = true ->
        run_ok first = false \/ run_effect first fs out = None ->
        result_of r = Returned false
        /\ length (calls_of r) = 1%nat
        /\ files_of r = run_effect first fs)
  /\ (fs input_path = Some 0 ->
      supported_codec (resolve_codec codec 0) = true ->
      run_ok first = true ->
      run_effect first fs out <> None ->
      result_of r = Raised "ZeroDivisionError"%string
      /\ length (calls_of r) = 1%nat)
  /\ (forall original_size,
        supported_codec (resolve_codec "auto" original_size) = true)
  /\ (codec = "auto"%string ->
      fs input_path = Some 0 ->
      run_ok first = true ->
      run_effect first fs out <> None ->
      result_of r = Raised "ZeroDivisionError"%string
      /\ length (calls_of r) = 1%nat).
Proof.
  cbv zeta.
  assert (Hauto : forall original_size,
            supported_codec (resolve_codec "auto" original_size) = true).
  { intros original_size. unfold resolve_codec, auto_codec.
    cbn [String.eqb Ascii.eqb Bool.eqb].
    destruct (500 * MiB <? original_size); [reflexivity |].
    destruct (100 * MiB <? original_size); reflexivity. }
  assert (Hzero : fs input_path = Some 0 ->
            supported_codec (resolve_codec codec 0) = true ->
            run_ok first = true ->
            run_effect first fs (resolve_output input_path output_path)
            <> None ->
            result_of (smart_compress_video fs input_path output_path codec
                         quality target_reduction first second)
            = Raised "ZeroDivisionError"%string
            /\ length (calls_of (smart_compress_video fs input_path
                                   output_path codec quality target_reduction
                                   first second)) = 1%nat).
  { unfold smart_compress_video, calls_of, result_of, files_of.
    fold (resolve_output input_path output_path).
    set (out := resolve_output input_path output_path).
    intros -> Hsup Hok Hout. fold (resolve_codec codec 0).
    rewrite Hsup, Hok. cbn [negb].
    destruct (run_effect first fs out); [| contradiction].
    split; reflexivity. }
  revert Hzero.
  unfold smart_compress_video, calls_of, result_of, files_of.
  fold (resolve_output input_path output_path).
  set (out := resolve_output input_path output_path).
  intros Hzero.
  split; [| split; [| split; [| split; [| split; [| split; [| split]]]]]].
  - destruct (fs input_path) as [size |]; [| discriminate].
    destruct (negb (supported_codec _)); [discriminate |].
    destruct (run_ok first); [| discriminate].
    destruct (run_effect first fs out); [| discriminate].
    intros _. split; [reflexivity | discriminate].
  - destruct (fs input_path) as [size |]; [| discriminate].
    destruct (negb (supported_codec _)); [left; split; reflexivity |].
    destruct (run_ok first) eqn:Hok.
    + destruct (run_effect first fs out) eqn:Hout.
      * destruct (size =? 0); [discriminate |].
        destruct (reduction_below _ _ _ && negb _);
          [| discriminate].
        destruct (run_ok second).
        -- destruct (run_effect second _ out); [| discriminate].
           destruct (run_effect second _ (backup_of out)); discriminate.
        -- destruct (run_effect second _ (backup_of out)); discriminate.
      * intros _. right. repeat split. right. reflexivity.
    + intros _. right. repeat split. left. reflexivity.
  - intros ->. repeat split.
  - intros original_size -> Hsup. fold (resolve_codec codec original_size).
    rewrite Hsup. cbn [negb]. repeat split.
  - intros original_size -> Hsup Hfail.
    fold (resolve_codec codec original_size).
    rewrite Hsup. cbn [negb].
    destruct Hfail as [-> | Hnone]; [repeat split |].
    destruct (run_ok first); rewrite ?Hnone; repeat split.
  - exact Hzero.
  - exact Hauto.
  - intros -> Hsize Hok Hout. apply Hzero; try assumption. apply Hauto.
Qed.

(** The witness: a missing input; an empty input with the default codec;
    a codec that is not known. *)
Lemma compression_result_meaning_witness :
  result_of (smart_compress_video (fun _ => None) "missing.mp4" None "auto"
               "medium" 50 run_failing run_failing)
  = Raised "FileNotFoundError"%string
  /\ result_of (smart_compress_video
                  (fs_write (fun _ => None) "empty.mp4" (Some 0))
                  "empty.mp4" None "auto" "medium" 50
                  (run_writing "empty_compressed.mp4" 1) run_failing)
     = Raised "ZeroDivisionError"%string
  /\ (result_of (smart_compress_video one_recording
                   "surveillance_outputs/a.mp4" None "mpeg2" "medium" 50
                   (run_writing "surveillance_outputs/a_compressed.mp4"
                      (8 * MiB))
                   run_failing)
      = Returned false
      /\ calls_of (smart_compress_video one_recording
                     "surveillance_outputs/a.mp4" None "mpeg2" "medium" 50
                     (run_writing "surveillance_outputs/a_compressed.mp4"
                        (8 * MiB))
                     run_failing)
         = []).
Proof.
  split; [| split].
  - exact (proj1 (proj1 (proj2 (proj2
             (compression_result_meaning (fun _ => None) "missing.mp4" None
                "auto" "medium" 50 run_failing run_failing))) eq_refl)).
  - destruct (compression_result_meaning
                (fs_write (fun _ => None) "empty.mp4" (Some 0))
                "empty.mp4" None "auto" "medium" 50
                (run_writing "empty_compressed.mp4" 1) run_failing)
      as (_ & _ & _ & _ & _ & _ & _ & Hauto).
    apply Hauto; [reflexivity | reflexivity | reflexivity |].
    vm_compute. discriminate.
  - destruct (compression_result_meaning one_recording
                "surveillance_outputs/a.mp4" None "mpeg2" "medium" 50
                (run_writing "surveillance_outputs/a_compressed.mp4"
                   (8 * MiB))
                run_failing)
      as (_ & _ & _ & Hunknown & _).
    destruct (Hunknown (10 * MiB) eq_refl eq_refl) as (Hr & Hc & _).
    split; assumption.
Defined.

(** ** The URL of an upload *)

Lemma str_append_cancel (p a b : string) :
  (p ++ a)%string = (p ++ b)%string -> a = b.
Proof.
  induction p as [| c r IH]; cbn; [tauto |].
  intros H. injection H as H. exact (IH H).
Qed.

(** X16: both upload functions return [None] without requesting an upload
    when the local file is missing, and [None] when the upload raises; when
    both return a URL for the same file it is the same URL unless the
    region is [us-east-1], where [upload_video_to_s3] gives the URL without
    region and [upload_video_with_progress] the one with it. *)
Theorem upload_urls_differ_in_us_east_1
  (bucket region : option string) (fs : FS) (local_path : string)
  (s3_filename : option string) (use_multipart : bool)
  (upload : PyResult unit) :
  let plain := upload_video_to_s3 bucket region fs local_path s3_filename
                 use_multipart true upload in
  let tracked := upload_video_with_progress bucket region fs local_path
                   s3_filename true upload in
  (fs local_path = None -> plain = (None, []) /\ tracked = (None, []))
  /\ (fst plain = None <-> fst tracked = None)
  /\ (fst plain = None <->
      fs local_path = None \/ exists e, upload = Raised e)
  /\ (fst plain <> None ->
      (fst plain = fst tracked <-> is_us_east_1 region = false)).
Proof.
  cbv zeta. unfold upload_video_to_s3, upload_video_with_progress.
  cbn [negb].
  split; [intros ->; split; reflexivity |].
  destruct (fs local_path) as [size |]; cbn [fst].
  - destruct upload as [u | e]; cbn [fst].
    + split; [split; discriminate |].
      split; [split; [discriminate | intros [H | [e H]]; discriminate] |].
      intros _. destruct (is_us_east_1 region) eqn:Hr.
      * split; [| discriminate]. intros H. injection H as H.
        unfold global_url, regional_url in H.
        destruct region as [r |]; [| discriminate Hr].
        cbn [is_us_east_1] in Hr. apply String.eqb_eq in Hr. subst r.
        apply (str_append_cancel (show_env bucket)) in H.
        cbn in H. discriminate H.
      * split; reflexivity.
    + split; [split; reflexivity |].
      split; [split; [intros _; right; exists e; reflexivity | reflexivity] |].
      intros H. contradiction.
  - split; [split; reflexivity |].
    split; [split; [intros _; left; reflexivity | reflexivity] |].
    intros H. contradiction.
Qed.

Lemma upload_urls_differ_in_us_east_1_witness :
  fst (upload_video_to_s3 (Some "cam"%string) (Some "us-east-1"%string)
         one_recording "surveillance_outputs/a.mp4" None true true
         (Returned tt))
  <> fst (upload_video_with_progress (Some "cam"%string)
            (Some "us-east-1"%string) one_recording
            "surveillance_outputs/a.mp4" None true (Returned tt)).
Proof.
  destruct (upload_urls_differ_in_us_east_1 (Some "cam"%string)
              (Some "us-east-1"%string) one_recording
              "surveillance_outputs/a.mp4" None true (Returned tt))
    as (_ & _ & _ & Hcmp).
  intros E. assert (Hsome : fst (upload_video_to_s3 (Some "cam"%string)
                                   (Some "us-east-1"%string) one_recording
                                   "surveillance_outputs/a.mp4" None true
                                   true (Returned tt)) <> None)
    by discriminate.
  pose proof (proj1 (Hcmp Hsome) E) as H. discriminate H.
Defined.

(** ** Settings changed during a session *)

(** X17: a call of [update_settings] that returns always empties the
    presence window, also when the window size is not changed and also in
    the middle of a session: the detection score is 0 afterwards.  A call
    that raises leaves the window and so the score as they were.  In both
    cases the state of the room, the exit timer, the video writer and the
    entry time are left as they are. *)
Theorem update_settings_resets_score
  (self : System) (confidence : Q) (area : PyNumber) (patience_s : Z)
  (window_size : PyNumber) (allocated : bool) :
  let result :=
    update_settings self confidence area patience_s window_size allocated in
  (status (fst result) = status self
   /\ initial_time (fst result) = initial_time self
   /\ out (fst result) = out self
   /\ entry_time (fst result) = entry_time self)
  /\ (forall message,
        snd result = Returned message ->
        window_sum (fst result) = 0
        /\ Deque.items (de (fst result))
           = falses (detection_thresh (fst result))
        /\ message = "Settings updated successfully!"%string)
  /\ (forall e,
        snd result = Raised e ->
        de (fst result) = de self
        /\ window_sum (fst result) = window_sum self).
Proof.
  cbv zeta. unfold update_settings.
  destruct (py_int_of area) as [a | e1];
    [| cbn; repeat split; try reflexivity; discriminate].
  destruct (py_int_of window_size) as [n | e1];
    [| cbn; repeat split; try reflexivity; discriminate].
  destruct (fresh_window_cases n allocated)
    as [(Hn & _ & ->) | (e1 & -> & _)].
  - unfold window_sum. cbn. rewrite sum_bools_falses.
    repeat split; try reflexivity; try discriminate.
    match goal with
    | H : Returned _ = Returned _ |- _ => injection H as <-
    end.
    reflexivity.
  - cbn. repeat split; try reflexivity; discriminate.
Qed.

Lemma update_settings_resets_score_witness :
  (window_sum occupied_state = 5
   /\ window_sum (fst (update_settings occupied_state (1 # 2)
                         (Finite (2000 # 1)) 5 (Finite (8 # 1)) true))
      = 0)
  /\ window_sum (fst (update_settings occupied_state (1 # 2)
                        (Finite (2000 # 1)) 5
                        (Finite (inject_Z index_limit)) true))
     = window_sum occupied_state.
Proof.
  destruct (update_settings_resets_score occupied_state (1 # 2)
              (Finite (2000 # 1)) 5 (Finite (8 # 1)) true)
    as (_ & Hret & _).
  destruct (update_settings_resets_score occupied_state (1 # 2)
              (Finite (2000 # 1)) 5 (Finite (inject_Z index_limit)) true)
    as (_ & _ & Hraise).
  split; [split; [reflexivity |] |].
  - exact (proj1 (Hret _ eq_refl)).
  - exact (proj2 (Hraise _ eq_refl)).
Defined.
